(** * Verification of [scripts/verify.js]

    A shallow embedding of the data verification script of the
    apprenticeship-ratios repository: the index validator, the region
    (state file) validator, the search-index check and the report
    generator, with the module-level [results] accumulator, the console
    and [process.exitCode] threaded as explicit state, and JavaScript
    exceptions as an error result. *)

From Stdlib Require Import String Ascii List Bool Arith Lia DecimalString Permutation.
Import ListNotations.
Local Open Scope string_scope.
Set Warnings "-register-all".

(** ** JavaScript values as produced by [JSON.parse] *)

(** A JSON number, as far as the script can observe it: its truthiness
    ([ToBoolean], false for [0] and [-0]), its text in a template
    literal ([Number::toString]) and whether [new Date(n)] is a valid
    date (a finite time value in range). *)
Record number := mkNumber {
  number_truthy : bool;
  number_toString : string;
  number_isTime : bool
}.

(** [JObj] lists the own properties in enumeration order (the order of
    [Object.keys]); [JSON.parse] yields each key once. *)
Inductive value :=
| JNull
| JBool (b : bool)
| JNum (n : number)
| JStr (s : string)
| JArr (elems : list value)
| JObj (props : list (string * value)).

(** A JavaScript exception; the script only ever meets [TypeError]s. *)
Inductive exn :=
| TypeError (what : string).

(** The completion of an expression that may throw. *)
Inductive result (A : Type) :=
| Normal (a : A)
| Throw (e : exn).
Arguments Normal {A} a.
Arguments Throw {A} e.

Definition rbind {A B} (c : result A) (k : A -> result B) : result B :=
  match c with
  | Normal a => k a
  | Throw e => Throw e
  end.

Declare Scope result_scope.
Delimit Scope result_scope with result.
Notation "x <- c ;; k" := (rbind c (fun x => k))
  (at level 61, c at next level, right associativity) : result_scope.

(** The line feed of the script's [\n] escapes. *)
Definition LF : string := String (ascii_of_nat 10) EmptyString.

(** Decimal text of an array length or a counter. *)
Definition nat_toString (n : nat) : string :=
  NilEmpty.string_of_uint (Nat.to_uint n).

(** [arr.join(sep)] on an array of strings. *)
Fixpoint join (sep : string) (l : list string) : string :=
  match l with
  | [] => ""
  | [s] => s
  | s :: rest => s ++ sep ++ join sep rest
  end.

(** [arr.includes(s)] on an array of strings. *)
Fixpoint includes (l : list string) (s : string) : bool :=
  match l with
  | [] => false
  | x :: rest => String.eqb x s || includes rest s
  end.

(** [s.startsWith(p)]. *)
Definition startsWith (s p : string) : bool := String.prefix p s.

(** Own-property lookup in a parsed object. *)
Fixpoint lookup (key : string) (props : list (string * value)) : option value :=
  match props with
  | [] => None
  | (k, v) :: rest => if String.eqb k key then Some v else lookup key rest
  end.

(** [v.key] for the field names the script reads ([state], [stateName],
    [agencyType], [hasPublicWorksRequirement], [requirement],
    [lastVerified], [lastUpdated], [states] and the four requirement
    fields): none of them is an inherited or built-in property, so the
    read yields [undefined] ([None]) on a primitive or an array, the own
    property on an object, and throws on [null]. *)
Definition Get (v : value) (key : string) : result (option value) :=
  match v with
  | JNull => Throw (TypeError ("Cannot read properties of null (reading '" ++ key ++ "')"))
  | JObj props => Normal (lookup key props)
  | _ => Normal None
  end.

(** [ToBoolean]; [None] is [undefined]. *)
Definition truthy (v : option value) : bool :=
  match v with
  | None => false
  | Some JNull => false
  | Some (JBool b) => b
  | Some (JNum n) => number_truthy n
  | Some (JStr s) => negb (String.eqb s "")
  | Some (JArr _) => true
  | Some (JObj _) => true
  end.

(** [ToString] of a parsed value, as a template literal applies it.  An
    array joins its elements with a comma, [null] elements giving the
    empty text; a plain object gives [[object Object]], unless it has an
    own [toString] property, which after [JSON.parse] is never callable
    and makes the conversion throw. *)
Fixpoint ToString_value (v : value) : result string :=
  match v with
  | JNull => Normal "null"
  | JBool true => Normal "true"
  | JBool false => Normal "false"
  | JNum n => Normal (number_toString n)
  | JStr s => Normal s
  | JArr elems =>
      (fix join_elems (l : list value) : result string :=
         match l with
         | [] => Normal ""
         | e :: rest =>
             (s <- match e with JNull => Normal "" | _ => ToString_value e end ;;
              match rest with
              | [] => Normal s
              | _ => r <- join_elems rest ;; Normal (s ++ "," ++ r)
              end)%result
         end) elems
  | JObj props =>
      match lookup "toString" props with
      | Some _ => Throw (TypeError "Cannot convert object to primitive value")
      | None => Normal "[object Object]"
      end
  end.

Definition ToString (v : option value) : result string :=
  match v with
  | None => Normal "undefined"
  | Some v => ToString_value v
  end.

(** [typeof v === 'object'] *)
Definition typeof_object (v : option value) : bool :=
  match v with
  | Some JNull | Some (JArr _) | Some (JObj _) => true
  | _ => false
  end.

(** [typeof v === 'boolean'] *)
Definition typeof_boolean (v : option value) : bool :=
  match v with
  | Some (JBool _) => true
  | _ => false
  end.

(** [v === s] for a string [s]. *)
Definition strict_eq_string (v : option value) (s : string) : bool :=
  match v with
  | Some (JStr t) => String.eqb t s
  | _ => false
  end.

(** [Array.isArray(v)] *)
Definition Array_isArray (v : value) : bool :=
  match v with
  | JArr _ => true
  | _ => false
  end.

(** [Object.keys(v)] of a truthy value whose [typeof] is ['object']:
    the indices of an array, the own keys of an object. *)
Definition Object_keys (v : value) : list string :=
  match v with
  | JObj props => map fst props
  | JArr elems => map nat_toString (seq 0 (length elems))
  | _ => []
  end.

(** ** The environment of a run *)

(** [CONFIG], read from the command line. *)
Record Config := mkConfig {
  verbose : bool;
  json : bool
}.

(** What [fs.existsSync], [fs.readFileSync] and [JSON.parse] make of a
    path: no such file, a file whose reading or parsing throws (with the
    message of the exception), or a parsed document. *)
Inductive file :=
| NotFound
| Unparseable (message : string)
| Parsed (data : value).

(** The files of a run: those of [DATA_DIR] by file name, and the
    search index under [web/public]. *)
Record Files := mkFiles {
  data_file : string -> file;
  search_index_file : file
}.

(** ** The state of the process *)

(** An element of [results.details]. *)
Record entry := mkEntry {
  entry_type : string;
  entry_check : string;
  entry_details : value
}.

(** The module-level [results] object. *)
Record Results := mkResults {
  passed : nat;
  warnings : nat;
  errors : nat;
  details : list entry
}.

(** The [summary] object of the machine-readable report. *)
Record Summary := mkSummary {
  states : nat;
  statesWithRequirements : nat;
  statesWithIssues : nat
}.

(** The [report] object that [generateReport] prints with
    [JSON.stringify] in [--json] mode. *)
Record Report := mkReport {
  timestamp : string;
  status : string;
  summary : Summary;
  report_passed : nat;
  report_warnings : nat;
  report_errors : nat;
  report_details : list entry
}.

(** What [console.log] received: a line of text, or the report. *)
Inductive output :=
| Line (text : string)
| Document (report : Report).

(** [process.exitCode] is [undefined] ([None]) until assigned; the
    process then exits with status 0. *)
Record Process := mkProcess {
  results : Results;
  stdout : list output;
  stderr : list exn;
  exitCode : option nat
}.

Definition initial : Process :=
  mkProcess (mkResults 0 0 0 []) [] [] None.

Definition exit_status (p : Process) : nat :=
  match exitCode p with
  | Some n => n
  | None => 0
  end.

(** Statements: they change the process and complete normally with a
    value or abruptly with an exception. *)
Definition M (A : Type) : Type := Process -> result A * Process.

Definition ret {A} (a : A) : M A := fun p => (Normal a, p).

Definition bind {A B} (c : M A) (k : A -> M B) : M B :=
  fun p =>
    match c p with
    | (Normal a, p') => k a p'
    | (Throw e, p') => (Throw e, p')
    end.

Definition lift {A} (c : result A) : M A := fun p => (c, p).

Declare Scope proc_scope.
Delimit Scope proc_scope with proc.
Notation "x <- c ;; k" := (bind c (fun x => k))
  (at level 61, c at next level, right associativity) : proc_scope.
Notation "c ;; k" := (bind c (fun _ => k))
  (at level 61, right associativity) : proc_scope.

Definition console_log (o : output) : M unit :=
  fun p => (Normal tt, mkProcess (results p) (stdout p ++ [o]) (stderr p) (exitCode p)).

Definition console_error (e : exn) : M unit :=
  fun p => (Normal tt, mkProcess (results p) (stdout p) (stderr p ++ [e]) (exitCode p)).

Definition set_exitCode (n : nat) : M unit :=
  fun p => (Normal tt, mkProcess (results p) (stdout p) (stderr p) (Some n)).

Definition update_results (f : Results -> Results) : M unit :=
  fun p => (Normal tt, mkProcess (f (results p)) (stdout p) (stderr p) (exitCode p)).

Definition get_results : M Results := fun p => (Normal (results p), p).

(** [results.passed++] *)
Definition incr_passed (r : Results) : Results :=
  mkResults (S (passed r)) (warnings r) (errors r) (details r).

(** [results.warnings++; results.details.push(e)] *)
Definition push_warning (e : entry) (r : Results) : Results :=
  mkResults (passed r) (S (warnings r)) (errors r) (details r ++ [e]).

(** [results.errors++; results.details.push(e)] *)
Definition push_error (e : entry) (r : Results) : Results :=
  mkResults (passed r) (warnings r) (S (errors r)) (details r ++ [e]).

(** ** The expected states *)

Definition EXPECTED_STATES : list string :=
  [ "AL"; "AK"; "AZ"; "AR"; "CA"; "CO"; "CT"; "DE"; "DC"; "FL";
    "GA"; "HI"; "ID"; "IL"; "IN"; "IA"; "KS"; "KY"; "LA"; "ME";
    "MD"; "MA"; "MI"; "MN"; "MS"; "MO"; "MT"; "NE"; "NV"; "NH";
    "NJ"; "NM"; "NY"; "NC"; "ND"; "OH"; "OK"; "OR"; "PA";
    "RI"; "SC"; "SD"; "TN"; "TX"; "UT"; "VT"; "VA"; "WA";
    "WV"; "WI"; "WY" ].

(** What [validateStateFile] returns for a file it could read. *)
Record Stats := mkStats {
  issues : nat;
  hasReq : option value
}.

(** The prototype of the object [stateStats]: [Object.prototype] for
    the object literal of [main], until an assignment to [__proto__]
    replaces it by the value assigned, a statistics object or [null]. *)
Inductive Prototype :=
| Object_prototype
| Null_prototype
| Stats_prototype (stats : Stats).

(** The object [stateStats] of [main]: its own properties in the order
    of their creation, and its prototype.  [Object.keys] and
    [Object.entries] enumerate the own properties, integer-like keys
    first; the script only takes their number and counts over them,
    which no order of enumeration changes ([count_stats_Permutation]). *)
Record StateStats := mkStateStats {
  own : list (string * option Stats);
  prototype : Prototype
}.

(** [const stateStats = {}] *)
Definition empty_object : StateStats := mkStateStats [] Object_prototype.

Fixpoint has_own (props : list (string * option Stats)) (key : string) : bool :=
  match props with
  | [] => false
  | (k, _) :: rest => String.eqb k key || has_own rest key
  end.

(** The value of an own property replaced, the property staying in
    its place. *)
Fixpoint replace_own (props : list (string * option Stats)) (key : string)
    (v : option Stats) : list (string * option Stats) :=
  match props with
  | [] => []
  | (k, x) :: rest =>
      if String.eqb k key then (k, v) :: rest else (k, x) :: replace_own rest key v
  end.

(** Whether the object inherits the accessor [__proto__] of
    [Object.prototype]: a statistics object inherits it too. *)
Definition inherits_proto_setter (p : Prototype) : bool :=
  match p with
  | Null_prototype => false
  | Object_prototype | Stats_prototype _ => true
  end.

(** [stateStats[key] = v], where [v] is [null] ([None]) or a statistics
    object.  An own property takes the value.  Otherwise the key
    [__proto__], when the accessor is inherited, calls its setter,
    which makes [v] the prototype and creates no property; any other
    key, for which the prototype chain holds at most a writable data
    property, becomes a new own property. *)
Definition assign (o : StateStats) (key : string) (v : option Stats) : StateStats :=
  if has_own (own o) key then
    mkStateStats (replace_own (own o) key v) (prototype o)
  else if String.eqb key "__proto__" && inherits_proto_setter (prototype o) then
    mkStateStats (own o)
                 match v with
                 | Some stats => Stats_prototype stats
                 | None => Null_prototype
                 end
  else
    mkStateStats (own o ++ [(key, v)]) (prototype o).

(** [issues.push(issue)] *)
Definition push (issues : list string) (issue : string) : list string :=
  (issues ++ [issue])%list.

(** The glyphs of the console lines. *)
Definition CHECK_MARK : string := "✓".
Definition WARNING_SIGN : string := "⚠".
Definition BALLOT_X : string := "✗".

(** ** The script *)

Section Script.

(** The command-line flags and the files of the run. *)
Variable CONFIG : Config.
Variable FILES : Files.

(** Whether the host's [Date.parse] accepts a text (gives a time value
    rather than [NaN]). *)
Variable Date_parse : string -> bool.

(** The absolute path of the data directory. *)
Variable DATA_DIR : string.

Local Open Scope proc_scope.

(** [!isNaN(new Date(v).getTime())]: the constructor parses a string,
    converts another primitive to a number of milliseconds, and turns
    an object or an array into a primitive first. *)
Definition Date_isValid (v : value) : result bool :=
  match v with
  | JNull => Normal true
  | JBool _ => Normal true
  | JNum n => Normal (number_isTime n)
  | JStr s => Normal (Date_parse s)
  | JArr _ | JObj _ => (s <- ToString_value v ;; Normal (Date_parse s))%result
  end.

Definition log (message : string) : M unit :=
  if json CONFIG then ret tt else console_log (Line message).

(** The text [${details ? ` - ${details}` : ''}] of a finding. *)
Definition details_suffix (details : value) : result string :=
  if truthy (Some details)
  then (s <- ToString_value details ;; Normal (" - " ++ s))%result
  else Normal "".

Definition pass (check : string) : M unit :=
  update_results incr_passed ;;
  if verbose CONFIG then log ("  " ++ CHECK_MARK ++ " " ++ check) else ret tt.

Definition warn (check : string) (details : value) : M unit :=
  update_results (push_warning (mkEntry "warning" check details)) ;;
  suffix <- lift (details_suffix details) ;;
  log ("  " ++ WARNING_SIGN ++ " WARNING: " ++ check ++ suffix).

Definition fail (check : string) (details : value) : M unit :=
  update_results (push_error (mkEntry "error" check details)) ;;
  suffix <- lift (details_suffix details) ;;
  log ("  " ++ BALLOT_X ++ " ERROR: " ++ check ++ suffix).

(** [EXPECTED_STATES.filter(s => !indexStates.includes(s))] *)
Definition missing (indexStates : list string) : list string :=
  filter (fun s => negb (includes indexStates s)) EXPECTED_STATES.

(** Returns the parsed index, or [None] for the script's [null]. *)
Definition validateIndexFile : M (option value) :=
  log (LF ++ "--- Validating index.json ---") ;;
  match data_file FILES "index.json" with
  | NotFound =>
      fail "index.json exists" (JStr "File not found") ;;
      ret None
  | Unparseable message =>
      pass "index.json exists" ;;
      fail "index.json is valid JSON" (JStr message) ;;
      ret None
  | Parsed index =>
      pass "index.json exists" ;;
      pass "index.json is valid JSON" ;;
      lastUpdated <- lift (Get index "lastUpdated") ;;
      match lastUpdated with
      | Some date_text =>
          if truthy lastUpdated then
            valid <- lift (Date_isValid date_text) ;;
            if valid then pass "lastUpdated is valid date"
            else fail "lastUpdated is valid date" date_text
          else fail "index.json has lastUpdated field" (JStr "")
      | None => fail "index.json has lastUpdated field" (JStr "")
      end ;;
      index_states <- lift (Get index "states") ;;
      match index_states with
      | Some states_value =>
          if negb (truthy index_states) || negb (typeof_object index_states) then
            fail "index.json has states object" (JStr "") ;;
            ret None
          else
            pass "index.json has states object" ;;
            let indexStates := Object_keys states_value in
            let missingStates := missing indexStates in
            (if (0 <? length missingStates)%nat
             then warn "All expected states present"
                       (JStr ("Missing: " ++ join ", " missingStates))
             else pass ("All " ++ nat_toString (length EXPECTED_STATES)
                               ++ " expected states present")) ;;
            ret (Some index)
      | None =>
          fail "index.json has states object" (JStr "") ;;
          ret None
      end
  end.

(** The checks of [validateStateFile] on a parsed document: the
    [issues] array, and [data.hasPublicWorksRequirement] for the
    returned statistics. *)
Definition stateIssues (stateCode : string) (data : value)
  : result (list string * option value) :=
  (let issues : list string := [] in
   state <- Get data "state" ;;
   issues <- (if negb (strict_eq_string state stateCode)
              then s <- ToString state ;;
                   Normal (push issues ("State code mismatch: " ++ s ++ " vs " ++ stateCode))
              else Normal issues) ;;
   stateName <- Get data "stateName" ;;
   issues <- Normal (if negb (truthy stateName)
                     then push issues ("Missing stateName") else issues) ;;
   agencyType <- Get data "agencyType" ;;
   issues <- (if negb (strict_eq_string agencyType "SAA" || strict_eq_string agencyType "OA")
              then s <- ToString agencyType ;;
                   Normal (push issues ("Invalid agencyType: " ++ s))
              else Normal issues) ;;
   hasPublicWorksRequirement <- Get data "hasPublicWorksRequirement" ;;
   issues <- Normal (if negb (typeof_boolean hasPublicWorksRequirement)
                     then push issues ("Missing or invalid hasPublicWorksRequirement")
                     else issues) ;;
   requirement <- Get data "requirement" ;;
   issues <- match requirement with
             | Some req =>
                 if truthy hasPublicWorksRequirement && truthy requirement then
                   requirementType <- Get req "requirementType" ;;
                   issues <- Normal (if negb (truthy requirementType)
                                     then push issues ("Missing requirement.requirementType")
                                     else issues) ;;
                   ratioDescription <- Get req "ratioDescription" ;;
                   issues <- Normal (if negb (truthy ratioDescription)
                                     then push issues ("Missing requirement.ratioDescription")
                                     else issues) ;;
                   statute <- Get req "statute" ;;
                   issues <- Normal (if negb (truthy statute)
                                     then push issues ("Missing requirement.statute")
                                     else issues) ;;
                   statuteUrl <- Get req "statuteUrl" ;;
                   issues <- Normal (if negb (truthy statuteUrl)
                                     then push issues ("Missing requirement.statuteUrl")
                                     else issues) ;;
                   if truthy statuteUrl then
                     match statuteUrl with
                     | Some (JStr url) =>
                         Normal (if negb (startsWith url "http")
                                 then push issues ("Invalid statute URL: " ++ url)
                                 else issues)
                     | _ => Throw (TypeError "req.statuteUrl.startsWith is not a function")
                     end
                   else Normal issues
                 else Normal issues
             | None => Normal issues
             end ;;
   issues <- Normal (if truthy hasPublicWorksRequirement && negb (truthy requirement)
                     then push issues ("hasPublicWorksRequirement is true but no requirement object")
                     else issues) ;;
   lastVerified <- Get data "lastVerified" ;;
   issues <- Normal (if negb (truthy lastVerified)
                     then push issues ("Missing lastVerified date") else issues) ;;
   Normal (issues, hasPublicWorksRequirement))%result.

(** [for (const issue of issues) warn(stateCode, issue)] *)
Fixpoint warn_each (stateCode : string) (issues : list string) : M unit :=
  match issues with
  | [] => ret tt
  | issue :: rest => warn stateCode (JStr issue) ;; warn_each stateCode rest
  end.

(** [issues.slice(0, 5)] *)
Definition slice_0_5 (issues : list string) : list string := firstn 5 issues.

Definition validateStateFile (stateCode : string) : M (option Stats) :=
  match data_file FILES (stateCode ++ ".json") with
  | NotFound =>
      fail (stateCode ++ ".json exists") (JStr "") ;;
      ret None
  | Unparseable message =>
      fail (stateCode ++ ".json is valid JSON") (JStr message) ;;
      ret None
  | Parsed data =>
      found <- lift (stateIssues stateCode data) ;;
      let issues := fst found in
      (if (0 <? length issues)%nat then
         warn_each stateCode (slice_0_5 issues) ;;
         if (5 <? length issues)%nat
         then warn stateCode
                   (JStr ("...and " ++ nat_toString (length issues - 5) ++ " more issues"))
         else ret tt
       else pass (stateCode ++ ".json structure is valid")) ;;
      ret (Some (mkStats (length issues) (snd found)))
  end.

(** [index.length] of an array. *)
Definition Array_length (v : value) : nat :=
  match v with
  | JArr elems => length elems
  | _ => 0
  end.

(** The [try] block throws only where the file cannot be read or
    parsed. *)
Definition validateSearchIndex : M unit :=
  log (LF ++ "--- Validating Search Index ---") ;;
  match search_index_file FILES with
  | NotFound =>
      warn "search-index.json exists" (JStr "Run build-search-index.js to generate")
  | Unparseable message =>
      pass "search-index.json exists" ;;
      fail "search-index.json is valid JSON" (JStr message)
  | Parsed index =>
      pass "search-index.json exists" ;;
      if negb (Array_isArray index)
      then fail "search-index.json is an array" (JStr "")
      else pass ("search-index.json has " ++ nat_toString (Array_length index) ++ " entries")
  end.

(** The counting loop of [generateReport]: the pair
    [(statesWithReq, statesWithIssues)]. *)
Fixpoint count_stats (entries : list (string * option Stats)) (acc : nat * nat)
  : nat * nat :=
  match entries with
  | [] => acc
  | (_, stats) :: rest =>
      count_stats rest
        match stats with
        | Some st =>
            ((if truthy (hasReq st) then S (fst acc) else fst acc),
             (if (0 <? issues st)%nat then S (snd acc) else snd acc))
        | None => acc
        end
  end.

(** [now] is the text of [new Date().toISOString()]. *)
Definition generateReport (now : string) (stateStats : StateStats)
  : M unit :=
  let counts := count_stats (own stateStats) (0, 0) in
  let statesWithReq := fst counts in
  let statesWithIssues := snd counts in
  r <- get_results ;;
  if json CONFIG then
    let report :=
      mkReport now
        (if (0 <? errors r)%nat then "failed"
         else if (0 <? warnings r)%nat then "passed_with_warnings" else "passed")
        (mkSummary (length (own stateStats)) statesWithReq statesWithIssues)
        (passed r) (warnings r) (errors r)
        (details r) in
    console_log (Document report) ;;
    set_exitCode (if (0 <? errors r)%nat then 1 else 0)
  else
    log (LF ++ "========================================") ;;
    log "         VERIFICATION SUMMARY" ;;
    log ("========================================" ++ LF) ;;
    log "Data Coverage:" ;;
    log ("  States: " ++ nat_toString (length (own stateStats))) ;;
    log ("  States with Requirements: " ++ nat_toString statesWithReq) ;;
    log ("  States with Issues: " ++ nat_toString statesWithIssues) ;;
    log (LF ++ "Verification Results:") ;;
    log ("  " ++ CHECK_MARK ++ " Passed: " ++ nat_toString (passed r)) ;;
    log ("  " ++ WARNING_SIGN ++ " Warnings: " ++ nat_toString (warnings r)) ;;
    log ("  " ++ BALLOT_X ++ " Errors: " ++ nat_toString (errors r)) ;;
    log (LF ++ "----------------------------------------") ;;
    (if (0 <? errors r)%nat then
       log (BALLOT_X ++ " VERIFICATION FAILED") ;;
       set_exitCode 1
     else if (0 <? warnings r)%nat then
       log (WARNING_SIGN ++ " VERIFICATION PASSED WITH WARNINGS")
     else
       log (CHECK_MARK ++ " VERIFICATION PASSED")) ;;
    log ("----------------------------------------" ++ LF).

(** The loop of [main] over [Object.entries(index.states)]. *)
Fixpoint validateStates (stateCodes : list string) (stateStats : StateStats)
  : M StateStats :=
  match stateCodes with
  | [] => ret stateStats
  | stateCode :: rest =>
      stats <- validateStateFile stateCode ;;
      validateStates rest (assign stateStats stateCode stats)
  end.

Definition main (now : string) : M unit :=
  log "========================================" ;;
  log "  Apprenticeship Ratios Verification" ;;
  log "========================================" ;;
  log ("Data directory: " ++ DATA_DIR) ;;
  index <- validateIndexFile ;;
  match index with
  | None =>
      log (LF ++ "Cannot continue without valid index.json") ;;
      set_exitCode 1
  | Some index =>
      log (LF ++ "--- Validating State Files ---") ;;
      index_states <- lift (Get index "states") ;;
      let stateCodes :=
        match index_states with
        | Some states_value => Object_keys states_value
        | None => []
        end in
      stateStats <- validateStates stateCodes empty_object ;;
      validateSearchIndex ;;
      generateReport now stateStats
  end.

(** [main().catch(err => ...)]: the run of the whole script from the
    initial process. *)
Definition script (now : string) : Process :=
  match main now initial with
  | (Normal _, p) => p
  | (Throw err, p) => snd ((console_error err ;; set_exitCode 1) p)
  end.

End Script.

(** ** Sample inputs *)

Module Sample.

(** A host whose [Date.parse] accepts ISO calendar dates of 2024. *)
Definition Date_parse (s : string) : bool := String.prefix "2024-" s.

Definition DATA_DIR : string := "/repo/data".

Definition human : Config := mkConfig false false.
Definition machine : Config := mkConfig false true.

(** A region document that passes every check of [validateStateFile]. *)
Definition region (stateCode : string) : value :=
  JObj [ ("state", JStr stateCode);
         ("stateName", JStr "Some State");
         ("agencyType", JStr "SAA");
         ("hasPublicWorksRequirement", JBool false);
         ("lastVerified", JStr "2024-01-15") ].

(** A region document with a requirement whose [statuteUrl] is [url]. *)
Definition region_with_url (stateCode : string) (url : value) : value :=
  JObj [ ("state", JStr stateCode);
         ("stateName", JStr "Some State");
         ("agencyType", JStr "OA");
         ("hasPublicWorksRequirement", JBool true);
         ("requirement",
          JObj [ ("requirementType", JStr "ratio");
                 ("ratioDescription", JStr "one apprentice per three journeyworkers");
                 ("statute", JStr "Labor Code 1777.5");
                 ("statuteUrl", url) ]);
         ("lastVerified", JStr "2024-01-15") ].

(** An index over the given region codes. *)
Definition index_of (codes : list string) : value :=
  JObj [ ("lastUpdated", JStr "2024-01-15");
         ("states", JObj (map (fun c => (c, JObj [])) codes)) ].

(** The data directory with a valid document for each of [codes]. *)
Definition data_of (index : file) (codes : list string) (name : string) : file :=
  if String.eqb name "index.json" then index
  else match find (fun c => String.eqb name (c ++ ".json")) codes with
       | Some c => Parsed (region c)
       | None => NotFound
       end.

(** All 51 regions valid, the search index built. *)
Definition complete : Files :=
  mkFiles (data_of (Parsed (index_of EXPECTED_STATES)) EXPECTED_STATES)
          (Parsed (JArr (map region EXPECTED_STATES))).

(** The same, the search index not built. *)
Definition complete_no_search_index : Files :=
  mkFiles (data_of (Parsed (index_of EXPECTED_STATES)) EXPECTED_STATES) NotFound.

(** A region document that fails nine checks. *)
Definition broken_region : value :=
  JObj [ ("hasPublicWorksRequirement", JStr "true");
         ("requirement", JObj []) ].

(** A data directory with the index over [CA] and [NV], where
    [CA.json] is the broken document and [NV.json] does not exist. *)
Definition partial : Files :=
  mkFiles (fun name =>
             if String.eqb name "index.json" then Parsed (index_of ["CA"; "NV"])
             else if String.eqb name "CA.json" then Parsed broken_region
             else NotFound)
          NotFound.

(** An index whose [states] is an array. *)
Definition array_index : Files :=
  mkFiles (fun name =>
             if String.eqb name "index.json"
             then Parsed (JObj [ ("lastUpdated", JStr "2024-01-15"); ("states", JArr []) ])
             else NotFound)
          NotFound.

(** All 51 regions valid, the search index an object. *)
Definition search_index_object : Files :=
  mkFiles (data_of (Parsed (index_of EXPECTED_STATES)) EXPECTED_STATES)
          (Parsed (JObj [])).

(** No index at all. *)
Definition no_index : Files := mkFiles (fun _ => NotFound) NotFound.

(** Two readings of the clock. *)
Definition noon : string := "2024-06-01T12:00:00.000Z".
Definition midnight : string := "2024-06-02T00:00:00.000Z".

End Sample.

(** ** Vocabulary of the statements *)

(** What [log] prints: nothing in [--json] mode. *)
Definition printed (cfg : Config) (lines : list string) : list output :=
  if json cfg then [] else map Line lines.

(** A statement [c] completes with [a] and changes the process only by
    applying [f] to [results] and by logging lines. *)
Definition effect {A} (cfg : Config) (c : M A) (a : result A) (f : Results -> Results)
  : Prop :=
  forall p, exists lines,
    c p = (a, mkProcess (f (results p)) (stdout p ++ printed cfg lines)
                        (stderr p) (exitCode p)).

(** The warnings that [validateStateFile] records for a list of issues. *)
Definition issue_entries (stateCode : string) (issues : list string) : list entry :=
  map (fun issue => mkEntry "warning" stateCode (JStr issue)) issues.

(** [n] warnings more, with their entries appended to the log. *)
Definition add_warnings (es : list entry) (r : Results) : Results :=
  mkResults (passed r) (length es + warnings r) (errors r) (details r ++ es).

(** What [validateStateFile] records for the issues of a region. *)
Definition report_issues (stateCode : string) (found : list string) (r : Results)
  : Results :=
  if (0 <? length found)%nat
  then add_warnings
         (issue_entries stateCode (firstn 5 found)
          ++ if (5 <? length found)%nat
             then [mkEntry "warning" stateCode
                     (JStr ("...and " ++ nat_toString (length found - 5) ++ " more issues"))]
             else [])%list r
  else incr_passed r.

(** The issues about [requirement.statuteUrl]: the missing one and the
    invalid one. *)
Definition url_issue (issue : string) : bool :=
  String.eqb issue "Missing requirement.statuteUrl"
  || startsWith issue "Invalid statute URL: ".

(** A [statuteUrl] on which [validateStateFile] does not throw: a falsy
    value, for which [startsWith] is not called, or a string. *)
Definition string_or_falsy (v : option value) : bool :=
  match v with
  | Some (JStr _) => true
  | _ => negb (truthy v)
  end.

(** The issue of a check, if the check fails. *)
Definition when (failed : bool) (issue : string) : list string :=
  if failed then [issue] else [].

(** [v.key] on a value that is not [null]. *)
Definition field (v : value) (key : string) : option value :=
  match v with
  | JObj props => lookup key props
  | _ => None
  end.

(** The issue of the test with [startsWith] on [req.statuteUrl]. *)
Definition urlIssues (statuteUrl : option value) : result (list string) :=
  if truthy statuteUrl then
    match statuteUrl with
    | Some (JStr url) =>
        Normal (when (negb (startsWith url "http")) ("Invalid statute URL: " ++ url))
    | _ => Throw (TypeError "req.statuteUrl.startsWith is not a function")
    end
  else Normal [].

(** The issues of the block that checks the requirement object. *)
Definition requirementIssues (hasPWR requirement : option value) : result (list string) :=
  match requirement with
  | Some req =>
      if truthy hasPWR && truthy requirement then
        (about_url <- urlIssues (field req "statuteUrl") ;;
         Normal (when (negb (truthy (field req "requirementType")))
                      "Missing requirement.requirementType"
                 ++ when (negb (truthy (field req "ratioDescription")))
                      "Missing requirement.ratioDescription"
                 ++ when (negb (truthy (field req "statute")))
                      "Missing requirement.statute"
                 ++ when (negb (truthy (field req "statuteUrl")))
                      "Missing requirement.statuteUrl"
                 ++ about_url)%list)%result
      else Normal []
  | None => Normal []
  end.

(** A statement that changes the process only in [results] and on the
    standard output, whatever its completion. *)
Definition tame {A} (cfg : Config) (c : M A) : Prop := exists a f, effect cfg c a f.

(** The test of [validateIndexFile] on [index.states]: truthy, and of
    type ['object']. *)
Definition states_ok (index_states : option value) : bool :=
  truthy index_states && typeof_object index_states.

(** The keys of [index.states], none for [undefined]. *)
Definition keys_of (index_states : option value) : list string :=
  match index_states with
  | Some states_value => Object_keys states_value
  | None => []
  end.

(** What the check of [lastUpdated] records. *)
Definition lastUpdated_check (Date_parse : string -> bool) (index : value)
  : result (Results -> Results) :=
  let lastUpdated := field index "lastUpdated" in
  match lastUpdated with
  | Some date_text =>
      if truthy lastUpdated then
        (valid <- Date_isValid Date_parse date_text ;;
         Normal (if valid : bool then incr_passed
                 else push_error (mkEntry "error" "lastUpdated is valid date" date_text)))%result
      else Normal (push_error (mkEntry "error" "index.json has lastUpdated field" (JStr "")))
  | None => Normal (push_error (mkEntry "error" "index.json has lastUpdated field" (JStr "")))
  end.

(** What the comparison with [EXPECTED_STATES] records. *)
Definition coverage_check (indexStates : list string) (r : Results) : Results :=
  if (0 <? length (missing indexStates))%nat
  then push_warning
         (mkEntry "warning" "All expected states present"
                  (JStr ("Missing: " ++ join ", " (missing indexStates)))) r
  else incr_passed r.

(** A region whose file parses and passes every check. *)
Definition region_valid (files : Files) (stateCode : string) : bool :=
  match data_file files (stateCode ++ ".json") with
  | Parsed data =>
      match stateIssues stateCode data with
      | Normal ([], _) => true
      | _ => false
      end
  | _ => false
  end.

(** The report with its [timestamp] blanked. *)
Definition without_timestamp (o : output) : output :=
  match o with
  | Line text => Line text
  | Document r =>
      Document (mkReport "" (status r) (summary r) (report_passed r)
                         (report_warnings r) (report_errors r) (report_details r))
  end.

(** What [validateSearchIndex] records. *)
Definition search_check (files : Files) (r : Results) : Results :=
  match search_index_file files with
  | NotFound =>
      push_warning (mkEntry "warning" "search-index.json exists"
                            (JStr "Run build-search-index.js to generate")) r
  | Unparseable message =>
      push_error (mkEntry "error" "search-index.json is valid JSON" (JStr message))
                 (incr_passed r)
  | Parsed index =>
      if Array_isArray index then incr_passed (incr_passed r)
      else push_error (mkEntry "error" "search-index.json is an array" (JStr ""))
                      (incr_passed r)
  end.

(** Statements that record neither an error nor a warning. *)
Definition clean (f : Results -> Results) : Prop :=
  forall r, errors (f r) = errors r /\ warnings (f r) = warnings r.

(** The three overall outcomes of the specification, and its rule of
    precedence. *)
Inductive overall :=
| Failed
| PassedWithWarnings
| PassedClean.

Definition overall_of (n_errors n_warnings : nat) : overall :=
  if (0 <? n_errors)%nat then Failed
  else if (0 <? n_warnings)%nat then PassedWithWarnings
  else PassedClean.

(** How each mode words the outcome: the [status] field of the report,
    and the verdict line of the summary. *)
Definition status_text (o : overall) : string :=
  match o with
  | Failed => "failed"
  | PassedWithWarnings => "passed_with_warnings"
  | PassedClean => "passed"
  end.

Definition verdict_line (o : overall) : string :=
  match o with
  | Failed => BALLOT_X ++ " VERIFICATION FAILED"
  | PassedWithWarnings => WARNING_SIGN ++ " VERIFICATION PASSED WITH WARNINGS"
  | PassedClean => CHECK_MARK ++ " VERIFICATION PASSED"
  end.

(** The report of the machine-readable mode. *)
Definition report_of (now : string) (stateStats : StateStats)
    (r : Results) : Report :=
  mkReport now (status_text (overall_of (errors r) (warnings r)))
           (mkSummary (length (own stateStats))
                      (fst (count_stats (own stateStats) (0, 0)))
                      (snd (count_stats (own stateStats) (0, 0))))
           (passed r) (warnings r) (errors r) (details r).

(** The issue about the region code. *)
Definition mismatch_issue (issue : string) : bool :=
  startsWith issue "State code mismatch: ".

(** The issues about the fields of the requirement object. *)
Definition requirement_issue (issue : string) : bool :=
  startsWith issue "Missing requirement." || startsWith issue "Invalid statute URL: ".

(** A document on which no check of [validateStateFile] fails. *)
Definition valid_document (stateCode : string) (data : value) : bool :=
  strict_eq_string (field data "state") stateCode
  && truthy (field data "stateName")
  && (strict_eq_string (field data "agencyType") "SAA"
      || strict_eq_string (field data "agencyType") "OA")
  && typeof_boolean (field data "hasPublicWorksRequirement")
  && (if truthy (field data "hasPublicWorksRequirement") then
        match field data "requirement" with
        | Some req =>
            truthy (Some req)
            && truthy (field req "requirementType")
            && truthy (field req "ratioDescription")
            && truthy (field req "statute")
            && match field req "statuteUrl" with
               | Some (JStr url) => negb (url =? "") && startsWith url "http"
               | _ => false
               end
        | None => false
        end
      else true)
  && truthy (field data "lastVerified").

(** A statement keeps a property of [results]. *)
Definition keeps (I : Results -> Prop) {A} (c : M A) : Prop :=
  forall p, I (results p) -> I (results (snd (c p))).

(** The number of entries of a type in the detail log. *)
Definition count_type (type : string) (log : list entry) : nat :=
  length (filter (fun e => String.eqb (entry_type e) type) log).

(** Every warning and every error has its entry in the detail log, and
    the log has no other entry. *)
Definition accounted (r : Results) : Prop :=
  count_type "warning" (details r) = warnings r
  /\ count_type "error" (details r) = errors r
  /\ length (details r) = warnings r + errors r.

(** [r] continues [r0]: no counter is smaller and the detail log only
    has more entries at its end. *)
Definition continues (r0 r : Results) : Prop :=
  passed r0 <= passed r
  /\ warnings r0 <= warnings r
  /\ errors r0 <= errors r
  /\ exists added, details r = (details r0 ++ added)%list.

(** Two statements agree for a relation between processes: from
    related processes they complete alike and leave related
    processes. *)
Definition agree (R : Process -> Process -> Prop) {A} (c c' : M A) : Prop :=
  forall p p', R p p' -> fst (c p) = fst (c' p') /\ R (snd (c p)) (snd (c' p')).

(** [l] is [l'] with some elements left out. *)
Inductive subsequence {A : Type} : list A -> list A -> Prop :=
| subsequence_nil : subsequence [] []
| subsequence_keep x l l' : subsequence l l' -> subsequence (x :: l) (x :: l')
| subsequence_skip x l l' : subsequence l l' -> subsequence l (x :: l').

(** The lines of the human-readable summary. *)
Definition summary_lines (stateStats : StateStats) (r : Results)
  : list string :=
  [ LF ++ "========================================";
    "         VERIFICATION SUMMARY";
    "========================================" ++ LF;
    "Data Coverage:";
    "  States: " ++ nat_toString (length (own stateStats));
    "  States with Requirements: " ++ nat_toString (fst (count_stats (own stateStats) (0, 0)));
    "  States with Issues: " ++ nat_toString (snd (count_stats (own stateStats) (0, 0)));
    LF ++ "Verification Results:";
    "  " ++ CHECK_MARK ++ " Passed: " ++ nat_toString (passed r);
    "  " ++ WARNING_SIGN ++ " Warnings: " ++ nat_toString (warnings r);
    "  " ++ BALLOT_X ++ " Errors: " ++ nat_toString (errors r);
    LF ++ "----------------------------------------";
    verdict_line (overall_of (errors r) (warnings r));
    "----------------------------------------" ++ LF ].

(** Two runs with the same findings and the same uncaught exception. *)
Definition same_findings (p p' : Process) : Prop :=
  results p = results p' /\ stderr p = stderr p'.

(** [p'] is [p] with one more line for each passed check. *)
Definition quieter (p p' : Process) : Prop :=
  results p = results p'
  /\ stderr p = stderr p'
  /\ exitCode p = exitCode p'
  /\ subsequence (stdout p) (stdout p')
  /\ length (stdout p') = length (stdout p) + passed (results p).

(** What [validateStateFile] returns for a region when it returns:
    [null] for a file it cannot read, the statistics of the document
    otherwise. *)
Definition region_stats (files : Files) (stateCode : string) : option Stats :=
  match data_file files (stateCode ++ ".json") with
  | Parsed data =>
      match stateIssues stateCode data with
      | Normal (found, hasPWR) => Some (mkStats (length found) hasPWR)
      | Throw _ => None
      end
  | _ => None
  end.

(** The regions that the summary counts as having a requirement, and as
    having issues. *)
Definition with_requirement (files : Files) (stateCode : string) : bool :=
  match region_stats files stateCode with
  | Some stats => truthy (hasReq stats)
  | None => false
  end.

Definition with_issues (files : Files) (stateCode : string) : bool :=
  match region_stats files stateCode with
  | Some stats => (0 <? issues stats)%nat
  | None => false
  end.

(** More sample inputs. *)
Module Example.

(** The index over [CA] and [NV], where [CA.json] holds [null] and
    [NV.json] is valid. *)
Definition null_region : Files :=
  mkFiles (fun name =>
             if String.eqb name "index.json" then Parsed (Sample.index_of ["CA"; "NV"])
             else if String.eqb name "CA.json" then Parsed JNull
             else if String.eqb name "NV.json" then Parsed (Sample.region "NV")
             else NotFound)
          (Parsed (JArr [])).

(** An index without [lastUpdated], over the valid region [NV]. *)
Definition undated_index : value :=
  JObj [ ("states", JObj [ ("NV", JObj []) ]) ].

Definition undated : Files :=
  mkFiles (Sample.data_of (Parsed undated_index) ["NV"]) (Parsed (JArr [])).

(** An index whose [states] is an array of two codes. *)
Definition listed_index : value :=
  JObj [ ("lastUpdated", JStr "2024-01-15"); ("states", JArr [JStr "CA"; JStr "NV"]) ].

Definition listed : Files :=
  mkFiles (Sample.data_of (Parsed listed_index) []) NotFound.

(** The data directory of [Sample.partial] with a stray file that the
    index does not list. *)
Definition with_stray_file : Files :=
  mkFiles (fun name =>
             if String.eqb name "ZZ.json" then Parsed JNull
             else data_file Sample.partial name)
          (search_index_file Sample.partial).

(** An index over the keys [__proto__] and [NV], both with a valid
    document, the first with a requirement. *)
Definition with_proto_key : Files :=
  mkFiles (fun name =>
             if String.eqb name "index.json"
             then Parsed (Sample.index_of ["__proto__"; "NV"])
             else if String.eqb name "__proto__.json"
             then Parsed (Sample.region_with_url "__proto__" (JStr "https://example.org/law"))
             else if String.eqb name "NV.json" then Parsed (Sample.region "NV")
             else NotFound)
          (Parsed (JArr [])).

End Example.

(** The three failures of the index on which [main] stops: the file is
    missing, it cannot be parsed, or the [states] field of the document
    is absent, falsy or not of type ['object']. *)
Definition index_failure (files : Files) : bool :=
  match data_file files "index.json" with
  | NotFound => true
  | Unparseable _ => true
  | Parsed index => negb (states_ok (field index "states"))
  end.

(** The index documents on which a check of [validateIndexFile] throws
    before the test of [states]: [null], of which no property can be
    read, and a [lastUpdated] that [new Date] cannot convert. *)
Definition index_check_throws (Date_parse : string -> bool) (files : Files) : bool :=
  match data_file files "index.json" with
  | Parsed JNull => true
  | Parsed index =>
      match lastUpdated_check Date_parse index with
      | Throw _ => true
      | Normal _ => false
      end
  | _ => false
  end.

(** The end of an aborted run, read off the process: exit status 1,
    no exception on the standard error, no report, and as the last line
    of the human-readable output the message that the run cannot
    continue ([log] prints nothing in [--json] mode). *)
Definition aborted (cfg : Config) (p : Process) : Prop :=
  exit_status p = 1
  /\ stderr p = []
  /\ (forall report, ~ In (Document report) (stdout p))
  /\ (json cfg = false ->
      exists lines,
        stdout p = map Line (lines ++ [LF ++ "Cannot continue without valid index.json"])).

(** What [validateStateFile] records for a region: one error for a file
    that is missing or cannot be parsed, the findings of
    [report_issues] for a document, nothing when a check throws. *)
Definition region_check (files : Files) (stateCode : string) (r : Results) : Results :=
  match data_file files (stateCode ++ ".json") with
  | NotFound => push_error (mkEntry "error" (stateCode ++ ".json exists") (JStr "")) r
  | Unparseable message =>
      push_error (mkEntry "error" (stateCode ++ ".json is valid JSON") (JStr message)) r
  | Parsed data =>
      match stateIssues stateCode data with
      | Normal (found, _) => report_issues stateCode found r
      | Throw _ => r
      end
  end.

(** What the loop of [main] has recorded after the regions [stateCodes]. *)
Definition regions_check (files : Files) (stateCodes : list string) (r : Results)
  : Results :=
  fold_left (fun r stateCode => region_check files stateCode r) stateCodes r.

(** The keys of [index.states] that become properties of [stateStats]:
    all but [__proto__], whose assignment sets the prototype. *)
Definition counted (stateCodes : list string) : list string :=
  filter (fun k => negb (String.eqb k "__proto__")) stateCodes.

(** ** Effects of the reporting primitives *)

Lemma printed_nil cfg : printed cfg [] = [].
Proof. unfold printed. now destruct (json cfg). Qed.

Lemma printed_app cfg l1 l2 :
  printed cfg (l1 ++ l2) = (printed cfg l1 ++ printed cfg l2)%list.
Proof. unfold printed. destruct (json cfg); [reflexivity | apply map_app]. Qed.

Lemma effect_ret {A} cfg (a : A) : effect cfg (ret a) (Normal a) (fun r => r).
Proof.
  intros [r o e x]. exists []. unfold ret. cbn.
  now rewrite printed_nil, app_nil_r.
Qed.

Lemma effect_bind {A B} cfg (c : M A) (k : A -> M B) a b f g :
  effect cfg c (Normal a) f -> effect cfg (k a) b g ->
  effect cfg (bind c k) b (fun r => g (f r)).
Proof.
  intros Hc Hk p. unfold bind.
  destruct (Hc p) as [l1 ->].
  destruct (Hk (mkProcess (f (results p)) (stdout p ++ printed cfg l1)
                          (stderr p) (exitCode p)))
    as [l2 ->].
  exists (l1 ++ l2)%list. cbn. now rewrite printed_app, app_assoc.
Qed.

Lemma effect_throw {A B} cfg (c : M A) (k : A -> M B) e f :
  effect cfg c (Throw e) f -> effect cfg (bind c k) (Throw e) f.
Proof.
  intros Hc p. unfold bind. destruct (Hc p) as [l1 ->]. now exists l1.
Qed.

Lemma effect_lift {A} cfg (c : result A) : effect cfg (lift c) c (fun r => r).
Proof.
  intros [r o e x]. exists []. unfold lift. cbn.
  now rewrite printed_nil, app_nil_r.
Qed.

Lemma effect_ext {A} cfg (c : M A) a f g :
  (forall r, f r = g r) -> effect cfg c a f -> effect cfg c a g.
Proof.
  intros E H p. destruct (H p) as [l ->]. exists l. now rewrite E.
Qed.

Lemma effect_log cfg message : effect cfg (log cfg message) (Normal tt) (fun r => r).
Proof.
  intros [r o e x]. exists [message]. unfold log, printed.
  destruct (json cfg); cbn; [now rewrite app_nil_r | reflexivity].
Qed.

Lemma effect_update cfg f : effect cfg (update_results f) (Normal tt) f.
Proof.
  intros p. exists []. unfold update_results.
  now rewrite printed_nil, app_nil_r.
Qed.

Lemma effect_pass cfg check : effect cfg (pass cfg check) (Normal tt) incr_passed.
Proof.
  unfold pass.
  apply (effect_bind _ _ _ tt _ incr_passed (fun r => r)).
  - apply effect_update.
  - destruct (verbose cfg); [apply effect_log | apply effect_ret].
Qed.

Lemma effect_warn_value cfg check details suffix :
  details_suffix details = Normal suffix ->
  effect cfg (warn cfg check details) (Normal tt)
         (push_warning (mkEntry "warning" check details)).
Proof.
  intros Hs. unfold warn.
  apply (effect_bind _ _ _ tt _ _ (fun r => r)); [apply effect_update|].
  rewrite Hs.
  apply (effect_bind _ _ _ suffix _ (fun r => r) (fun r => r));
    [apply effect_lift | apply effect_log].
Qed.

Lemma effect_fail_value cfg check details suffix :
  details_suffix details = Normal suffix ->
  effect cfg (fail cfg check details) (Normal tt)
         (push_error (mkEntry "error" check details)).
Proof.
  intros Hs. unfold fail.
  apply (effect_bind _ _ _ tt _ _ (fun r => r)); [apply effect_update|].
  rewrite Hs.
  apply (effect_bind _ _ _ suffix _ (fun r => r) (fun r => r));
    [apply effect_lift | apply effect_log].
Qed.

Lemma details_suffix_text (text : string) :
  details_suffix (JStr text)
  = Normal (if negb (text =? "") then " - " ++ text else "").
Proof.
  unfold details_suffix. cbn. now destruct (negb (text =? "")).
Qed.

Lemma effect_warn cfg check (text : string) :
  effect cfg (warn cfg check (JStr text)) (Normal tt)
         (push_warning (mkEntry "warning" check (JStr text))).
Proof. eapply effect_warn_value, details_suffix_text. Qed.

Lemma effect_fail cfg check (text : string) :
  effect cfg (fail cfg check (JStr text)) (Normal tt)
         (push_error (mkEntry "error" check (JStr text))).
Proof. eapply effect_fail_value, details_suffix_text. Qed.

(** What an effect says of one run. *)
Lemma effect_run {A} cfg (c : M A) a f p :
  effect cfg c a f ->
  fst (c p) = a
  /\ results (snd (c p)) = f (results p)
  /\ stderr (snd (c p)) = stderr p
  /\ exitCode (snd (c p)) = exitCode p.
Proof.
  intros H. destruct (H p) as [out ->]. cbn. auto.
Qed.

(** ** Tame statements *)

Lemma tame_ret {A} cfg (a : A) : tame cfg (ret a).
Proof. eexists _, _. apply effect_ret. Qed.

Lemma tame_lift {A} cfg (c : result A) : tame cfg (lift c).
Proof. eexists _, _. apply effect_lift. Qed.

Lemma tame_bind {A B} cfg (c : M A) (k : A -> M B) :
  tame cfg c -> (forall a, tame cfg (k a)) -> tame cfg (bind c k).
Proof.
  intros (a & f & Hc) Hk. destruct a as [a|e].
  - destruct (Hk a) as (b & g & Hg). eexists _, _. eapply effect_bind; eassumption.
  - eexists _, _. eapply effect_throw; eassumption.
Qed.

Lemma tame_log cfg message : tame cfg (log cfg message).
Proof. eexists _, _. apply effect_log. Qed.

Lemma tame_pass cfg check : tame cfg (pass cfg check).
Proof. eexists _, _. apply effect_pass. Qed.

Lemma tame_warn cfg check details : tame cfg (warn cfg check details).
Proof.
  unfold warn. apply tame_bind; [eexists _, _; apply effect_update|].
  intros _. apply tame_bind; [apply tame_lift|]. intros suffix. apply tame_log.
Qed.

Lemma tame_fail cfg check details : tame cfg (fail cfg check details).
Proof.
  unfold fail. apply tame_bind; [eexists _, _; apply effect_update|].
  intros _. apply tame_bind; [apply tame_lift|]. intros suffix. apply tame_log.
Qed.

(** ** The findings of one region *)

Lemma effect_warn_each cfg stateCode l :
  effect cfg (warn_each cfg stateCode l) (Normal tt)
         (add_warnings (issue_entries stateCode l)).
Proof.
  induction l as [|issue rest IH]; cbn [warn_each].
  - eapply effect_ext; [|apply effect_ret].
    intros [a b c d]. unfold add_warnings. cbn. now rewrite app_nil_r.
  - eapply effect_ext; [|eapply effect_bind; [apply effect_warn | apply IH]].
    intros [a b c d]. unfold add_warnings, push_warning. cbn.
    rewrite <- app_assoc. cbn. now rewrite Nat.add_succ_r.
Qed.

(** The entries of the report block of [validateStateFile]: the
    issues passed to [warn] one by one, then possibly one more text. *)
Lemma effect_report_issues cfg stateCode l (more : bool) text :
  effect cfg (warn_each cfg stateCode l ;;
          (if more then warn cfg stateCode (JStr text) else ret tt))%proc
         (Normal tt)
         (add_warnings (issue_entries stateCode l
                        ++ if more then [mkEntry "warning" stateCode (JStr text)] else [])%list).
Proof.
  destruct more.
  - eapply effect_ext; [|eapply effect_bind; [apply effect_warn_each | apply effect_warn]].
    intros [a b c d]. unfold add_warnings, push_warning. cbn.
    rewrite length_app. cbn. f_equal; [lia | now rewrite app_assoc].
  - eapply effect_ext; [|eapply effect_bind; [apply effect_warn_each | apply effect_ret]].
    intros r. cbn. now rewrite app_nil_r.
Qed.

Lemma effect_validateStateFile_Parsed cfg files stateCode data found hasPWR :
  data_file files (stateCode ++ ".json") = Parsed data ->
  stateIssues stateCode data = Normal (found, hasPWR) ->
  effect cfg (validateStateFile cfg files stateCode)
         (Normal (Some (mkStats (length found) hasPWR)))
         (report_issues stateCode found).
Proof.
  intros Hfile Hissues.
  unfold validateStateFile, report_issues. rewrite Hfile, Hissues.
  eapply effect_ext; [|eapply effect_bind; [apply effect_lift|]].
  2:{ cbn [fst snd]. eapply effect_bind; [|apply effect_ret].
      instantiate (1 := report_issues stateCode found). unfold report_issues.
      destruct (0 <? length found)%nat.
      - apply effect_report_issues.
      - apply effect_pass. }
  reflexivity.
Qed.

Lemma effect_validateStateFile_throw cfg files stateCode data e :
  data_file files (stateCode ++ ".json") = Parsed data ->
  stateIssues stateCode data = Throw e ->
  effect cfg (validateStateFile cfg files stateCode) (Throw e) (fun r => r).
Proof.
  intros Hfile Hissues. unfold validateStateFile. rewrite Hfile, Hissues.
  apply effect_throw, effect_lift.
Qed.

Lemma effect_validateStateFile_NotFound cfg files stateCode :
  data_file files (stateCode ++ ".json") = NotFound ->
  effect cfg (validateStateFile cfg files stateCode) (Normal None)
         (push_error (mkEntry "error" (stateCode ++ ".json exists") (JStr ""))).
Proof.
  intros Hfile. unfold validateStateFile. rewrite Hfile.
  eapply effect_ext; [|eapply effect_bind; [apply effect_fail | apply effect_ret]].
  reflexivity.
Qed.

Lemma effect_validateStateFile_Unparseable cfg files stateCode message :
  data_file files (stateCode ++ ".json") = Unparseable message ->
  effect cfg (validateStateFile cfg files stateCode) (Normal None)
         (push_error (mkEntry "error" (stateCode ++ ".json is valid JSON") (JStr message))).
Proof.
  intros Hfile. unfold validateStateFile. rewrite Hfile.
  eapply effect_ext; [|eapply effect_bind; [apply effect_fail | apply effect_ret]].
  reflexivity.
Qed.

(** C7.  When the file of a region parses and its checks yield the
    list [found] of issues, [validateStateFile] records, for a non-empty
    list, one warning per issue for the first five issues in check
    order, followed, when there are more than five, by exactly one
    further warning that tells how many issues were left out; for an
    empty list it counts one passed check and records no warning.
    Nothing else in [results] changes. *)
Theorem validateStateFile_reports_issues cfg files stateCode data found hasPWR :
  data_file files (stateCode ++ ".json") = Parsed data ->
  stateIssues stateCode data = Normal (found, hasPWR) ->
  let verbatim := issue_entries stateCode (firstn 5 found) in
  let suppressed :=
    mkEntry "warning" stateCode
            (JStr ("...and " ++ nat_toString (length found - 5) ++ " more issues")) in
  effect cfg (validateStateFile cfg files stateCode)
         (Normal (Some (mkStats (length found) hasPWR)))
         (fun r =>
            if (0 <? length found)%nat
            then add_warnings
                   (verbatim ++ if (5 <? length found)%nat then [suppressed] else [])%list r
            else incr_passed r)
  /\ length verbatim = Nat.min 5 (length found).
Proof.
  intros Hfile Hissues verbatim suppressed. split.
  - apply (effect_validateStateFile_Parsed cfg files stateCode data found hasPWR Hfile Hissues).
  - unfold verbatim, issue_entries. now rewrite length_map, length_firstn.
Qed.

Lemma validateStateFile_reports_issues_witness :
  effect Sample.human (validateStateFile Sample.human Sample.partial "CA")
         (Normal (Some (mkStats 9 (Some (JStr "true")))))
         (add_warnings
            (issue_entries "CA"
               [ "State code mismatch: undefined vs CA";
                 "Missing stateName";
                 "Invalid agencyType: undefined";
                 "Missing or invalid hasPublicWorksRequirement";
                 "Missing requirement.requirementType" ]
             ++ [mkEntry "warning" "CA" (JStr "...and 4 more issues")])%list).
Proof.
  exact (proj1 (validateStateFile_reports_issues Sample.human Sample.partial "CA"
                  Sample.broken_region _ _ eq_refl eq_refl)).
Defined.

(** ** The checks of one region *)

Lemma Get_field v key : v <> JNull -> Get v key = Normal (field v key).
Proof. destruct v; intros H; try reflexivity. now destruct H. Qed.

Lemma truthy_not_null v : truthy (Some v) = true -> v <> JNull.
Proof. intros H ->. discriminate. Qed.

Lemma rbind_Normal {A B} (a : A) (k : A -> result B) : rbind (Normal a) k = k a.
Proof. reflexivity. Qed.

Lemma if_Normal {A} (b : bool) (x y : A) :
  (if b then Normal x else Normal y) = Normal (if b then x else y).
Proof. now destruct b. Qed.

Lemma if_push (b : bool) issues issue :
  (if b then push issues issue else issues) = (issues ++ when b issue)%list.
Proof. destruct b; cbn; [reflexivity | now rewrite app_nil_r]. Qed.

Lemma url_step (u : option value) issues :
  (if truthy u
   then match u with
        | Some (JStr url) =>
            Normal (if negb (startsWith url "http")
                    then push issues ("Invalid statute URL: " ++ url) else issues)
        | _ => Throw (TypeError "req.statuteUrl.startsWith is not a function")
        end
   else Normal issues)
  = (about_url <- urlIssues u ;; Normal (issues ++ about_url)%list)%result.
Proof.
  unfold urlIssues. destruct (truthy u).
  - destruct u as [[| | |url| |]|]; try reflexivity. cbn [rbind]. now rewrite if_push.
  - cbn. now rewrite app_nil_r.
Qed.

Ltac step :=
  first [ progress rewrite ?if_Normal, ?if_push
        | rewrite rbind_Normal; cbn beta ].

Lemma stateIssues_shape stateCode data s1 s2 :
  data <> JNull ->
  ToString (field data "state") = Normal s1 ->
  ToString (field data "agencyType") = Normal s2 ->
  stateIssues stateCode data = 
   (about_req <- requirementIssues (field data "hasPublicWorksRequirement") (field data "requirement") ;;
    Normal (when (negb (strict_eq_string (field data "state") stateCode))
                 ("State code mismatch: " ++ s1 ++ " vs " ++ stateCode)
            ++ when (negb (truthy (field data "stateName"))) "Missing stateName"
            ++ when (negb (strict_eq_string (field data "agencyType") "SAA"
                           || strict_eq_string (field data "agencyType") "OA"))
                 ("Invalid agencyType: " ++ s2)
            ++ when (negb (typeof_boolean (field data "hasPublicWorksRequirement")))
                 "Missing or invalid hasPublicWorksRequirement"
            ++ about_req
            ++ when (truthy (field data "hasPublicWorksRequirement")
                     && negb (truthy (field data "requirement")))
                 "hasPublicWorksRequirement is true but no requirement object"
            ++ when (negb (truthy (field data "lastVerified"))) "Missing lastVerified date",
            field data "hasPublicWorksRequirement")%list)%result.
Proof.
  intros Hn T1 T2. unfold stateIssues.
  rewrite !(Get_field data) by assumption. cbn zeta.
  rewrite rbind_Normal; cbn beta. rewrite T1.
  repeat step. rewrite T2. repeat step.
  unfold requirementIssues.
  destruct (field data "requirement") as [req|] eqn:Ereq.
  - destruct (truthy (field data "hasPublicWorksRequirement") && truthy (Some req)) eqn:Eboth.
    + apply andb_true_iff in Eboth as [Eh Er].
      rewrite !(Get_field req) by now apply truthy_not_null.
      repeat step. rewrite url_step.
      destruct (urlIssues (field req "statuteUrl")) as [about_url|e]; [|reflexivity].
      repeat step. cbn [app]. rewrite <- !app_assoc. reflexivity.
    + repeat step. cbn [app]. rewrite <- !app_assoc. reflexivity.
  - repeat step. cbn [app]. rewrite <- !app_assoc. reflexivity.
Qed.

Lemma In_when x b y : In x (when b y) <-> b = true /\ y = x.
Proof. destruct b; cbn; intuition discriminate. Qed.

Lemma urlIssues_string_or_falsy u :
  string_or_falsy u = true ->
  urlIssues u =
  Normal match u with
         | Some (JStr url) =>
             when (negb (url =? "") && negb (startsWith url "http"))
                  ("Invalid statute URL: " ++ url)
         | _ => []
         end.
Proof.
  unfold urlIssues, string_or_falsy.
  destruct u as [[| b | n | url | elems | uprops]|]; cbn; intros H;
    try discriminate H; try reflexivity.
  - apply negb_true_iff in H. now rewrite H.
  - apply negb_true_iff in H. now rewrite H.
  - now destruct (negb (url =? "")).
Qed.

Ltac member :=
  cbn [app]; rewrite ?in_app_iff, ?In_when; cbn [In append];
  rewrite ?negb_true_iff, ?andb_true_iff, ?negb_true_iff.


Ltac split_ifs :=
  repeat match goal with
         | |- context [if ?b then _ else _] => destruct b eqn:?
         end.

Lemma eqb_empty_false (s : string) : s <> "" -> negb (s =? "") = true.
Proof.
  intros H. destruct (String.eqb_spec s ""); [contradiction | reflexivity].
Qed.

Lemma prefix_empty (s : string) : prefix "" s = true.
Proof. now destruct s. Qed.

(** C6, as amended.  For a region document with
    [hasPublicWorksRequirement: true], a [requirement] object and a
    [statuteUrl] that is a non-empty string not starting with [http],
    the checks complete and the issues contain the invalid-URL issue and
    not the missing-URL issue: among the issues about the URL there is
    exactly that one. *)
Theorem invalid_statute_url_issue stateCode props rprops url s1 s2 :
  lookup "hasPublicWorksRequirement" props = Some (JBool true) ->
  lookup "requirement" props = Some (JObj rprops) ->
  lookup "statuteUrl" rprops = Some (JStr url) ->
  url <> "" ->
  startsWith url "http" = false ->
  ToString (lookup "state" props) = Normal s1 ->
  ToString (lookup "agencyType" props) = Normal s2 ->
  exists found,
    stateIssues stateCode (JObj props) = Normal (found, Some (JBool true))
    /\ In ("Invalid statute URL: " ++ url) found
    /\ ~ In "Missing requirement.statuteUrl" found
    /\ filter url_issue found = ["Invalid statute URL: " ++ url].
Proof.
  intros Hp Hr Hu Hne Hs T1 T2.
  apply eqb_empty_false in Hne.
  unfold stateIssues. cbn [Get rbind].
  rewrite Hp, Hr, T1, T2. cbn [truthy typeof_boolean negb andb rbind Get].
  rewrite Hu. cbn [truthy]. rewrite Hne, Hs. cbn [negb rbind].
  split_ifs; cbn [rbind]; eexists; (split; [reflexivity|]);
    unfold push; cbn [app In];
    (split; [tauto | split; [intuition discriminate | cbn; now rewrite prefix_empty]]).
Qed.

Lemma invalid_statute_url_issue_witness :
  exists found,
    stateIssues "CA" (Sample.region_with_url "CA" (JStr "ftp://example.org/statute"))
    = Normal (found, Some (JBool true))
    /\ In "Invalid statute URL: ftp://example.org/statute" found
    /\ ~ In "Missing requirement.statuteUrl" found
    /\ filter url_issue found = ["Invalid statute URL: ftp://example.org/statute"].
Proof.
  unfold Sample.region_with_url.
  eapply invalid_statute_url_issue with (s1 := "CA") (s2 := "OA");
    try reflexivity; discriminate.
Defined.

(** C6 fails on the empty string, a [statuteUrl] that does not begin
    with an HTTP(S) scheme: the script reports it as missing, and the
    invalid-URL issue is not among the issues. *)
Lemma empty_statute_url_counterexample :
  startsWith "" "http" = false
  /\ stateIssues "CA" (Sample.region_with_url "CA" (JStr ""))
     = Normal (["Missing requirement.statuteUrl"], Some (JBool true))
  /\ ~ In "Invalid statute URL: " ["Missing requirement.statuteUrl"].
Proof.
  split; [reflexivity | split; [reflexivity|]].
  cbn. intuition discriminate.
Qed.

(** C9.  When [hasPublicWorksRequirement] is truthy but not a boolean
    and the [requirement] object is present, the checks report the
    field as missing or invalid and still check the requirement: each
    of the four fields is reported exactly when it is falsy, a
    non-empty [statuteUrl] text is reported exactly when it does not
    start with [http], and the missing-object issue is not raised. *)
Theorem requirement_checks_gated_on_truthiness stateCode props hasPWR rprops s1 s2 :
  lookup "hasPublicWorksRequirement" props = Some hasPWR ->
  truthy (Some hasPWR) = true ->
  typeof_boolean (Some hasPWR) = false ->
  lookup "requirement" props = Some (JObj rprops) ->
  string_or_falsy (lookup "statuteUrl" rprops) = true ->
  ToString (lookup "state" props) = Normal s1 ->
  ToString (lookup "agencyType" props) = Normal s2 ->
  exists found,
    stateIssues stateCode (JObj props) = Normal (found, Some hasPWR)
    /\ In "Missing or invalid hasPublicWorksRequirement" found
    /\ (In "Missing requirement.requirementType" found
        <-> truthy (lookup "requirementType" rprops) = false)
    /\ (In "Missing requirement.ratioDescription" found
        <-> truthy (lookup "ratioDescription" rprops) = false)
    /\ (In "Missing requirement.statute" found
        <-> truthy (lookup "statute" rprops) = false)
    /\ (In "Missing requirement.statuteUrl" found
        <-> truthy (lookup "statuteUrl" rprops) = false)
    /\ (forall url, lookup "statuteUrl" rprops = Some (JStr url) -> url <> "" ->
        (In ("Invalid statute URL: " ++ url) found <-> startsWith url "http" = false))
    /\ ~ In "hasPublicWorksRequirement is true but no requirement object" found.
Proof.
  intros Hp Ht Hb Hr Hu T1 T2.
  rewrite (stateIssues_shape stateCode (JObj props) s1 s2) by (assumption || discriminate).
  cbn [field]. rewrite Hp, Hr. unfold requirementIssues. rewrite Ht. cbn [truthy andb field].
  rewrite (urlIssues_string_or_falsy _ Hu). cbn [rbind]. rewrite Hb. cbn [negb].
  destruct (lookup "statuteUrl" rprops) as [[| | |u| |]|] eqn:Eu;
    (eexists; split; [reflexivity|]);
    match goal with |- In _ ?l /\ _ => set (found := l) end;
    (assert (Hin : forall x, In x found <-> _)
      by (intros x; unfold found; member; reflexivity));
    clearbody found;
    repeat split; intros;
    repeat match goal with
           | H : Some (JStr _) = Some (JStr _) |- _ => injection H as <-
           | H : _ <> "" |- _ => apply String.eqb_neq in H
           end;
    rewrite Hin in *; intuition (discriminate || congruence).
Qed.

Lemma requirement_checks_gated_on_truthiness_witness :
  exists found,
    stateIssues "CA" Sample.broken_region = Normal (found, Some (JStr "true"))
    /\ In "Missing or invalid hasPublicWorksRequirement" found
    /\ (In "Missing requirement.requirementType" found <-> truthy None = false).
Proof.
  destruct (requirement_checks_gated_on_truthiness "CA"
              [ ("hasPublicWorksRequirement", JStr "true"); ("requirement", JObj []) ]
              (JStr "true") [] "undefined" "undefined"
              eq_refl eq_refl eq_refl eq_refl eq_refl eq_refl eq_refl)
    as (found & Hrun & Hbool & Htype & _).
  exists found. exact (conj Hrun (conj Hbool Htype)).
Defined.

(** ** The index, the search index and the run *)

Lemma tame_warn_each cfg stateCode l : tame cfg (warn_each cfg stateCode l).
Proof. eexists _, _. apply effect_warn_each. Qed.

Lemma tame_validateStateFile cfg files stateCode :
  tame cfg (validateStateFile cfg files stateCode).
Proof.
  unfold validateStateFile.
  destruct (data_file files (stateCode ++ ".json")).
  - apply tame_bind; [apply tame_fail | intros; apply tame_ret].
  - apply tame_bind; [apply tame_fail | intros; apply tame_ret].
  - apply tame_bind; [apply tame_lift|]. intros found.
    apply tame_bind; [|intros; apply tame_ret].
    destruct (0 <? length (fst found))%nat; [|apply tame_pass].
    apply tame_bind; [apply tame_warn_each|]. intros _.
    destruct (5 <? length (fst found))%nat; [apply tame_warn | apply tame_ret].
Qed.

Lemma tame_validateStates cfg files stateCodes :
  forall stateStats, tame cfg (validateStates cfg files stateCodes stateStats).
Proof.
  induction stateCodes as [|stateCode rest IH]; intros stateStats; cbn [validateStates].
  - apply tame_ret.
  - apply tame_bind; [apply tame_validateStateFile | intros; apply IH].
Qed.

Lemma tame_validateSearchIndex cfg files : tame cfg (validateSearchIndex cfg files).
Proof.
  unfold validateSearchIndex. apply tame_bind; [apply tame_log|]. intros _.
  destruct (search_index_file files).
  - apply tame_warn.
  - apply tame_bind; [apply tame_pass | intros; apply tame_fail].
  - apply tame_bind; [apply tame_pass|]. intros _.
    destruct (negb (Array_isArray data)); [apply tame_fail | apply tame_pass].
Qed.

Lemma tame_validateIndexFile cfg files dp : tame cfg (validateIndexFile cfg files dp).
Proof.
  unfold validateIndexFile. apply tame_bind; [apply tame_log|]. intros _.
  destruct (data_file files "index.json") as [|message|index].
  - apply tame_bind; [apply tame_fail | intros; apply tame_ret].
  - apply tame_bind; [apply tame_pass|]. intros _.
    apply tame_bind; [apply tame_fail | intros; apply tame_ret].
  - apply tame_bind; [apply tame_pass|]. intros _.
    apply tame_bind; [apply tame_pass|]. intros _.
    apply tame_bind; [apply tame_lift|]. intros lastUpdated.
    apply tame_bind.
    { destruct lastUpdated as [date_text|]; [|apply tame_fail].
      destruct (truthy (Some date_text)); [|apply tame_fail].
      apply tame_bind; [apply tame_lift|]. intros [|]; [apply tame_pass | apply tame_fail]. }
    intros _. apply tame_bind; [apply tame_lift|]. intros index_states.
    destruct index_states as [states_value|].
    + destruct (negb (truthy (Some states_value)) || negb (typeof_object (Some states_value))).
      * apply tame_bind; [apply tame_fail | intros; apply tame_ret].
      * apply tame_bind; [apply tame_pass|]. intros _.
        cbn zeta. apply tame_bind; [|intros; apply tame_ret].
        destruct (0 <? _)%nat; [apply tame_warn | apply tame_pass].
    + apply tame_bind; [apply tame_fail | intros; apply tame_ret].
Qed.

Lemma Date_isValid_suffix dp v b :
  Date_isValid dp v = Normal b -> exists suffix, details_suffix v = Normal suffix.
Proof.
  unfold details_suffix. destruct (truthy (Some v)); [|now eexists].
  destruct v as [| [|] | n | s | elems | props]; cbn [Date_isValid];
    try (intros _; now eexists).
  - destruct (ToString_value (JArr elems)) as [s|e] eqn:E; [|discriminate].
    intros _. now eexists.
  - destruct (ToString_value (JObj props)) as [s|e] eqn:E; [|discriminate].
    intros _. now eexists.
Qed.

(** The check of [lastUpdated] in [validateIndexFile]. *)
Lemma effect_lastUpdated cfg dp index g :
  lastUpdated_check dp index = Normal g ->
  effect cfg match field index "lastUpdated" with
         | Some date_text =>
             if truthy (field index "lastUpdated") then
               (valid <- lift (Date_isValid dp date_text) ;;
                if valid then pass cfg "lastUpdated is valid date"
                else fail cfg "lastUpdated is valid date" date_text)%proc
             else fail cfg "index.json has lastUpdated field" (JStr "")
         | None => fail cfg "index.json has lastUpdated field" (JStr "")
         end (Normal tt) g.
Proof.
  unfold lastUpdated_check.
  destruct (field index "lastUpdated") as [date_text|].
  - destruct (truthy (Some date_text)).
    + destruct (Date_isValid dp date_text) as [valid|e] eqn:Ev; [|discriminate].
      cbn [rbind]. intros [= <-].
      destruct (Date_isValid_suffix _ _ _ Ev) as [suffix Hs].
      destruct valid.
      * eapply effect_ext; [|eapply effect_bind; [apply effect_lift | apply effect_pass]].
        reflexivity.
      * eapply effect_ext;
          [|eapply effect_bind; [apply effect_lift | eapply effect_fail_value, Hs]].
        reflexivity.
    + intros [= <-]. apply effect_fail.
  - intros [= <-]. apply effect_fail.
Qed.

Lemma effect_lastUpdated_throw cfg dp index e :
  lastUpdated_check dp index = Throw e ->
  effect cfg match field index "lastUpdated" with
         | Some date_text =>
             if truthy (field index "lastUpdated") then
               (valid <- lift (Date_isValid dp date_text) ;;
                if valid then pass cfg "lastUpdated is valid date"
                else fail cfg "lastUpdated is valid date" date_text)%proc
             else fail cfg "index.json has lastUpdated field" (JStr "")
         | None => fail cfg "index.json has lastUpdated field" (JStr "")
         end (Throw e) (fun r => r).
Proof.
  unfold lastUpdated_check.
  destruct (field index "lastUpdated") as [date_text|]; [|discriminate].
  destruct (truthy (Some date_text)); [|discriminate].
  destruct (Date_isValid dp date_text) as [valid|e'] eqn:Ev; [discriminate|].
  cbn [rbind]. intros [= <-]. apply effect_throw, effect_lift.
Qed.

(** The check of [states] and of the coverage in [validateIndexFile]. *)
Lemma effect_states_check cfg index index_states :
  effect cfg match index_states with
         | Some states_value =>
             if negb (truthy index_states) || negb (typeof_object index_states) then
               (fail cfg "index.json has states object" (JStr "") ;; ret (@None value))%proc
             else
               (pass cfg "index.json has states object" ;;
                let indexStates := Object_keys states_value in
                let missingStates := missing indexStates in
                (if (0 <? length missingStates)%nat
                 then warn cfg "All expected states present"
                           (JStr ("Missing: " ++ join ", " missingStates))
                 else pass cfg ("All " ++ nat_toString (length EXPECTED_STATES)
                                   ++ " expected states present")) ;;
                ret (Some index))%proc
         | None =>
             (fail cfg "index.json has states object" (JStr "") ;; ret (@None value))%proc
         end
         (Normal (if states_ok index_states then Some index else None))
         (fun r =>
            if states_ok index_states
            then coverage_check (keys_of index_states) (incr_passed r)
            else push_error (mkEntry "error" "index.json has states object" (JStr "")) r).
Proof.
  unfold states_ok.
  assert (Hbad : effect cfg (fail cfg "index.json has states object" (JStr "") ;;
                         ret (@None value))%proc
                        (Normal None)
                        (push_error (mkEntry "error" "index.json has states object" (JStr "")))).
  { eapply effect_ext; [|eapply effect_bind; [apply effect_fail | apply effect_ret]].
    reflexivity. }
  assert (Hgood : forall states_value,
    effect cfg (pass cfg "index.json has states object" ;;
            let indexStates := Object_keys states_value in
            let missingStates := missing indexStates in
            (if (0 <? length missingStates)%nat
             then warn cfg "All expected states present"
                       (JStr ("Missing: " ++ join ", " missingStates))
             else pass cfg ("All " ++ nat_toString (length EXPECTED_STATES)
                               ++ " expected states present")) ;;
            ret (Some index))%proc
           (Normal (Some index))
           (fun r => coverage_check (Object_keys states_value) (incr_passed r))).
  { intros states_value.
    eapply effect_ext; [|eapply effect_bind; [apply effect_pass|]].
    2:{ cbn zeta.
        apply (effect_bind _ _ _ tt _ (coverage_check (Object_keys states_value)) (fun r => r));
          [|apply effect_ret].
        unfold coverage_check.
        destruct (0 <? _)%nat.
        - eapply effect_ext; [|apply effect_warn]. reflexivity.
        - eapply effect_ext; [|apply effect_pass]. reflexivity. }
    reflexivity. }
  destruct index_states as [[| b | n | s | elems | props]|];
    cbn [typeof_object keys_of truthy];
    rewrite ?andb_false_r, ?orb_true_r; cbn [negb orb andb];
    solve [apply Hbad | apply Hgood].
Qed.

Lemma effect_validateIndexFile_parsed cfg files dp index g :
  data_file files "index.json" = Parsed index ->
  index <> JNull ->
  lastUpdated_check dp index = Normal g ->
  effect cfg (validateIndexFile cfg files dp)
         (Normal (if states_ok (field index "states") then Some index else None))
         (fun r =>
            if states_ok (field index "states")
            then coverage_check (keys_of (field index "states"))
                   (incr_passed (g (incr_passed (incr_passed r))))
            else push_error (mkEntry "error" "index.json has states object" (JStr ""))
                   (g (incr_passed (incr_passed r)))).
Proof.
  intros Hfile Hn Hg. unfold validateIndexFile. rewrite Hfile.
  rewrite !(Get_field index) by assumption.
  eapply effect_ext; [|eapply effect_bind; [apply effect_log|]].
  2:{ eapply effect_bind; [apply effect_pass|].
      eapply effect_bind; [apply effect_pass|].
      eapply effect_bind; [apply effect_lift|].
      eapply effect_bind; [apply (effect_lastUpdated cfg dp index g Hg)|].
      eapply effect_bind; [apply effect_lift|].
      apply effect_states_check. }
  intros r. cbn beta. now destruct (states_ok (field index "states")).
Qed.

Lemma effect_validateIndexFile_NotFound cfg files dp :
  data_file files "index.json" = NotFound ->
  effect cfg (validateIndexFile cfg files dp) (Normal None)
         (push_error (mkEntry "error" "index.json exists" (JStr "File not found"))).
Proof.
  intros Hfile. unfold validateIndexFile. rewrite Hfile.
  eapply effect_ext; [|eapply effect_bind; [apply effect_log|]].
  2:{ eapply effect_bind; [apply effect_fail | apply effect_ret]. }
  reflexivity.
Qed.

Lemma effect_validateIndexFile_Unparseable cfg files dp message :
  data_file files "index.json" = Unparseable message ->
  effect cfg (validateIndexFile cfg files dp) (Normal None)
         (fun r => push_error (mkEntry "error" "index.json is valid JSON" (JStr message))
                     (incr_passed r)).
Proof.
  intros Hfile. unfold validateIndexFile. rewrite Hfile.
  eapply effect_ext; [|eapply effect_bind; [apply effect_log|]].
  2:{ eapply effect_bind; [apply effect_pass|].
      eapply effect_bind; [apply effect_fail | apply effect_ret]. }
  reflexivity.
Qed.

(** The completion of [validateIndexFile] does not depend on the process. *)
Lemma validateIndexFile_completion cfg files dp p q :
  fst (validateIndexFile cfg files dp p) = fst (validateIndexFile cfg files dp q).
Proof.
  destruct (tame_validateIndexFile cfg files dp) as (a & f & H).
  destruct (effect_run _ _ _ _ p H) as [-> _].
  destruct (effect_run _ _ _ _ q H) as [-> _]. reflexivity.
Qed.

Lemma effect_validateIndexFile_JNull cfg files dp :
  data_file files "index.json" = Parsed JNull ->
  exists e, effect cfg (validateIndexFile cfg files dp) (Throw e)
                   (fun r => incr_passed (incr_passed r)).
Proof.
  intros Hfile. unfold validateIndexFile. rewrite Hfile. eexists.
  eapply effect_ext; [|eapply effect_bind; [apply effect_log|]].
  2:{ eapply effect_bind; [apply effect_pass|].
      eapply effect_bind; [apply effect_pass|].
      apply effect_throw. apply effect_lift. }
  reflexivity.
Qed.

Lemma effect_validateIndexFile_throw cfg files dp index e :
  data_file files "index.json" = Parsed index ->
  index <> JNull ->
  lastUpdated_check dp index = Throw e ->
  effect cfg (validateIndexFile cfg files dp) (Throw e)
         (fun r => incr_passed (incr_passed r)).
Proof.
  intros Hfile Hn He. unfold validateIndexFile. rewrite Hfile.
  rewrite !(Get_field index) by assumption.
  eapply effect_ext; [|eapply effect_bind; [apply effect_log|]].
  2:{ eapply effect_bind; [apply effect_pass|].
      eapply effect_bind; [apply effect_pass|].
      eapply effect_bind; [apply effect_lift|].
      apply effect_throw. apply (effect_lastUpdated_throw cfg dp index e He). }
  reflexivity.
Qed.

(** [validateIndexFile] returns [null] only on one of the three failures
    of the index. *)
Lemma validateIndexFile_null cfg files dp p :
  fst (validateIndexFile cfg files dp p) = Normal None ->
  data_file files "index.json" = NotFound
  \/ (exists message, data_file files "index.json" = Unparseable message)
  \/ (exists index, data_file files "index.json" = Parsed index
                    /\ states_ok (field index "states") = false).
Proof.
  intros Hnull.
  destruct (data_file files "index.json") as [|message|index] eqn:Hfile; eauto.
  right; right. exists index. split; [reflexivity|].
  assert (Hcases : index = JNull \/ index <> JNull)
    by (destruct index; (now left) || (right; discriminate)).
  destruct Hcases as [-> | Hn].
  - destruct (effect_validateIndexFile_JNull cfg files dp Hfile) as [e He].
    destruct (effect_run _ _ _ _ p He) as [E _]. congruence.
  - destruct (lastUpdated_check dp index) as [g|e] eqn:Hg.
    + destruct (effect_run _ _ _ _ p
                  (effect_validateIndexFile_parsed cfg files dp index g Hfile Hn Hg))
        as [E _].
      rewrite E in Hnull.
      now destruct (states_ok (field index "states")).
    + destruct (effect_run _ _ _ _ p
                  (effect_validateIndexFile_throw cfg files dp index e Hfile Hn Hg))
        as [E _].
      congruence.
Qed.

Lemma bind_effect {A B} cfg (c : M A) (k : A -> M B) a f p :
  effect cfg c (Normal a) f ->
  exists lines,
    bind c k p
    = k a (mkProcess (f (results p)) (stdout p ++ printed cfg lines)
                     (stderr p) (exitCode p)).
Proof.
  intros H. destruct (H p) as [lines E]. exists lines. unfold bind. now rewrite E.
Qed.

Lemma bind_effect_throw {A B} cfg (c : M A) (k : A -> M B) e f p :
  effect cfg c (Throw e) f ->
  exists lines,
    bind c k p
    = (Throw e, mkProcess (f (results p)) (stdout p ++ printed cfg lines)
                          (stderr p) (exitCode p)).
Proof.
  intros H. destruct (H p) as [lines E]. exists lines. unfold bind. now rewrite E.
Qed.

Lemma generateReport_json cfg now stateStats p :
  json cfg = true ->
  generateReport cfg now stateStats p
  = (Normal tt,
     mkProcess (results p)
               (stdout p ++ [Document (report_of now stateStats (results p))])
               (stderr p)
               (Some (if (0 <? errors (results p))%nat then 1 else 0))).
Proof.
  intros Hj. unfold generateReport, report_of, overall_of. rewrite Hj.
  unfold bind, get_results, console_log, set_exitCode.
  cbn [results stdout stderr exitCode].
  destruct (0 <? errors (results p))%nat; [reflexivity|].
  now destruct (0 <? warnings (results p))%nat.
Qed.

Lemma bind_run {A B} (c : M A) (k : A -> M B) p a p' :
  c p = (Normal a, p') -> bind c k p = k a p'.
Proof. intros E. unfold bind. now rewrite E. Qed.

Lemma log_human cfg message p :
  json cfg = false ->
  log cfg message p
  = (Normal tt, mkProcess (results p) (stdout p ++ [Line message]) (stderr p) (exitCode p)).
Proof. intros Hj. unfold log. now rewrite Hj. Qed.

Ltac log_step Hj :=
  erewrite bind_run by (apply log_human; exact Hj);
  cbn [results stdout stderr exitCode]; rewrite <- ?app_assoc; cbn [app].

Lemma generateReport_human cfg stateStats p :
  json cfg = false ->
  exists lines, forall now,
    generateReport cfg now stateStats p
    = (Normal tt,
       mkProcess (results p)
                 (stdout p ++ map Line
                    (lines ++ [verdict_line (overall_of (errors (results p))
                                                        (warnings (results p)));
                               "----------------------------------------" ++ LF]))
                 (stderr p)
                 (if (0 <? errors (results p))%nat then Some 1 else exitCode p)).
Proof.
  intros Hj.
  exists [ LF ++ "========================================";
           "         VERIFICATION SUMMARY";
           "========================================" ++ LF;
           "Data Coverage:";
           "  States: " ++ nat_toString (length (own stateStats));
           "  States with Requirements: "
             ++ nat_toString (fst (count_stats (own stateStats) (0, 0)));
           "  States with Issues: "
             ++ nat_toString (snd (count_stats (own stateStats) (0, 0)));
           LF ++ "Verification Results:";
           "  " ++ CHECK_MARK ++ " Passed: " ++ nat_toString (passed (results p));
           "  " ++ WARNING_SIGN ++ " Warnings: " ++ nat_toString (warnings (results p));
           "  " ++ BALLOT_X ++ " Errors: " ++ nat_toString (errors (results p));
           LF ++ "----------------------------------------" ].
  intros now. unfold generateReport, overall_of. cbn zeta.
  rewrite (bind_run get_results _ p (results p) p eq_refl). rewrite Hj.
  do 12 log_step Hj.
  destruct (0 <? errors (results p))%nat; [|destruct (0 <? warnings (results p))%nat].
  - erewrite (bind_run (bind (log cfg _) _));
      [|erewrite bind_run by (apply log_human; exact Hj); reflexivity].
    rewrite log_human by exact Hj. cbn [results stdout stderr exitCode map app].
    rewrite <- ?app_assoc. reflexivity.
  - log_step Hj. rewrite log_human by exact Hj.
    cbn [results stdout stderr exitCode map app]. rewrite <- ?app_assoc. reflexivity.
  - log_step Hj. rewrite log_human by exact Hj.
    cbn [results stdout stderr exitCode map app]. rewrite <- ?app_assoc. reflexivity.
Qed.

Lemma effect_validateSearchIndex cfg files :
  effect cfg (validateSearchIndex cfg files) (Normal tt) (search_check files).
Proof.
  unfold validateSearchIndex, search_check.
  destruct (search_index_file files) as [|message|index].
  - eapply effect_ext; [|eapply effect_bind; [apply effect_log | apply effect_warn]].
    reflexivity.
  - eapply effect_ext; [|eapply effect_bind; [apply effect_log|]].
    2:{ eapply effect_bind; [apply effect_pass | apply effect_fail]. }
    reflexivity.
  - destruct (Array_isArray index); cbn [negb].
    + eapply effect_ext; [|eapply effect_bind; [apply effect_log|]].
      2:{ eapply effect_bind; [apply effect_pass | apply effect_pass]. }
      reflexivity.
    + eapply effect_ext; [|eapply effect_bind; [apply effect_log|]].
      2:{ eapply effect_bind; [apply effect_pass | apply effect_fail]. }
      reflexivity.
Qed.

Lemma validateIndexFile_some cfg files dp p index :
  fst (validateIndexFile cfg files dp p) = Normal (Some index) ->
  data_file files "index.json" = Parsed index
  /\ index <> JNull
  /\ states_ok (field index "states") = true
  /\ exists g, lastUpdated_check dp index = Normal g.
Proof.
  intros Hsome.
  destruct (data_file files "index.json") as [|message|index'] eqn:Hfile.
  - destruct (effect_run _ _ _ _ p (effect_validateIndexFile_NotFound cfg files dp Hfile))
      as [E _]. congruence.
  - destruct (effect_run _ _ _ _ p
                (effect_validateIndexFile_Unparseable cfg files dp message Hfile))
      as [E _]. congruence.
  - assert (Hcases : index' = JNull \/ index' <> JNull)
      by (destruct index'; (now left) || (right; discriminate)).
    destruct Hcases as [-> | Hn].
    + destruct (effect_validateIndexFile_JNull cfg files dp Hfile) as [e He].
      destruct (effect_run _ _ _ _ p He) as [E _]. congruence.
    + destruct (lastUpdated_check dp index') as [g|e] eqn:Hg.
      * destruct (effect_run _ _ _ _ p
                    (effect_validateIndexFile_parsed cfg files dp index' g Hfile Hn Hg))
          as [E _].
        rewrite E in Hsome.
        destruct (states_ok (field index' "states")) eqn:Hok; [|discriminate].
        injection Hsome as <-. eauto.
      * destruct (effect_run _ _ _ _ p
                    (effect_validateIndexFile_throw cfg files dp index' e Hfile Hn Hg))
          as [E _].
        congruence.
Qed.

Lemma log_run cfg message p :
  log cfg message p
  = (Normal tt, mkProcess (results p) (stdout p ++ printed cfg [message])
                          (stderr p) (exitCode p)).
Proof.
  unfold log, printed. destruct (json cfg); [|reflexivity].
  destruct p. unfold ret. cbn. now rewrite app_nil_r.
Qed.

Ltac log_run_step :=
  erewrite bind_run by apply log_run;
  cbn [results stdout stderr exitCode]; rewrite <- ?app_assoc, <- ?printed_app.

(** [main] up to the completion of [validateIndexFile]. *)
Lemma main_index cfg files dp DATA_DIR a f p :
  effect cfg (validateIndexFile cfg files dp) (Normal a) f ->
  exists lines, forall now,
    main cfg files dp DATA_DIR now p
    = match a with
      | None =>
          (log cfg (LF ++ "Cannot continue without valid index.json") ;;
           set_exitCode 1)%proc
      | Some index =>
          (log cfg (LF ++ "--- Validating State Files ---") ;;
           index_states <- lift (Get index "states") ;;
           stateStats <- validateStates cfg files (keys_of index_states) empty_object ;;
           validateSearchIndex cfg files ;;
           generateReport cfg now stateStats)%proc
      end (mkProcess (f (results p)) (stdout p ++ printed cfg lines)
                     (stderr p) (exitCode p)).
Proof.
  intros Hidx. unfold main.
  destruct (effect_log cfg "========================================" p) as [l1 E1].
  match type of E1 with _ = (_, ?q) =>
    destruct (effect_log cfg "  Apprenticeship Ratios Verification" q) as [l2 E2] end.
  match type of E2 with _ = (_, ?q) =>
    destruct (effect_log cfg "========================================" q) as [l3 E3] end.
  match type of E3 with _ = (_, ?q) =>
    destruct (effect_log cfg ("Data directory: " ++ DATA_DIR) q) as [l4 E4] end.
  match type of E4 with _ = (_, ?q) => destruct (Hidx q) as [l5 E5] end.
  cbn [results stdout stderr exitCode] in *.
  exists (l1 ++ l2 ++ l3 ++ l4 ++ l5)%list. intros now.
  rewrite (bind_run _ _ _ _ _ E1), (bind_run _ _ _ _ _ E2), (bind_run _ _ _ _ _ E3),
    (bind_run _ _ _ _ _ E4), (bind_run _ _ _ _ _ E5).
  rewrite !printed_app, !app_assoc. destruct a; reflexivity.
Qed.

(** [main] when [validateIndexFile] throws. *)
Lemma main_index_throw cfg files dp DATA_DIR e f p :
  effect cfg (validateIndexFile cfg files dp) (Throw e) f ->
  exists lines, forall now,
    main cfg files dp DATA_DIR now p
    = (Throw e, mkProcess (f (results p)) (stdout p ++ printed cfg lines)
                          (stderr p) (exitCode p)).
Proof.
  intros Hidx. unfold main.
  destruct (effect_log cfg "========================================" p) as [l1 E1].
  match type of E1 with _ = (_, ?q) =>
    destruct (effect_log cfg "  Apprenticeship Ratios Verification" q) as [l2 E2] end.
  match type of E2 with _ = (_, ?q) =>
    destruct (effect_log cfg "========================================" q) as [l3 E3] end.
  match type of E3 with _ = (_, ?q) =>
    destruct (effect_log cfg ("Data directory: " ++ DATA_DIR) q) as [l4 E4] end.
  match type of E4 with _ = (_, ?q) => destruct (Hidx q) as [l5 E5] end.
  cbn [results stdout stderr exitCode] in *.
  exists (l1 ++ l2 ++ l3 ++ l4 ++ l5)%list. intros now.
  rewrite (bind_run _ _ _ _ _ E1), (bind_run _ _ _ _ _ E2), (bind_run _ _ _ _ _ E3),
    (bind_run _ _ _ _ _ E4).
  unfold bind at 1. rewrite E5.
  rewrite !printed_app, !app_assoc. reflexivity.
Qed.

(** [main] when the index validator returns [null]. *)
Lemma main_abort cfg files dp DATA_DIR f p :
  effect cfg (validateIndexFile cfg files dp) (Normal None) f ->
  exists lines, forall now,
    main cfg files dp DATA_DIR now p
    = (Normal tt,
       mkProcess (f (results p))
                 (stdout p ++ printed cfg
                    (lines ++ [LF ++ "Cannot continue without valid index.json"]))
                 (stderr p) (Some 1)).
Proof.
  intros Hidx.
  destruct (main_index cfg files dp DATA_DIR None f p Hidx) as [lines E].
  exists lines. intros now. rewrite E.
  log_run_step. reflexivity.
Qed.

(** [main] up to the call of [generateReport]. *)
Lemma main_report cfg files dp DATA_DIR index f stateStats g p :
  effect cfg (validateIndexFile cfg files dp) (Normal (Some index)) f ->
  index <> JNull ->
  effect cfg (validateStates cfg files (keys_of (field index "states")) empty_object)
         (Normal stateStats) g ->
  exists lines, forall now,
    main cfg files dp DATA_DIR now p
    = generateReport cfg now stateStats
        (mkProcess (search_check files (g (f (results p))))
                   (stdout p ++ printed cfg lines) (stderr p) (exitCode p)).
Proof.
  intros Hidx Hn Hloop.
  destruct (main_index cfg files dp DATA_DIR (Some index) f p Hidx) as [l1 E].
  match type of E with forall _, _ = _ ?q =>
    destruct (effect_log cfg (LF ++ "--- Validating State Files ---") q) as [l2 E2] end.
  match type of E2 with _ = (_, ?q) => destruct (Hloop q) as [l3 E3] end.
  match type of E3 with _ = (_, ?q) =>
    destruct (effect_validateSearchIndex cfg files q) as [l4 E4] end.
  cbn [results stdout stderr exitCode] in *.
  exists (l1 ++ l2 ++ l3 ++ l4)%list. intros now. rewrite E.
  rewrite (bind_run _ _ _ _ _ E2).
  rewrite (Get_field index) by assumption.
  rewrite (bind_run (lift _) _ _ _ _ eq_refl).
  rewrite (bind_run _ _ _ _ _ E3), (bind_run _ _ _ _ _ E4).
  rewrite !printed_app, !app_assoc. reflexivity.
Qed.

(** [main] when the validation of a region throws. *)
Lemma main_throw cfg files dp DATA_DIR index f e g p :
  effect cfg (validateIndexFile cfg files dp) (Normal (Some index)) f ->
  index <> JNull ->
  effect cfg (validateStates cfg files (keys_of (field index "states")) empty_object)
         (Throw e) g ->
  exists lines, forall now,
    main cfg files dp DATA_DIR now p
    = (Throw e, mkProcess (g (f (results p))) (stdout p ++ printed cfg lines)
                          (stderr p) (exitCode p)).
Proof.
  intros Hidx Hn Hloop.
  destruct (main_index cfg files dp DATA_DIR (Some index) f p Hidx) as [l1 E].
  match type of E with forall _, _ = _ ?q =>
    destruct (effect_log cfg (LF ++ "--- Validating State Files ---") q) as [l2 E2] end.
  match type of E2 with _ = (_, ?q) => destruct (Hloop q) as [l3 E3] end.
  cbn [results stdout stderr exitCode] in *.
  exists (l1 ++ l2 ++ l3)%list. intros now. rewrite E.
  rewrite (bind_run _ _ _ _ _ E2).
  rewrite (Get_field index) by assumption.
  rewrite (bind_run (lift _) _ _ _ _ eq_refl).
  unfold bind at 1. rewrite E3.
  rewrite !printed_app, !app_assoc. reflexivity.
Qed.

Lemma effect_of_completion {A} cfg (c : M A) a p :
  tame cfg c -> fst (c p) = a -> exists f, effect cfg c a f.
Proof.
  intros (a' & f & H) E. destruct (effect_run _ _ _ _ p H) as [E' _].
  exists f. rewrite E in E'. now subst a'.
Qed.

(** The end of a run that reaches the report. *)
Lemma run_reaches_report cfg files dp DATA_DIR index f stateStats g :
  effect cfg (validateIndexFile cfg files dp) (Normal (Some index)) f ->
  index <> JNull ->
  effect cfg (validateStates cfg files (keys_of (field index "states")) empty_object)
         (Normal stateStats) g ->
  exists lines, forall now,
    let r := search_check files (g (f (results initial))) in
    main cfg files dp DATA_DIR now initial
    = (Normal tt,
       mkProcess r
         (if json cfg then [Document (report_of now stateStats r)]
          else map Line (lines ++ [verdict_line (overall_of (errors r) (warnings r));
                                   "----------------------------------------" ++ LF]))
         []
         (if json cfg then Some (if (0 <? errors r)%nat then 1 else 0)
          else if (0 <? errors r)%nat then Some 1 else None)).
Proof.
  intros Hf Hn Hg.
  destruct (main_report cfg files dp DATA_DIR index f stateStats g initial Hf Hn Hg)
    as [lines E].
  cbn [initial results stdout stderr exitCode app] in E.
  destruct (json cfg) eqn:Hj.
  - exists []. intros now r. rewrite E, generateReport_json by exact Hj.
    unfold printed. rewrite Hj. reflexivity.
  - match type of E with forall _, _ = generateReport _ _ _ ?q =>
      destruct (generateReport_human cfg stateStats q Hj) as [summary E'] end.
    exists (lines ++ summary)%list. intros now r. rewrite E, E'.
    unfold printed. rewrite Hj. cbn [results stdout stderr exitCode].
    now rewrite <- map_app, <- app_assoc.
Qed.

(** C1.  For every run that reaches the report (the index validator
    returns the index and no region throws), the outcome follows the
    precedence of the specification on the final counters (failed when
    there is an error, else passed with warnings when there is a
    warning, else passed), worded as the [status] field of the single
    document printed in [--json] mode and as the verdict line that ends
    the summary otherwise; and in both modes the exit status is not zero
    exactly when the error counter is positive. *)
Theorem report_status_precedence cfg files dp DATA_DIR now index pend :
  fst (validateIndexFile cfg files dp initial) = Normal (Some index) ->
  main cfg files dp DATA_DIR now initial = (Normal tt, pend) ->
  let verdict := overall_of (errors (results pend)) (warnings (results pend)) in
  (exit_status pend <> 0 <-> 0 < errors (results pend))
  /\ (json cfg = true ->
      exists report,
        stdout pend = [Document report]
        /\ status report = status_text verdict
        /\ report_errors report = errors (results pend)
        /\ report_warnings report = warnings (results pend))
  /\ (json cfg = false ->
      exists lines,
        stdout pend
        = map Line (lines ++ [verdict_line verdict;
                              "----------------------------------------" ++ LF])).
Proof.
  intros Hidx Hmain verdict.
  destruct (validateIndexFile_some _ _ _ _ _ Hidx) as (_ & Hn & _ & _).
  destruct (effect_of_completion cfg _ _ initial (tame_validateIndexFile cfg files dp) Hidx)
    as [f Hf].
  destruct (tame_validateStates cfg files (keys_of (field index "states")) empty_object)
    as ([stateStats|e] & g & Hg).
  2:{ destruct (main_throw cfg files dp DATA_DIR index f e g initial Hf Hn Hg)
        as [lines E].
      rewrite E in Hmain. discriminate. }
  destruct (run_reaches_report cfg files dp DATA_DIR index f stateStats g Hf Hn Hg)
    as [lines E].
  rewrite E in Hmain. clear E. injection Hmain as <-.
  subst verdict. unfold exit_status. cbn [results stdout stderr exitCode].
  match goal with |- context [errors ?x] => generalize x; intros r end.
  split; [|split].
  - destruct (json cfg), (errors r) as [|n]; cbn; split; intros; (lia || congruence).
  - intros ->. eexists. split; [reflexivity|]. cbn. auto.
  - intros ->. now exists lines.
Qed.

Lemma report_status_precedence_witness :
  let pend := script Sample.human Sample.partial Sample.Date_parse Sample.DATA_DIR
                     Sample.noon in
  (exit_status pend <> 0 <-> 0 < errors (results pend)).
Proof.
  refine (proj1 (report_status_precedence Sample.human Sample.partial Sample.Date_parse
                   Sample.DATA_DIR Sample.noon (Sample.index_of ["CA"; "NV"]) _ _ _)).
  - vm_compute. reflexivity.
  - vm_compute. reflexivity.
Defined.

(** The process at the end of a run that reaches the report. *)
Lemma main_normal_inv cfg files dp DATA_DIR now index pend :
  fst (validateIndexFile cfg files dp initial) = Normal (Some index) ->
  main cfg files dp DATA_DIR now initial = (Normal tt, pend) ->
  exists before stateStats lines,
    let r := search_check files before in
    pend = mkProcess r
             (if json cfg then [Document (report_of now stateStats r)]
              else map Line (lines ++ [verdict_line (overall_of (errors r) (warnings r));
                                       "----------------------------------------" ++ LF]))
             []
             (if json cfg then Some (if (0 <? errors r)%nat then 1 else 0)
              else if (0 <? errors r)%nat then Some 1 else None).
Proof.
  intros Hidx Hmain.
  destruct (validateIndexFile_some _ _ _ _ _ Hidx) as (_ & Hn & _ & _).
  destruct (effect_of_completion cfg _ _ initial (tame_validateIndexFile cfg files dp) Hidx)
    as [f Hf].
  destruct (tame_validateStates cfg files (keys_of (field index "states")) empty_object)
    as ([stateStats|e] & g & Hg).
  2:{ destruct (main_throw cfg files dp DATA_DIR index f e g initial Hf Hn Hg)
        as [lines E].
      rewrite E in Hmain. discriminate. }
  destruct (run_reaches_report cfg files dp DATA_DIR index f stateStats g Hf Hn Hg)
    as [lines E].
  rewrite E in Hmain. injection Hmain as <-.
  now exists (g (f (results initial))), stateStats, lines.
Qed.

(** C10.  When the search index parses to something that is not an
    array, [validateSearchIndex] records an error, so that every run
    that reaches the report, whatever the index and the regions, has a
    positive error counter, the failed outcome and exit status 1; when
    the file is absent it records a warning and no error, and when it
    cannot be parsed an error again. *)
Theorem search_index_not_array_is_error cfg files dp DATA_DIR :
  (forall v,
      search_index_file files = Parsed v ->
      Array_isArray v = false ->
      effect cfg (validateSearchIndex cfg files) (Normal tt)
             (fun r => push_error (mkEntry "error" "search-index.json is an array" (JStr ""))
                         (incr_passed r))
      /\ forall now index pend,
           fst (validateIndexFile cfg files dp initial) = Normal (Some index) ->
           main cfg files dp DATA_DIR now initial = (Normal tt, pend) ->
           0 < errors (results pend)
           /\ exit_status pend = 1
           /\ (json cfg = true ->
               exists report, stdout pend = [Document report] /\ status report = "failed")
           /\ (json cfg = false ->
               exists lines,
                 stdout pend
                 = map Line (lines ++ [verdict_line Failed;
                                       "----------------------------------------" ++ LF])))
  /\ (search_index_file files = NotFound ->
      effect cfg (validateSearchIndex cfg files) (Normal tt)
             (push_warning (mkEntry "warning" "search-index.json exists"
                                    (JStr "Run build-search-index.js to generate"))))
  /\ (forall message,
      search_index_file files = Unparseable message ->
      effect cfg (validateSearchIndex cfg files) (Normal tt)
             (fun r => push_error (mkEntry "error" "search-index.json is valid JSON"
                                           (JStr message))
                         (incr_passed r))).
Proof.
  split; [|split].
  3:{ intros message Hfile. eapply effect_ext; [|apply effect_validateSearchIndex].
      intros r. unfold search_check. now rewrite Hfile. }
  - intros v Hfile Harr. split.
    + eapply effect_ext; [|apply effect_validateSearchIndex].
      intros r. unfold search_check. now rewrite Hfile, Harr.
    + intros now index pend Hidx Hmain.
      destruct (main_normal_inv _ _ _ _ _ _ _ Hidx Hmain) as (x & stateStats & lines & ->).
      unfold search_check. rewrite Hfile, Harr.
      unfold exit_status, overall_of. cbn [results stdout stderr exitCode errors push_error].
      cbn [Nat.ltb Nat.leb].
      repeat split.
      * lia.
      * now destruct (json cfg).
      * intros ->. eexists. split; reflexivity.
      * intros ->. now exists lines.
  - intros Hfile. eapply effect_ext; [|apply effect_validateSearchIndex].
    intros r. unfold search_check. now rewrite Hfile.
Qed.

Lemma search_index_not_array_is_error_witness :
  exit_status (script Sample.machine Sample.search_index_object Sample.Date_parse
                      Sample.DATA_DIR Sample.noon) = 1.
Proof.
  refine (proj1 (proj2 (proj2 (proj1 (search_index_not_array_is_error Sample.machine
            Sample.search_index_object Sample.Date_parse Sample.DATA_DIR)
            (JObj []) eq_refl eq_refl) Sample.noon (Sample.index_of EXPECTED_STATES) _ _ _))).
  - vm_compute. reflexivity.
  - vm_compute. reflexivity.
Defined.

Lemma clean_incr_passed : clean incr_passed.
Proof. intros r. now split. Qed.

Lemma clean_compose f g : clean f -> clean g -> clean (fun r => g (f r)).
Proof.
  intros Hf Hg r. destruct (Hf r) as [<- <-]. apply Hg.
Qed.

Lemma effect_validateStates_valid cfg files stateCodes :
  forallb (region_valid files) stateCodes = true ->
  forall stateStats, exists stats f,
    effect cfg (validateStates cfg files stateCodes stateStats) (Normal stats) f
    /\ clean f.
Proof.
  induction stateCodes as [|stateCode rest IH]; cbn [forallb validateStates];
    intros Hvalid stateStats.
  - exists stateStats, (fun r => r). split; [apply effect_ret | now intros r].
  - apply andb_true_iff in Hvalid as [Hone Hrest].
    unfold region_valid in Hone.
    destruct (data_file files (stateCode ++ ".json")) as [| |data] eqn:Hfile;
      try discriminate.
    destruct (stateIssues stateCode data) as [[[|] hasPWR]|] eqn:Hissues;
      try discriminate.
    destruct (IH Hrest (assign stateStats stateCode (Some (mkStats 0 hasPWR))))
      as (stats & f & Hf & Hclean).
    exists stats, (fun r => f (incr_passed r)). split.
    + eapply effect_bind; [|apply Hf].
      apply (effect_validateStateFile_Parsed cfg files stateCode data [] hasPWR Hfile Hissues).
    + apply clean_compose; [apply clean_incr_passed | assumption].
Qed.

Lemma lastUpdated_check_valid dp index date_text :
  field index "lastUpdated" = Some date_text ->
  truthy (Some date_text) = true ->
  Date_isValid dp date_text = Normal true ->
  lastUpdated_check dp index = Normal incr_passed.
Proof.
  intros Hf Ht Hv. unfold lastUpdated_check. now rewrite Hf, Ht, Hv.
Qed.

Lemma script_normal cfg files dp DATA_DIR now p :
  main cfg files dp DATA_DIR now initial = (Normal tt, p) ->
  script cfg files dp DATA_DIR now = p.
Proof. intros E. unfold script. now rewrite E. Qed.

Lemma effect_validateIndexFile_ok cfg files dp index g :
  data_file files "index.json" = Parsed index ->
  index <> JNull ->
  lastUpdated_check dp index = Normal g ->
  states_ok (field index "states") = true ->
  effect cfg (validateIndexFile cfg files dp) (Normal (Some index))
         (fun r => coverage_check (keys_of (field index "states"))
                     (incr_passed (g (incr_passed (incr_passed r))))).
Proof.
  intros Hfile Hn Hg Hok.
  generalize (effect_validateIndexFile_parsed cfg files dp index g Hfile Hn Hg).
  rewrite Hok. exact (fun H => H).
Qed.

Lemma effect_validateIndexFile_bad cfg files dp index g :
  data_file files "index.json" = Parsed index ->
  index <> JNull ->
  lastUpdated_check dp index = Normal g ->
  states_ok (field index "states") = false ->
  effect cfg (validateIndexFile cfg files dp) (Normal None)
         (fun r => push_error (mkEntry "error" "index.json has states object" (JStr ""))
                     (g (incr_passed (incr_passed r)))).
Proof.
  intros Hfile Hn Hg Hok.
  generalize (effect_validateIndexFile_parsed cfg files dp index g Hfile Hn Hg).
  rewrite Hok. exact (fun H => H).
Qed.

Lemma states_object index sprops :
  field index "states" = Some (JObj sprops) ->
  index <> JNull
  /\ states_ok (field index "states") = true
  /\ keys_of (field index "states") = map fst sprops.
Proof.
  intros H. split; [intros ->; discriminate|]. now rewrite H.
Qed.

(** C3, as amended.  When the index parses, its [lastUpdated] is a
    valid date, its [states] object has all the expected codes, every
    region listed in it has a file that passes every check, and the
    search index exists and is an array, the run records no error and
    no warning, reports the passed outcome and exits with status 0. *)
Theorem valid_data_passes cfg files dp DATA_DIR now index date_text sprops elems :
  data_file files "index.json" = Parsed index ->
  field index "lastUpdated" = Some date_text ->
  truthy (Some date_text) = true ->
  Date_isValid dp date_text = Normal true ->
  field index "states" = Some (JObj sprops) ->
  missing (map fst sprops) = [] ->
  forallb (region_valid files) (map fst sprops) = true ->
  search_index_file files = Parsed (JArr elems) ->
  let pend := script cfg files dp DATA_DIR now in
  errors (results pend) = 0
  /\ warnings (results pend) = 0
  /\ exit_status pend = 0
  /\ stderr pend = []
  /\ (json cfg = true ->
      exists report, stdout pend = [Document report] /\ status report = "passed")
  /\ (json cfg = false ->
      exists lines,
        stdout pend
        = map Line (lines ++ [verdict_line PassedClean;
                              "----------------------------------------" ++ LF])).
Proof.
  intros Hfile Hdate Htruthy Hvalid Hstates Hmissing Hregions Hsearch pend.
  destruct (states_object index sprops Hstates) as (Hn & Hok & Hkeys).
  rewrite <- Hkeys in Hmissing, Hregions.
  pose proof (effect_validateIndexFile_ok cfg files dp index incr_passed Hfile Hn
                (lastUpdated_check_valid dp index date_text Hdate Htruthy Hvalid) Hok)
    as Hidx.
  destruct (effect_validateStates_valid cfg files _ Hregions empty_object)
    as (stats & g & Hg & Hclean).
  destruct (run_reaches_report cfg files dp DATA_DIR index _ stats g Hidx Hn Hg)
    as [lines E].
  subst pend. rewrite (script_normal _ _ _ _ _ _ (E now)). clear E. cbv zeta.
  assert (Hr : forall x, errors x = 0 -> warnings x = 0 ->
                 errors (search_check files (g (coverage_check
                    (keys_of (field index "states")) x))) = 0
                 /\ warnings (search_check files (g (coverage_check
                    (keys_of (field index "states")) x))) = 0).
  { intros x He Hw. unfold search_check, coverage_check.
    rewrite Hsearch, Hmissing. cbn [Array_isArray length Nat.ltb Nat.leb].
    cbn [errors warnings incr_passed].
    destruct (Hclean (incr_passed x)) as [-> ->]. now split. }
  match goal with |- context [search_check files (g (coverage_check _ ?x))] =>
    destruct (Hr x eq_refl eq_refl) as [He Hw] end.
  match goal with |- context [search_check files ?x] =>
    generalize dependent (search_check files x) end.
  intros r He Hw.
  unfold exit_status, overall_of. cbn [results stdout stderr exitCode].
  rewrite He, Hw. cbn [Nat.ltb Nat.leb].
  repeat split.
  - now destruct (json cfg).
  - intros ->. eexists. split; [reflexivity|]. cbn [status report_of]. unfold overall_of.
    now rewrite He, Hw.
  - intros ->. now exists lines.
Qed.

Lemma valid_data_passes_witness :
  exit_status (script Sample.machine Sample.complete Sample.Date_parse
                      Sample.DATA_DIR Sample.noon) = 0.
Proof.
  refine (proj1 (proj2 (proj2 (valid_data_passes Sample.machine Sample.complete
            Sample.Date_parse Sample.DATA_DIR Sample.noon
            (Sample.index_of EXPECTED_STATES) (JStr "2024-01-15")
            (map (fun c => (c, JObj [])) EXPECTED_STATES) (map Sample.region EXPECTED_STATES)
            _ _ _ _ _ _ _ _)))); vm_compute; reflexivity.
Defined.

(** C3 fails when the search index has not been built: with a valid
    index, all 51 codes and 51 valid region documents, the run records
    a warning and reports that it passed with warnings. *)
Lemma missing_search_index_counterexample :
  let files := Sample.complete_no_search_index in
  let pend := script Sample.machine files Sample.Date_parse Sample.DATA_DIR Sample.noon in
  data_file files "index.json" = Parsed (Sample.index_of EXPECTED_STATES)
  /\ lastUpdated_check Sample.Date_parse (Sample.index_of EXPECTED_STATES)
     = Normal incr_passed
  /\ missing (keys_of (field (Sample.index_of EXPECTED_STATES) "states")) = []
  /\ forallb (region_valid files)
             (keys_of (field (Sample.index_of EXPECTED_STATES) "states")) = true
  /\ errors (results pend) = 0
  /\ warnings (results pend) = 1
  /\ exists report,
       stdout pend = [Document report] /\ status report = "passed_with_warnings".
Proof.
  cbv zeta. repeat split; try (vm_compute; reflexivity).
  eexists. split; vm_compute; reflexivity.
Qed.

(** C4, as amended.  For a parsed index whose checks complete, the
    index validator returns the index exactly when [states] is an
    object or an array, and then goes on to compare its keys with the
    expected codes; when [states] is absent, [null] or another
    primitive it records the error on the [states] object and returns
    [null]. *)
Theorem validateIndexFile_states_field cfg files dp index g :
  data_file files "index.json" = Parsed index ->
  index <> JNull ->
  lastUpdated_check dp index = Normal g ->
  match field index "states" with
  | Some (JObj _) | Some (JArr _) =>
      effect cfg (validateIndexFile cfg files dp) (Normal (Some index))
             (fun r => coverage_check (keys_of (field index "states"))
                         (incr_passed (g (incr_passed (incr_passed r)))))
  | _ =>
      effect cfg (validateIndexFile cfg files dp) (Normal None)
             (fun r => push_error (mkEntry "error" "index.json has states object" (JStr ""))
                         (g (incr_passed (incr_passed r))))
  end.
Proof.
  intros Hfile Hn Hg.
  pose proof (effect_validateIndexFile_ok cfg files dp index g Hfile Hn Hg) as Hok.
  pose proof (effect_validateIndexFile_bad cfg files dp index g Hfile Hn Hg) as Hbad.
  unfold states_ok in Hok, Hbad.
  destruct (field index "states") as [[| b | n | s | elems | props]|];
    cbn [truthy typeof_object] in Hok, Hbad;
    rewrite ?andb_false_r in Hbad; solve [now apply Hok | now apply Hbad].
Qed.

Lemma validateIndexFile_states_field_witness :
  effect Sample.human
         (validateIndexFile Sample.human Sample.array_index Sample.Date_parse)
         (Normal (Some (JObj [ ("lastUpdated", JStr "2024-01-15"); ("states", JArr []) ])))
         (fun r => coverage_check [] (incr_passed (incr_passed (incr_passed (incr_passed r))))).
Proof.
  refine (validateIndexFile_states_field Sample.human Sample.array_index Sample.Date_parse
            (JObj [ ("lastUpdated", JStr "2024-01-15"); ("states", JArr []) ])
            incr_passed eq_refl _ eq_refl).
  discriminate.
Defined.

(** C4 fails on an array: the index validator accepts an index whose
    [states] is the empty array and records no error. *)
Lemma array_states_counterexample :
  let index := JObj [ ("lastUpdated", JStr "2024-01-15"); ("states", JArr []) ] in
  let run := validateIndexFile Sample.human Sample.array_index Sample.Date_parse initial in
  data_file Sample.array_index "index.json" = Parsed index
  /\ field index "states" = Some (JArr [])
  /\ fst run = Normal (Some index)
  /\ errors (results (snd run)) = 0.
Proof.
  cbv zeta. repeat split; vm_compute; reflexivity.
Qed.

Lemma includes_In l s : includes l s = true <-> In s l.
Proof.
  induction l as [|x l IH]; cbn [includes In].
  - split; [discriminate | contradiction].
  - rewrite orb_true_iff, IH, String.eqb_eq. tauto.
Qed.

Lemma missing_In indexStates s :
  In s (missing indexStates) <-> In s EXPECTED_STATES /\ ~ In s indexStates.
Proof.
  unfold missing. rewrite filter_In, negb_true_iff.
  split; intros [H1 H2]; split; auto.
  - intros Hin. apply includes_In in Hin. congruence.
  - destruct (includes indexStates s) eqn:E; [|reflexivity].
    apply includes_In in E. contradiction.
Qed.

Lemma missing_ext indexStates indexStates' :
  (forall s, In s EXPECTED_STATES -> (In s indexStates' <-> In s indexStates)) ->
  missing indexStates' = missing indexStates.
Proof.
  intros H. unfold missing. apply filter_ext_in. intros s Hs. f_equal.
  specialize (H s Hs). rewrite <- !includes_In in H.
  destruct (includes indexStates' s), (includes indexStates s); try reflexivity;
    destruct H as [H1 H2]; (discriminate (H1 eq_refl) || discriminate (H2 eq_refl)).
Qed.

Lemma lastUpdated_check_warnings dp index g :
  lastUpdated_check dp index = Normal g -> forall r, warnings (g r) = warnings r.
Proof.
  unfold lastUpdated_check.
  destruct (field index "lastUpdated") as [date_text|].
  - destruct (truthy (Some date_text)).
    + destruct (Date_isValid dp date_text) as [[|]|e]; cbn [rbind];
        intros [= <-] r; reflexivity.
    + intros [= <-] r. reflexivity.
  - intros [= <-] r. reflexivity.
Qed.

(** [main] from the return of the index to the loop over the regions. *)
Lemma main_states cfg files dp DATA_DIR index f p :
  effect cfg (validateIndexFile cfg files dp) (Normal (Some index)) f ->
  index <> JNull ->
  exists lines, forall now,
    main cfg files dp DATA_DIR now p
    = (stateStats <- validateStates cfg files (keys_of (field index "states")) empty_object ;;
       validateSearchIndex cfg files ;;
       generateReport cfg now stateStats)%proc
        (mkProcess (f (results p)) (stdout p ++ printed cfg lines)
                   (stderr p) (exitCode p)).
Proof.
  intros Hidx Hn.
  destruct (main_index cfg files dp DATA_DIR (Some index) f p Hidx) as [l1 E].
  match type of E with forall _, _ = _ ?q =>
    destruct (effect_log cfg (LF ++ "--- Validating State Files ---") q) as [l2 E2] end.
  cbn [results stdout stderr exitCode] in *.
  exists (l1 ++ l2)%list. intros now. rewrite E.
  rewrite (bind_run _ _ _ _ _ E2).
  rewrite (Get_field index) by assumption.
  rewrite (bind_run (lift _) _ _ _ _ eq_refl).
  rewrite !printed_app, !app_assoc. reflexivity.
Qed.

Lemma script_throw cfg files dp DATA_DIR now e p :
  main cfg files dp DATA_DIR now initial = (Throw e, p) ->
  script cfg files dp DATA_DIR now
  = mkProcess (results p) (stdout p) (stderr p ++ [e]) (Some 1).
Proof. intros E. unfold script. now rewrite E. Qed.

Lemma Document_not_Line report lines : ~ In (Document report) (map Line lines).
Proof.
  intros H. apply in_map_iff in H as (text & H & _). discriminate.
Qed.

Lemma Document_not_printed cfg report lines : ~ In (Document report) (printed cfg lines).
Proof.
  unfold printed. destruct (json cfg); [intros [] | apply Document_not_Line].
Qed.

(** C8.  Two runs on the same files and flags that read different
    times from the clock end in the same results, the same exit code
    and the same output, the [timestamp] of the printed report apart,
    which is the time read. *)
Theorem report_independent_of_clock cfg files dp DATA_DIR now now' :
  let p := script cfg files dp DATA_DIR now in
  let p' := script cfg files dp DATA_DIR now' in
  map without_timestamp (stdout p) = map without_timestamp (stdout p')
  /\ results p = results p'
  /\ stderr p = stderr p'
  /\ exitCode p = exitCode p'
  /\ (forall report, In (Document report) (stdout p) -> timestamp report = now).
Proof.
  cbv zeta.
  destruct (tame_validateIndexFile cfg files dp) as ([[index|]|e] & f & Hf).
  - assert (Hn : index <> JNull).
    { destruct (effect_run _ _ _ _ initial Hf) as [E _].
      now destruct (validateIndexFile_some _ _ _ _ _ E) as (_ & Hn & _). }
    destruct (tame_validateStates cfg files (keys_of (field index "states")) empty_object)
      as ([stateStats|e] & g & Hg).
    + destruct (run_reaches_report cfg files dp DATA_DIR index f stateStats g Hf Hn Hg)
        as [lines E].
      rewrite (script_normal _ _ _ _ _ _ (E now)), (script_normal _ _ _ _ _ _ (E now')).
      cbv zeta. cbn [results stdout stderr exitCode].
      repeat split.
      * now destruct (json cfg).
      * intros report. destruct (json cfg).
        -- intros [[= <-]|[]]. reflexivity.
        -- intros H. now apply Document_not_Line in H.
    + destruct (main_throw cfg files dp DATA_DIR index f e g initial Hf Hn Hg)
        as [lines E].
      rewrite (script_throw _ _ _ _ _ _ _ (E now)), (script_throw _ _ _ _ _ _ _ (E now')).
      cbn [results stdout stderr exitCode initial app].
      repeat split. intros report H. now apply Document_not_printed in H.
  - destruct (main_abort cfg files dp DATA_DIR f initial Hf) as [lines E].
    rewrite (script_normal _ _ _ _ _ _ (E now)), (script_normal _ _ _ _ _ _ (E now')).
    cbn [results stdout stderr exitCode initial app].
    repeat split. intros report H. now apply Document_not_printed in H.
  - destruct (main_index_throw cfg files dp DATA_DIR e f initial Hf) as [lines E].
    rewrite (script_throw _ _ _ _ _ _ _ (E now)), (script_throw _ _ _ _ _ _ _ (E now')).
    cbn [results stdout stderr exitCode initial app].
    repeat split. intros report H. now apply Document_not_printed in H.
Qed.

Lemma report_independent_of_clock_witness :
  map without_timestamp
      (stdout (script Sample.machine Sample.partial Sample.Date_parse Sample.DATA_DIR
                      Sample.noon))
  = map without_timestamp
        (stdout (script Sample.machine Sample.partial Sample.Date_parse Sample.DATA_DIR
                        Sample.midnight)).
Proof.
  exact (proj1 (report_independent_of_clock Sample.machine Sample.partial
                  Sample.Date_parse Sample.DATA_DIR Sample.noon Sample.midnight)).
Defined.

(** ** Further properties of the checks of a region *)

Lemma strict_eq_string_ToString v s :
  strict_eq_string v s = true -> ToString v = Normal s.
Proof.
  destruct v as [[| | |t| |]|]; cbn; try discriminate.
  intros H. apply String.eqb_eq in H. now subst.
Qed.

Lemma stateIssues_throw_state stateCode data e :
  data <> JNull ->
  strict_eq_string (field data "state") stateCode = false ->
  ToString (field data "state") = Throw e ->
  stateIssues stateCode data = Throw e.
Proof.
  intros Hn Hb T. unfold stateIssues.
  rewrite !(Get_field data) by assumption. cbn zeta.
  rewrite rbind_Normal; cbn beta. rewrite Hb, T. reflexivity.
Qed.

Lemma stateIssues_throw_agencyType stateCode data s1 e :
  data <> JNull ->
  ToString (field data "state") = Normal s1 ->
  strict_eq_string (field data "agencyType") "SAA"
  || strict_eq_string (field data "agencyType") "OA" = false ->
  ToString (field data "agencyType") = Throw e ->
  stateIssues stateCode data = Throw e.
Proof.
  intros Hn T1 Hb T2. unfold stateIssues.
  rewrite !(Get_field data) by assumption. cbn zeta.
  rewrite rbind_Normal; cbn beta. rewrite T1.
  repeat step. rewrite Hb, T2. reflexivity.
Qed.

(** The issues of a document on which the checks complete. *)
Lemma stateIssues_Normal_inv stateCode data found hasPWR :
  data <> JNull ->
  stateIssues stateCode data = Normal (found, hasPWR) ->
  exists s1 s2 about_req,
    ToString (field data "state") = Normal s1
    /\ ToString (field data "agencyType") = Normal s2
    /\ requirementIssues (field data "hasPublicWorksRequirement") (field data "requirement")
       = Normal about_req
    /\ hasPWR = field data "hasPublicWorksRequirement"
    /\ found
       = (when (negb (strict_eq_string (field data "state") stateCode))
               ("State code mismatch: " ++ s1 ++ " vs " ++ stateCode)
          ++ when (negb (truthy (field data "stateName"))) "Missing stateName"
          ++ when (negb (strict_eq_string (field data "agencyType") "SAA"
                         || strict_eq_string (field data "agencyType") "OA"))
               ("Invalid agencyType: " ++ s2)
          ++ when (negb (typeof_boolean (field data "hasPublicWorksRequirement")))
               "Missing or invalid hasPublicWorksRequirement"
          ++ about_req
          ++ when (truthy (field data "hasPublicWorksRequirement")
                   && negb (truthy (field data "requirement")))
               "hasPublicWorksRequirement is true but no requirement object"
          ++ when (negb (truthy (field data "lastVerified"))) "Missing lastVerified date")%list.
Proof.
  intros Hn Hrun.
  assert (T1 : exists s1, ToString (field data "state") = Normal s1).
  { destruct (strict_eq_string (field data "state") stateCode) eqn:Hb.
    - eexists. apply strict_eq_string_ToString, Hb.
    - destruct (ToString (field data "state")) as [s1|e] eqn:T; [now eexists|].
      rewrite (stateIssues_throw_state stateCode data e Hn Hb T) in Hrun. discriminate. }
  destruct T1 as [s1 T1].
  assert (T2 : exists s2, ToString (field data "agencyType") = Normal s2).
  { destruct (strict_eq_string (field data "agencyType") "SAA"
              || strict_eq_string (field data "agencyType") "OA") eqn:Hb.
    - apply orb_true_iff in Hb as [Hb|Hb]; eexists; apply strict_eq_string_ToString, Hb.
    - destruct (ToString (field data "agencyType")) as [s2|e] eqn:T; [now eexists|].
      rewrite (stateIssues_throw_agencyType stateCode data s1 e Hn T1 Hb T) in Hrun.
      discriminate. }
  destruct T2 as [s2 T2].
  rewrite (stateIssues_shape stateCode data s1 s2 Hn T1 T2) in Hrun.
  destruct (requirementIssues _ _) as [about_req|e]; [|discriminate].
  cbn [rbind] in Hrun. injection Hrun as <- <-.
  exists s1, s2, about_req. auto.
Qed.

(** The checks of a region as a function of the fields of the document. *)
Lemma stateIssues_fields stateCode data :
  data <> JNull ->
  stateIssues stateCode data
  = (let mismatch := negb (strict_eq_string (field data "state") stateCode) in
     let bad_agency := negb (strict_eq_string (field data "agencyType") "SAA"
                             || strict_eq_string (field data "agencyType") "OA") in
     s1 <- (if mismatch then ToString (field data "state") else Normal "") ;;
     s2 <- (if bad_agency then ToString (field data "agencyType") else Normal "") ;;
     about_req <- requirementIssues (field data "hasPublicWorksRequirement")
                                    (field data "requirement") ;;
     Normal (when mismatch ("State code mismatch: " ++ s1 ++ " vs " ++ stateCode)
             ++ when (negb (truthy (field data "stateName"))) "Missing stateName"
             ++ when bad_agency ("Invalid agencyType: " ++ s2)
             ++ when (negb (typeof_boolean (field data "hasPublicWorksRequirement")))
                  "Missing or invalid hasPublicWorksRequirement"
             ++ about_req
             ++ when (truthy (field data "hasPublicWorksRequirement")
                      && negb (truthy (field data "requirement")))
                  "hasPublicWorksRequirement is true but no requirement object"
             ++ when (negb (truthy (field data "lastVerified"))) "Missing lastVerified date",
             field data "hasPublicWorksRequirement")%list)%result.
Proof.
  intros Hn. cbv zeta.
  destruct (strict_eq_string (field data "state") stateCode) eqn:Hb1; cbn [negb].
  - pose proof (strict_eq_string_ToString _ _ Hb1) as T1.
    destruct (strict_eq_string (field data "agencyType") "SAA"
              || strict_eq_string (field data "agencyType") "OA") eqn:Hb2; cbn [negb].
    + assert (T2 : exists s2, ToString (field data "agencyType") = Normal s2).
      { apply orb_true_iff in Hb2 as [Hb|Hb]; eexists; apply strict_eq_string_ToString, Hb. }
      destruct T2 as [s2 T2].
      rewrite (stateIssues_shape stateCode data _ s2 Hn T1 T2), Hb1, Hb2. reflexivity.
    + destruct (ToString (field data "agencyType")) as [s2|e] eqn:T2.
      * rewrite (stateIssues_shape stateCode data _ s2 Hn T1 T2), Hb1, Hb2. reflexivity.
      * apply (stateIssues_throw_agencyType stateCode data _ e Hn T1 Hb2 T2).
  - destruct (ToString (field data "state")) as [s1|e] eqn:T1.
    2:{ apply (stateIssues_throw_state stateCode data e Hn Hb1 T1). }
    destruct (strict_eq_string (field data "agencyType") "SAA"
              || strict_eq_string (field data "agencyType") "OA") eqn:Hb2; cbn [negb].
    + assert (T2 : exists s2, ToString (field data "agencyType") = Normal s2).
      { apply orb_true_iff in Hb2 as [Hb|Hb]; eexists; apply strict_eq_string_ToString, Hb. }
      destruct T2 as [s2 T2].
      rewrite (stateIssues_shape stateCode data s1 s2 Hn T1 T2), Hb1, Hb2. reflexivity.
    + destruct (ToString (field data "agencyType")) as [s2|e] eqn:T2.
      * rewrite (stateIssues_shape stateCode data s1 s2 Hn T1 T2), Hb1, Hb2. reflexivity.
      * apply (stateIssues_throw_agencyType stateCode data s1 e Hn T1 Hb2 T2).
Qed.

Lemma filter_when (f : string -> bool) b issue :
  filter f (when b issue) = when (b && f issue) issue.
Proof. destruct b; cbn; [now destruct (f issue) | reflexivity]. Qed.

Lemma length_when b issue : length (when b issue) = if b then 1 else 0.
Proof. now destruct b. Qed.

(** The issues of the block that checks the requirement object, when
    it completes. *)
Lemma requirementIssues_Normal_inv hasPWR requirement about_req :
  requirementIssues hasPWR requirement = Normal about_req ->
  (truthy hasPWR && truthy requirement = false /\ about_req = [])
  \/ exists req url_text,
       requirement = Some req
       /\ truthy hasPWR && truthy requirement = true
       /\ about_req
          = (when (negb (truthy (field req "requirementType")))
                  "Missing requirement.requirementType"
             ++ when (negb (truthy (field req "ratioDescription")))
                  "Missing requirement.ratioDescription"
             ++ when (negb (truthy (field req "statute")))
                  "Missing requirement.statute"
             ++ when (negb (truthy (field req "statuteUrl")))
                  "Missing requirement.statuteUrl"
             ++ when (truthy (field req "statuteUrl")
                      && negb (startsWith url_text "http"))
                  ("Invalid statute URL: " ++ url_text))%list
       /\ (truthy (field req "statuteUrl") = true ->
           field req "statuteUrl" = Some (JStr url_text)).
Proof.
  unfold requirementIssues.
  destruct requirement as [req|].
  2:{ intros [= <-]. left. now rewrite andb_false_r. }
  destruct (truthy hasPWR && truthy (Some req)) eqn:Hboth.
  2:{ intros [= <-]. now left. }
  unfold urlIssues.
  destruct (field req "statuteUrl") as [[| b | n | url | elems | uprops]|] eqn:Ef;
    cbn [truthy];
    repeat match goal with
           | |- context [if ?c then _ else _] => destruct c eqn:?
           end;
    cbn [rbind]; try discriminate; intros [= <-]; right;
    first [ exists req, url | exists req, "" ];
    rewrite Ef; cbn [truthy];
    repeat match goal with H : _ = _ |- _ => rewrite H end;
    cbn [negb andb when app]; rewrite ?app_nil_r;
    repeat split; intros; (reflexivity || discriminate).
Qed.

Lemma stateIssues_JNull stateCode : exists e, stateIssues stateCode JNull = Throw e.
Proof. eexists. reflexivity. Qed.

Lemma stateIssues_not_null stateCode data found hasPWR :
  stateIssues stateCode data = Normal (found, hasPWR) -> data <> JNull.
Proof. intros H ->. discriminate. Qed.

Lemma requirementIssues_falsy hasPWR requirement :
  truthy hasPWR = false -> requirementIssues hasPWR requirement = Normal [].
Proof.
  intros H. unfold requirementIssues. rewrite H. now destruct requirement.
Qed.

Lemma when_false issue : when false issue = [].
Proof. reflexivity. Qed.

Lemma startsWith_append (p s : string) : startsWith (p ++ s) p = true.
Proof.
  unfold startsWith. induction p as [|a p IH]; cbn [append prefix].
  - apply prefix_empty.
  - now rewrite IH; destruct (ascii_dec a a).
Qed.

(** [filter] over the issues of a document, part by part: a test on an
    issue whose text starts with known characters is decided by
    computation. *)
Ltac decide_test :=
  match goal with
  | |- context [?b && ?f ?x] =>
      first [ change (f x) with false | change (f x) with true ]
  end.

Ltac filter_parts :=
  rewrite ?filter_app, ?filter_when; repeat decide_test;
  rewrite ?andb_false_r, ?andb_true_r; cbn [when app]; rewrite ?app_nil_r.

Lemma mismatch_issue_text s :
  mismatch_issue ("State code mismatch: " ++ s) = true.
Proof. apply startsWith_append. Qed.

(** X1.  A region code that differs from the file name is reported once,
    whatever the other fields hold; a matching code is not reported. *)
Theorem state_code_mismatch_reported_once stateCode data found hasPWR :
  stateIssues stateCode data = Normal (found, hasPWR) ->
  exists s,
    ToString (field data "state") = Normal s
    /\ filter mismatch_issue found
       = when (negb (strict_eq_string (field data "state") stateCode))
              ("State code mismatch: " ++ s ++ " vs " ++ stateCode).
Proof.
  intros Hrun. pose proof (stateIssues_not_null _ _ _ _ Hrun) as Hn.
  destruct (stateIssues_Normal_inv _ _ _ _ Hn Hrun)
    as (s1 & s2 & about_req & T1 & T2 & Hreq & _ & ->).
  exists s1. split; [exact T1|].
  destruct (requirementIssues_Normal_inv _ _ _ Hreq)
    as [[_ ->] | (req & url & _ & _ & -> & _)];
    rewrite ?filter_app, !filter_when, mismatch_issue_text; filter_parts; reflexivity.
Qed.

Lemma state_code_mismatch_reported_once_witness :
  exists s,
    ToString (field (Sample.region "NV") "state") = Normal s
    /\ filter mismatch_issue ["State code mismatch: NV vs CA"]
       = when (negb (strict_eq_string (field (Sample.region "NV") "state") "CA"))
              ("State code mismatch: " ++ s ++ " vs " ++ "CA").
Proof.
  exact (state_code_mismatch_reported_once "CA" (Sample.region "NV")
           ["State code mismatch: NV vs CA"] (Some (JBool false)) eq_refl).
Defined.

(** X2.  With a truthy [hasPublicWorksRequirement] and no requirement object,
    the checks raise the issue about the missing object and none about
    the fields of the requirement. *)
Theorem missing_requirement_object_issue stateCode data found hasPWR :
  truthy (field data "hasPublicWorksRequirement") = true ->
  truthy (field data "requirement") = false ->
  stateIssues stateCode data = Normal (found, hasPWR) ->
  In "hasPublicWorksRequirement is true but no requirement object" found
  /\ filter requirement_issue found = [].
Proof.
  intros Hh Hr Hrun. pose proof (stateIssues_not_null _ _ _ _ Hrun) as Hn.
  destruct (stateIssues_Normal_inv _ _ _ _ Hn Hrun)
    as (s1 & s2 & about_req & T1 & T2 & Hreq & _ & ->).
  destruct (requirementIssues_Normal_inv _ _ _ Hreq)
    as [[_ ->] | (req & url & _ & Hboth & _)].
  2:{ rewrite Hr, andb_false_r in Hboth. discriminate. }
  rewrite Hh, Hr. cbn [negb andb]. split.
  - rewrite !in_app_iff. do 5 right. left. now left.
  - filter_parts. reflexivity.
Qed.

Lemma missing_requirement_object_issue_witness :
  let found := [ "State code mismatch: undefined vs CA"; "Missing stateName";
                 "Invalid agencyType: undefined";
                 "hasPublicWorksRequirement is true but no requirement object";
                 "Missing lastVerified date" ] in
  In "hasPublicWorksRequirement is true but no requirement object" found
  /\ filter requirement_issue found = [].
Proof.
  exact (missing_requirement_object_issue "CA"
           (JObj [("hasPublicWorksRequirement", JBool true)]) _ _
           eq_refl eq_refl eq_refl).
Defined.

(** X3.  With a falsy [hasPublicWorksRequirement] the requirement object is
    not looked at: two documents that agree on the other fields have
    the same issues, and the checks complete or throw alike. *)
Theorem requirement_ignored_without_flag stateCode data data' :
  data <> JNull ->
  data' <> JNull ->
  field data "state" = field data' "state" ->
  field data "stateName" = field data' "stateName" ->
  field data "agencyType" = field data' "agencyType" ->
  field data "hasPublicWorksRequirement" = field data' "hasPublicWorksRequirement" ->
  field data "lastVerified" = field data' "lastVerified" ->
  truthy (field data "hasPublicWorksRequirement") = false ->
  stateIssues stateCode data = stateIssues stateCode data'.
Proof.
  intros Hn Hn' E1 E2 E3 E4 E5 Hh.
  rewrite (stateIssues_fields stateCode data Hn), (stateIssues_fields stateCode data' Hn').
  rewrite <- E1, <- E2, <- E3, <- E4, <- E5.
  rewrite !(requirementIssues_falsy _ _ Hh), Hh. reflexivity.
Qed.

Lemma requirement_ignored_without_flag_witness :
  stateIssues "CA" (Sample.region "CA")
  = stateIssues "CA"
      (JObj [ ("state", JStr "CA");
              ("stateName", JStr "Some State");
              ("agencyType", JStr "SAA");
              ("hasPublicWorksRequirement", JBool false);
              ("requirement", JObj [("statuteUrl", JBool true)]);
              ("lastVerified", JStr "2024-01-15") ]).
Proof.
  apply requirement_ignored_without_flag; try reflexivity; discriminate.
Defined.

Lemma length_when_le b issue : length (when b issue) <= 1.
Proof. destruct b; cbn; lia. Qed.

Lemma at_most_nine_issues_bound stateCode data found hasPWR :
  stateIssues stateCode data = Normal (found, hasPWR) ->
  length found <= 9.
Proof.
  intros Hrun. pose proof (stateIssues_not_null _ _ _ _ Hrun) as Hn.
  destruct (stateIssues_Normal_inv _ _ _ _ Hn Hrun)
    as (s1 & s2 & about_req & T1 & T2 & Hreq & _ & ->).
  rewrite !length_app.
  destruct (requirementIssues_Normal_inv _ _ _ Hreq)
    as [[_ ->] | (req & url & _ & Hboth & -> & _)].
  - rewrite !length_when. cbn [length].
    repeat match goal with |- context [if ?b then _ else _] => destruct b end; lia.
  - apply andb_true_iff in Hboth as [Hh Hr]. rewrite Hh, Hr. cbn [negb andb].
    rewrite !length_app, !length_when.
    destruct (truthy (field req "statuteUrl")); cbn [negb andb];
      repeat match goal with |- context [if ?b then _ else _] => destruct b end; lia.
Qed.

(** X4.  The checks find at most nine issues, so that the message about
    the issues left out counts at most four. *)
Theorem at_most_nine_issues stateCode data found hasPWR :
  stateIssues stateCode data = Normal (found, hasPWR) ->
  length found <= 9 /\ length found - 5 <= 4.
Proof.
  intros Hrun. pose proof (at_most_nine_issues_bound _ _ _ _ Hrun). lia.
Qed.

Lemma at_most_nine_issues_witness :
  let found := [ "State code mismatch: undefined vs CA";
                 "Missing stateName";
                 "Invalid agencyType: undefined";
                 "Missing or invalid hasPublicWorksRequirement";
                 "Missing requirement.requirementType";
                 "Missing requirement.ratioDescription";
                 "Missing requirement.statute";
                 "Missing requirement.statuteUrl";
                 "Missing lastVerified date" ] in
  length found <= 9 /\ length found - 5 <= 4.
Proof.
  exact (at_most_nine_issues "CA" Sample.broken_region _ (Some (JStr "true")) eq_refl).
Defined.

(** X5.  The validation of one region adds at most six warnings, one error
    and one passed check, whatever its file holds and however it
    completes. *)
Theorem region_counters_bounded cfg files stateCode p :
  let r := results p in
  let r' := results (snd (validateStateFile cfg files stateCode p)) in
  passed r <= passed r' <= passed r + 1
  /\ warnings r <= warnings r' <= warnings r + 6
  /\ errors r <= errors r' <= errors r + 1
  /\ passed r' + warnings r' + errors r' <= passed r + warnings r + errors r + 6.
Proof.
  cbv zeta.
  destruct (data_file files (stateCode ++ ".json")) as [|message|data] eqn:Hfile.
  - destruct (effect_run _ _ _ _ p (effect_validateStateFile_NotFound cfg files stateCode Hfile))
      as (_ & -> & _).
    cbn [passed warnings errors push_error]. lia.
  - destruct (effect_run _ _ _ _ p
                (effect_validateStateFile_Unparseable cfg files stateCode message Hfile))
      as (_ & -> & _).
    cbn [passed warnings errors push_error]. lia.
  - destruct (stateIssues stateCode data) as [[found hasPWR]|e] eqn:Hissues.
    + destruct (effect_run _ _ _ _ p
                  (effect_validateStateFile_Parsed cfg files stateCode data found hasPWR
                     Hfile Hissues))
        as (_ & -> & _).
      pose proof (at_most_nine_issues_bound stateCode data found hasPWR Hissues) as Hlen.
      unfold report_issues, add_warnings, issue_entries.
      destruct (0 <? length found)%nat eqn:H0; cbn [passed warnings errors incr_passed].
      * rewrite length_app, length_map, length_firstn.
        destruct (5 <? length found)%nat; cbn [length]; lia.
      * lia.
    + destruct (effect_run _ _ _ _ p
                  (effect_validateStateFile_throw cfg files stateCode data e Hfile Hissues))
        as (_ & -> & _).
      lia.
Qed.

Lemma when_nil b issue : when b issue = [] <-> b = false.
Proof. destruct b; cbn; split; (discriminate || reflexivity). Qed.

Lemma valid_document_not_null stateCode data :
  valid_document stateCode data = true -> data <> JNull.
Proof. intros H ->. discriminate. Qed.

(** X6.  The checks find no issue exactly on the documents that
    [valid_document] accepts: a matching region code, a name, an agency
    type among [SAA] and [OA], a boolean [hasPublicWorksRequirement], a
    date of verification and, when the flag is [true], a requirement
    object whose four fields are present, the URL a text starting with
    [http]. *)
Theorem no_issue_iff_valid_document stateCode data :
  (exists hasPWR, stateIssues stateCode data = Normal ([], hasPWR))
  <-> valid_document stateCode data = true.
Proof.
  split.
  - intros [hasPWR Hrun]. pose proof (stateIssues_not_null _ _ _ _ Hrun) as Hn.
    destruct (stateIssues_Normal_inv _ _ _ _ Hn Hrun)
      as (s1 & s2 & about_req & T1 & T2 & Hreq & _ & Hfound).
    symmetry in Hfound.
    repeat match goal with
           | H : (_ ++ _)%list = [] |- _ => apply app_eq_nil in H as [? ?]
           end.
    repeat match goal with
           | H : when _ _ = [] |- _ => apply when_nil in H
           end.
    subst about_req.
    repeat match goal with
           | H : negb _ = false |- _ => apply negb_false_iff in H
           end.
    unfold valid_document.
    repeat match goal with
           | H : _ = true |- _ => rewrite H
           end.
    cbn [andb].
    destruct (requirementIssues_Normal_inv _ _ _ Hreq)
      as [[Hboth _] | (req & url & Ereq & Hboth & Habout & Hurl)].
    + destruct (truthy (field data "hasPublicWorksRequirement")); [|reflexivity].
      cbn [andb] in *.
      match goal with H : negb _ = false |- _ => apply negb_false_iff in H end.
      congruence.
    + apply andb_true_iff in Hboth as [Hh Hr]. rewrite Hh, Ereq. rewrite Ereq in Hr.
      rewrite Hr. symmetry in Habout.
      repeat match goal with
             | H : (_ ++ _)%list = [] |- _ => apply app_eq_nil in H as [? ?]
             end.
      repeat match goal with
             | H : when _ _ = [] |- _ => apply when_nil in H
             end.
      repeat match goal with
             | H : negb _ = false |- _ => apply negb_false_iff in H
             end.
      repeat match goal with
             | H : truthy _ = true |- _ => rewrite H in *
             end.
      cbn [andb] in *.
      match goal with H : true = true -> _ |- _ => rewrite (H eq_refl) in * end.
      match goal with H : negb _ = false |- _ => apply negb_false_iff in H; rewrite H end.
      match goal with H : truthy (Some (JStr url)) = true |- _ => cbn [truthy] in H; rewrite H end.
      reflexivity.
  - intros Hvalid. pose proof (valid_document_not_null _ _ Hvalid) as Hn.
    exists (field data "hasPublicWorksRequirement").
    unfold valid_document in Hvalid.
    repeat match goal with
           | H : _ && _ = true |- _ => apply andb_true_iff in H as [? ?]
           end.
    rewrite (stateIssues_fields stateCode data Hn). cbv zeta.
    repeat match goal with
           | H : _ = true |- _ => rewrite H
           end.
    cbn [negb rbind when app andb].
    unfold requirementIssues.
    destruct (truthy (field data "hasPublicWorksRequirement")) eqn:Hh.
    + destruct (field data "requirement") as [req|]; [|discriminate].
      repeat match goal with
             | H : _ && _ = true |- _ => apply andb_true_iff in H as [? ?]
             end.
      destruct (field req "statuteUrl") as [[| | |url| |]|] eqn:Eu; try discriminate.
      repeat match goal with
             | H : _ && _ = true |- _ => apply andb_true_iff in H as [? ?]
             end.
      unfold urlIssues. change (truthy (Some (JStr url))) with (negb (url =? "")).
      repeat match goal with
             | H : _ = true |- _ => rewrite H
             end.
      reflexivity.
    + destruct (field data "requirement"); reflexivity.
Qed.

(** ** Properties that every statement of the script keeps *)

Section Keeps.

Variable I : Results -> Prop.
Hypothesis I_pass : forall r, I r -> I (incr_passed r).
Hypothesis I_warn :
  forall check details r, I r -> I (push_warning (mkEntry "warning" check details) r).
Hypothesis I_fail :
  forall check details r, I r -> I (push_error (mkEntry "error" check details) r).

Lemma keeps_ret {A} (a : A) : keeps I (ret a).
Proof. now intros p. Qed.

Lemma keeps_lift {A} (c : result A) : keeps I (lift c).
Proof. now intros p. Qed.

Lemma keeps_bind {A B} (c : M A) (k : A -> M B) :
  keeps I c -> (forall a, keeps I (k a)) -> keeps I (bind c k).
Proof.
  intros Hc Hk p Hp. unfold bind. specialize (Hc p Hp).
  destruct (c p) as [[a|e] q]; cbn [snd] in *; [now apply Hk | assumption].
Qed.

Lemma keeps_console_log o : keeps I (console_log o).
Proof. now intros p. Qed.

Lemma keeps_console_error e : keeps I (console_error e).
Proof. now intros p. Qed.

Lemma keeps_set_exitCode n : keeps I (set_exitCode n).
Proof. now intros p. Qed.

Lemma keeps_get_results : keeps I get_results.
Proof. now intros p. Qed.

Lemma keeps_log cfg message : keeps I (log cfg message).
Proof. unfold log. destruct (json cfg); [apply keeps_ret | apply keeps_console_log]. Qed.

Lemma keeps_update f : (forall r, I r -> I (f r)) -> keeps I (update_results f).
Proof. intros Hf p Hp. now apply Hf. Qed.

Lemma keeps_pass cfg check : keeps I (pass cfg check).
Proof.
  unfold pass. apply keeps_bind; [apply keeps_update, I_pass|]. intros _.
  destruct (verbose cfg); [apply keeps_log | apply keeps_ret].
Qed.

Lemma keeps_warn cfg check details : keeps I (warn cfg check details).
Proof.
  unfold warn. apply keeps_bind; [apply keeps_update, I_warn|]. intros _.
  apply keeps_bind; [apply keeps_lift|]. intros suffix. apply keeps_log.
Qed.

Lemma keeps_fail cfg check details : keeps I (fail cfg check details).
Proof.
  unfold fail. apply keeps_bind; [apply keeps_update, I_fail|]. intros _.
  apply keeps_bind; [apply keeps_lift|]. intros suffix. apply keeps_log.
Qed.

Lemma keeps_warn_each cfg stateCode l : keeps I (warn_each cfg stateCode l).
Proof.
  induction l as [|issue rest IH]; cbn [warn_each]; [apply keeps_ret|].
  apply keeps_bind; [apply keeps_warn | intros _; apply IH].
Qed.

Lemma keeps_validateStateFile cfg files stateCode :
  keeps I (validateStateFile cfg files stateCode).
Proof.
  unfold validateStateFile.
  destruct (data_file files (stateCode ++ ".json")).
  - apply keeps_bind; [apply keeps_fail | intros; apply keeps_ret].
  - apply keeps_bind; [apply keeps_fail | intros; apply keeps_ret].
  - apply keeps_bind; [apply keeps_lift|]. intros found.
    apply keeps_bind; [|intros; apply keeps_ret].
    destruct (0 <? length (fst found))%nat; [|apply keeps_pass].
    apply keeps_bind; [apply keeps_warn_each|]. intros _.
    destruct (5 <? length (fst found))%nat; [apply keeps_warn | apply keeps_ret].
Qed.

Lemma keeps_validateStates cfg files stateCodes :
  forall stateStats, keeps I (validateStates cfg files stateCodes stateStats).
Proof.
  induction stateCodes as [|stateCode rest IH]; intros stateStats; cbn [validateStates].
  - apply keeps_ret.
  - apply keeps_bind; [apply keeps_validateStateFile | intros; apply IH].
Qed.

Lemma keeps_validateSearchIndex cfg files : keeps I (validateSearchIndex cfg files).
Proof.
  unfold validateSearchIndex. apply keeps_bind; [apply keeps_log|]. intros _.
  destruct (search_index_file files).
  - apply keeps_warn.
  - apply keeps_bind; [apply keeps_pass | intros; apply keeps_fail].
  - apply keeps_bind; [apply keeps_pass|]. intros _.
    destruct (negb (Array_isArray data)); [apply keeps_fail | apply keeps_pass].
Qed.

Lemma keeps_validateIndexFile cfg files dp : keeps I (validateIndexFile cfg files dp).
Proof.
  unfold validateIndexFile. apply keeps_bind; [apply keeps_log|]. intros _.
  destruct (data_file files "index.json") as [|message|index].
  - apply keeps_bind; [apply keeps_fail | intros; apply keeps_ret].
  - apply keeps_bind; [apply keeps_pass|]. intros _.
    apply keeps_bind; [apply keeps_fail | intros; apply keeps_ret].
  - apply keeps_bind; [apply keeps_pass|]. intros _.
    apply keeps_bind; [apply keeps_pass|]. intros _.
    apply keeps_bind; [apply keeps_lift|]. intros lastUpdated.
    apply keeps_bind.
    { destruct lastUpdated as [date_text|]; [|apply keeps_fail].
      destruct (truthy (Some date_text)); [|apply keeps_fail].
      apply keeps_bind; [apply keeps_lift|]. intros [|]; [apply keeps_pass | apply keeps_fail]. }
    intros _. apply keeps_bind; [apply keeps_lift|]. intros index_states.
    destruct index_states as [states_value|].
    + destruct (negb (truthy (Some states_value)) || negb (typeof_object (Some states_value))).
      * apply keeps_bind; [apply keeps_fail | intros; apply keeps_ret].
      * apply keeps_bind; [apply keeps_pass|]. intros _.
        cbn zeta. apply keeps_bind; [|intros; apply keeps_ret].
        destruct (0 <? _)%nat; [apply keeps_warn | apply keeps_pass].
    + apply keeps_bind; [apply keeps_fail | intros; apply keeps_ret].
Qed.

Lemma keeps_generateReport cfg now stateStats : keeps I (generateReport cfg now stateStats).
Proof.
  unfold generateReport. cbv zeta.
  apply keeps_bind; [apply keeps_get_results|]. intros r.
  destruct (json cfg).
  - apply keeps_bind; [apply keeps_console_log | intros; apply keeps_set_exitCode].
  - repeat (apply keeps_bind; [apply keeps_log | intros _]).
    apply keeps_bind; [|intros; apply keeps_log].
    destruct (0 <? errors r)%nat.
    + apply keeps_bind; [apply keeps_log | intros; apply keeps_set_exitCode].
    + destruct (0 <? warnings r)%nat; apply keeps_log.
Qed.

Lemma keeps_main cfg files dp DATA_DIR now : keeps I (main cfg files dp DATA_DIR now).
Proof.
  unfold main.
  do 4 (apply keeps_bind; [apply keeps_log | intros _]).
  apply keeps_bind; [apply keeps_validateIndexFile|]. intros [index|].
  - apply keeps_bind; [apply keeps_log | intros _].
    apply keeps_bind; [apply keeps_lift|]. intros index_states.
    apply keeps_bind; [apply keeps_validateStates|]. intros stateStats.
    apply keeps_bind; [apply keeps_validateSearchIndex|]. intros _.
    apply keeps_generateReport.
  - apply keeps_bind; [apply keeps_log | intros; apply keeps_set_exitCode].
Qed.

Lemma kept_by_script cfg files dp DATA_DIR now :
  I (results initial) -> I (results (script cfg files dp DATA_DIR now)).
Proof.
  intros H0. unfold script.
  pose proof (keeps_main cfg files dp DATA_DIR now initial H0) as H.
  destruct (main cfg files dp DATA_DIR now initial) as [[u|e] p]; cbn [snd] in *;
    [assumption|].
  now apply (keeps_bind (console_error e) (fun _ => set_exitCode 1)
               (keeps_console_error e) (fun _ => keeps_set_exitCode 1)).
Qed.

End Keeps.

Lemma count_type_snoc type log e :
  count_type type (log ++ [e])
  = count_type type log + (if String.eqb (entry_type e) type then 1 else 0).
Proof.
  unfold count_type. rewrite filter_app, length_app. cbn [filter].
  now destruct (String.eqb (entry_type e) type).
Qed.

Lemma accounted_pass r : accounted r -> accounted (incr_passed r).
Proof. now intros H. Qed.

Lemma accounted_warn check d r :
  accounted r -> accounted (push_warning (mkEntry "warning" check d) r).
Proof.
  intros (Hw & He & Hl). unfold accounted, push_warning.
  cbn [details warnings errors]. rewrite !count_type_snoc, length_app.
  cbn [entry_type length]. cbn. lia.
Qed.

Lemma accounted_fail check d r :
  accounted r -> accounted (push_error (mkEntry "error" check d) r).
Proof.
  intros (Hw & He & Hl). unfold accounted, push_error.
  cbn [details warnings errors]. rewrite !count_type_snoc, length_app.
  cbn [entry_type length]. cbn. lia.
Qed.

(** X7.  At the end of every run, each warning and each error counted has
    its entry in the detail log, and the log holds nothing else. *)
Theorem findings_accounted cfg files dp DATA_DIR now :
  let r := results (script cfg files dp DATA_DIR now) in
  count_type "warning" (details r) = warnings r
  /\ count_type "error" (details r) = errors r
  /\ length (details r) = warnings r + errors r.
Proof.
  apply (kept_by_script accounted accounted_pass accounted_warn accounted_fail).
  now cbn.
Qed.

Lemma continues_refl r : continues r r.
Proof.
  unfold continues. repeat split; try lia. exists []. now rewrite app_nil_r.
Qed.

Lemma continues_pass r0 r : continues r0 r -> continues r0 (incr_passed r).
Proof.
  intros (Hp & Hw & He & added & Hd). unfold continues, incr_passed.
  cbn [passed warnings errors details]. repeat split; try lia. now exists added.
Qed.

Lemma continues_warn r0 check d r :
  continues r0 r -> continues r0 (push_warning (mkEntry "warning" check d) r).
Proof.
  intros (Hp & Hw & He & added & Hd). unfold continues, push_warning.
  cbn [passed warnings errors details]. repeat split; try lia.
  eexists. rewrite Hd, <- app_assoc. reflexivity.
Qed.

Lemma continues_fail r0 check d r :
  continues r0 r -> continues r0 (push_error (mkEntry "error" check d) r).
Proof.
  intros (Hp & Hw & He & added & Hd). unfold continues, push_error.
  cbn [passed warnings errors details]. repeat split; try lia.
  eexists. rewrite Hd, <- app_assoc. reflexivity.
Qed.

(** X8.  No statement of the script lowers a counter or touches an earlier
    entry of the detail log: each validator, and the whole of [main],
    only counts further and appends. *)
Theorem findings_only_grow cfg files dp DATA_DIR now stateCode p :
  continues (results p) (results (snd (validateIndexFile cfg files dp p)))
  /\ continues (results p) (results (snd (validateStateFile cfg files stateCode p)))
  /\ continues (results p) (results (snd (validateSearchIndex cfg files p)))
  /\ continues (results p) (results (snd (main cfg files dp DATA_DIR now p))).
Proof.
  pose proof (continues_pass (results p)) as Hpass.
  pose proof (continues_warn (results p)) as Hwarn.
  pose proof (continues_fail (results p)) as Hfail.
  split; [|split; [|split]].
  - apply (keeps_validateIndexFile _ Hpass Hwarn Hfail), continues_refl.
  - apply (keeps_validateStateFile _ Hpass Hwarn Hfail), continues_refl.
  - apply (keeps_validateSearchIndex _ Hpass Hwarn Hfail), continues_refl.
  - apply (keeps_main _ Hpass Hwarn Hfail), continues_refl.
Qed.

(** ** The ends of a run *)

Lemma effect_unique {A} cfg (c : M A) a a' f f' :
  effect cfg c a f -> effect cfg c a' f' -> a = a' /\ forall r, f r = f' r.
Proof.
  intros H H'. split.
  - destruct (effect_run _ _ _ _ initial H) as [<- _].
    now destruct (effect_run _ _ _ _ initial H') as [<- _].
  - intros r.
    destruct (effect_run _ _ _ _ (mkProcess r [] [] None) H) as (_ & E & _).
    destruct (effect_run _ _ _ _ (mkProcess r [] [] None) H') as (_ & E' & _).
    cbn [results] in E, E'. congruence.
Qed.

Lemma lastUpdated_check_errors dp index g :
  lastUpdated_check dp index = Normal g -> forall r, errors r <= errors (g r).
Proof.
  unfold lastUpdated_check.
  destruct (field index "lastUpdated") as [date_text|].
  - destruct (truthy (Some date_text)).
    + destruct (Date_isValid dp date_text) as [[|]|e]; cbn [rbind];
        intros [= <-] r; cbn; lia.
    + intros [= <-] r. cbn. lia.
  - intros [= <-] r. cbn. lia.
Qed.

(** When the index validator returns [null] it has recorded an error. *)
Lemma validateIndexFile_null_error cfg files dp f :
  effect cfg (validateIndexFile cfg files dp) (Normal None) f ->
  forall r, errors r < errors (f r).
Proof.
  intros Hf r.
  destruct (effect_run _ _ _ _ initial Hf) as [Hnull _].
  destruct (validateIndexFile_null _ _ _ _ Hnull)
    as [Hfile | [[message Hfile] | (index & Hfile & Hbad)]].
  - destruct (effect_unique _ _ _ _ _ _ Hf
                (effect_validateIndexFile_NotFound cfg files dp Hfile)) as [_ ->].
    cbn. lia.
  - destruct (effect_unique _ _ _ _ _ _ Hf
                (effect_validateIndexFile_Unparseable cfg files dp message Hfile)) as [_ ->].
    cbn. lia.
  - assert (Hn : index <> JNull).
    { intros ->. destruct (effect_validateIndexFile_JNull cfg files dp Hfile) as [e He].
      now destruct (effect_unique _ _ _ _ _ _ Hf He). }
    destruct (lastUpdated_check dp index) as [g|e] eqn:Hg.
    + destruct (effect_unique _ _ _ _ _ _ Hf
                  (effect_validateIndexFile_bad cfg files dp index g Hfile Hn Hg Hbad))
        as [_ ->].
      pose proof (lastUpdated_check_errors dp index g Hg (incr_passed (incr_passed r))).
      cbn in *. lia.
    + now destruct (effect_unique _ _ _ _ _ _ Hf
                      (effect_validateIndexFile_throw cfg files dp index e Hfile Hn Hg)).
Qed.

(** The three ends of a run: the report, the stop on the index, an
    exception that escapes [main]. *)
Lemma script_cases cfg files dp DATA_DIR :
  (exists index stateStats r lines,
      (forall p, fst (validateIndexFile cfg files dp p) = Normal (Some index))
      /\ (forall p, fst (validateStates cfg files (keys_of (field index "states")) empty_object p)
                    = Normal stateStats)
      /\ forall now,
           script cfg files dp DATA_DIR now
           = mkProcess r
               (if json cfg then [Document (report_of now stateStats r)]
                else map Line (lines ++ [verdict_line (overall_of (errors r) (warnings r));
                                         "----------------------------------------" ++ LF]))
               []
               (if json cfg then Some (if (0 <? errors r)%nat then 1 else 0)
                else if (0 <? errors r)%nat then Some 1 else None))
  \/ (exists r lines,
        0 < errors r
        /\ (forall p, fst (validateIndexFile cfg files dp p) = Normal None)
        /\ forall now,
             script cfg files dp DATA_DIR now
             = mkProcess r
                 (printed cfg (lines ++ [LF ++ "Cannot continue without valid index.json"]))
                 [] (Some 1))
  \/ (exists r lines e,
        forall now,
          script cfg files dp DATA_DIR now = mkProcess r (printed cfg lines) [e] (Some 1)).
Proof.
  destruct (tame_validateIndexFile cfg files dp) as ([[index|]|e] & f & Hf).
  - assert (Hn : index <> JNull).
    { destruct (effect_run _ _ _ _ initial Hf) as [E _].
      now destruct (validateIndexFile_some _ _ _ _ _ E) as (_ & Hn & _). }
    destruct (tame_validateStates cfg files (keys_of (field index "states")) empty_object)
      as ([stateStats|e] & g & Hg).
    + left.
      destruct (run_reaches_report cfg files dp DATA_DIR index f stateStats g Hf Hn Hg)
        as [lines E].
      exists index, stateStats, (search_check files (g (f (results initial)))), lines.
      split; [|split].
      * intros p. now destruct (effect_run _ _ _ _ p Hf).
      * intros p. now destruct (effect_run _ _ _ _ p Hg).
      * intros now. apply script_normal, E.
    + right; right.
      destruct (main_throw cfg files dp DATA_DIR index f e g initial Hf Hn Hg)
        as [lines E].
      eexists _, lines, e. intros now.
      rewrite (script_throw _ _ _ _ _ _ _ (E now)). reflexivity.
  - right; left.
    destruct (main_abort cfg files dp DATA_DIR f initial Hf) as [lines E].
    exists (f (results initial)), lines. split; [|split].
    + pose proof (validateIndexFile_null_error cfg files dp f Hf (results initial)).
      lia.
    + intros p. now destruct (effect_run _ _ _ _ p Hf).
    + intros now. apply script_normal, E.
  - right; right.
    destruct (main_index_throw cfg files dp DATA_DIR e f initial Hf) as [lines E].
    eexists _, lines, e. intros now.
    rewrite (script_throw _ _ _ _ _ _ _ (E now)). reflexivity.
Qed.

Lemma exit_status_zero cfg files dp DATA_DIR now :
  let p := script cfg files dp DATA_DIR now in
  (exit_status p = 0 <-> errors (results p) = 0 /\ stderr p = [])
  /\ exit_status p <= 1.
Proof.
  cbv zeta.
  destruct (script_cases cfg files dp DATA_DIR)
    as [(index & stateStats & r & lines & _ & _ & E)
       | [(r & lines & Herr & _ & E) | (r & lines & e & E)]];
    rewrite (E now); unfold exit_status; cbn [results stderr exitCode].
  - destruct (json cfg), (errors r) as [|n]; cbn; repeat split; intros; try lia;
      try tauto; try (destruct H; discriminate).
  - repeat split; intros; lia.
  - repeat split; intros; try lia. destruct H. discriminate.
Qed.

(** X9.  A run exits with status 0 exactly when it recorded no error and no
    exception escaped; otherwise it exits with status 1. *)
Theorem exit_status_zero_iff_no_error cfg files dp DATA_DIR now :
  let p := script cfg files dp DATA_DIR now in
  (exit_status p = 0 <-> errors (results p) = 0 /\ stderr p = [])
  /\ (exit_status p = 0 \/ exit_status p = 1).
Proof.
  cbv zeta. destruct (exit_status_zero cfg files dp DATA_DIR now) as [H Hle].
  split; [exact H | lia].
Qed.

(** X10.  In [--json] mode, also with [--verbose], the standard output
    of a run is either the report alone, or empty; it is empty when the
    run stops on the index or an exception escapes, and the run then
    exits with status 1. *)
Theorem json_mode_prints_only_the_report cfg files dp DATA_DIR now :
  json cfg = true ->
  let p := script cfg files dp DATA_DIR now in
  (exists report,
      stdout p = [Document report]
      /\ timestamp report = now
      /\ report_passed report = passed (results p)
      /\ report_warnings report = warnings (results p)
      /\ report_errors report = errors (results p)
      /\ report_details report = details (results p))
  \/ (stdout p = [] /\ exit_status p = 1
      /\ (fst (validateIndexFile cfg files dp initial) = Normal None \/ stderr p <> [])).
Proof.
  intros Hj. cbv zeta.
  destruct (script_cases cfg files dp DATA_DIR)
    as [(index & stateStats & r & lines & _ & _ & E)
       | [(r & lines & Herr & Hnull & E) | (r & lines & e & E)]];
    rewrite (E now); unfold exit_status, printed; rewrite Hj;
    cbn [results stdout stderr exitCode].
  - left. eexists. split; [reflexivity|]. cbn. auto.
  - right. split; [reflexivity|]. split; [reflexivity|]. left. apply Hnull.
  - right. split; [reflexivity|]. split; [reflexivity|]. right. discriminate.
Qed.

Lemma json_mode_prints_only_the_report_witness :
  let p := script Sample.machine Sample.partial Sample.Date_parse Sample.DATA_DIR
                  Sample.noon in
  (exists report,
      stdout p = [Document report]
      /\ timestamp report = Sample.noon
      /\ report_passed report = passed (results p)
      /\ report_warnings report = warnings (results p)
      /\ report_errors report = errors (results p)
      /\ report_details report = details (results p))
  \/ (stdout p = [] /\ exit_status p = 1
      /\ (fst (validateIndexFile Sample.machine Sample.partial Sample.Date_parse initial)
          = Normal None
          \/ stderr p <> [])).
Proof.
  exact (json_mode_prints_only_the_report Sample.machine Sample.partial
           Sample.Date_parse Sample.DATA_DIR Sample.noon eq_refl).
Defined.

(** ** Runs under different flags *)

Section Agree.

Variables cfg cfg' : Config.
Variable R : Process -> Process -> Prop.
Hypothesis R_log :
  forall message p p', R p p' -> R (snd (log cfg message p)) (snd (log cfg' message p')).
Hypothesis R_pass :
  forall check p p', R p p' -> R (snd (pass cfg check p)) (snd (pass cfg' check p')).
Hypothesis R_warning :
  forall e p p', R p p' ->
    R (snd (update_results (push_warning e) p)) (snd (update_results (push_warning e) p')).
Hypothesis R_error :
  forall e p p', R p p' ->
    R (snd (update_results (push_error e) p)) (snd (update_results (push_error e) p')).
Hypothesis R_exit :
  forall n p p', R p p' -> R (snd (set_exitCode n p)) (snd (set_exitCode n p')).
Hypothesis R_report :
  forall now stateStats p p', R p p' ->
    R (snd (generateReport cfg now stateStats p)) (snd (generateReport cfg' now stateStats p')).

Lemma agree_ret {A} (a : A) : agree R (ret a) (ret a).
Proof. now intros p p' H. Qed.

Lemma agree_lift {A} (c : result A) : agree R (lift c) (lift c).
Proof. now intros p p' H. Qed.

Lemma agree_bind {A B} (c c' : M A) (k k' : A -> M B) :
  agree R c c' -> (forall a, agree R (k a) (k' a)) -> agree R (bind c k) (bind c' k').
Proof.
  intros Hc Hk p p' H. unfold bind. destruct (Hc p p' H) as [E H1].
  destruct (c p) as [[a|e] q], (c' p') as [[a'|e'] q']; cbn [fst snd] in *;
    try discriminate.
  - injection E as <-. now apply Hk.
  - injection E as <-. now split.
Qed.

Lemma log_Normal c message p : fst (log c message p) = Normal tt.
Proof. unfold log. now destruct (json c). Qed.

Lemma pass_Normal c check p : fst (pass c check p) = Normal tt.
Proof.
  unfold pass, bind, update_results. destruct (verbose c); [apply log_Normal | reflexivity].
Qed.

Lemma agree_log message : agree R (log cfg message) (log cfg' message).
Proof. intros p p' H. rewrite !log_Normal. split; [reflexivity | now apply R_log]. Qed.

Lemma agree_pass check : agree R (pass cfg check) (pass cfg' check).
Proof. intros p p' H. rewrite !pass_Normal. split; [reflexivity | now apply R_pass]. Qed.

Lemma agree_warning e :
  agree R (update_results (push_warning e)) (update_results (push_warning e)).
Proof. intros p p' H. split; [reflexivity | now apply R_warning]. Qed.

Lemma agree_error e :
  agree R (update_results (push_error e)) (update_results (push_error e)).
Proof. intros p p' H. split; [reflexivity | now apply R_error]. Qed.

Lemma agree_set_exitCode n : agree R (set_exitCode n) (set_exitCode n).
Proof. intros p p' H. split; [reflexivity | now apply R_exit]. Qed.

Lemma agree_warn check details : agree R (warn cfg check details) (warn cfg' check details).
Proof.
  unfold warn. apply agree_bind; [apply agree_warning|]. intros _.
  apply agree_bind; [apply agree_lift|]. intros suffix. apply agree_log.
Qed.

Lemma agree_fail check details : agree R (fail cfg check details) (fail cfg' check details).
Proof.
  unfold fail. apply agree_bind; [apply agree_error|]. intros _.
  apply agree_bind; [apply agree_lift|]. intros suffix. apply agree_log.
Qed.

Lemma agree_warn_each stateCode l :
  agree R (warn_each cfg stateCode l) (warn_each cfg' stateCode l).
Proof.
  induction l as [|issue rest IH]; cbn [warn_each]; [apply agree_ret|].
  apply agree_bind; [apply agree_warn | intros _; apply IH].
Qed.

Lemma agree_validateStateFile files stateCode :
  agree R (validateStateFile cfg files stateCode) (validateStateFile cfg' files stateCode).
Proof.
  unfold validateStateFile.
  destruct (data_file files (stateCode ++ ".json")).
  - apply agree_bind; [apply agree_fail | intros; apply agree_ret].
  - apply agree_bind; [apply agree_fail | intros; apply agree_ret].
  - apply agree_bind; [apply agree_lift|]. intros found.
    apply agree_bind; [|intros; apply agree_ret].
    destruct (0 <? length (fst found))%nat; [|apply agree_pass].
    apply agree_bind; [apply agree_warn_each|]. intros _.
    destruct (5 <? length (fst found))%nat; [apply agree_warn | apply agree_ret].
Qed.

Lemma agree_validateStates files stateCodes :
  forall stateStats,
    agree R (validateStates cfg files stateCodes stateStats)
            (validateStates cfg' files stateCodes stateStats).
Proof.
  induction stateCodes as [|stateCode rest IH]; intros stateStats; cbn [validateStates].
  - apply agree_ret.
  - apply agree_bind; [apply agree_validateStateFile | intros; apply IH].
Qed.

Lemma agree_validateSearchIndex files :
  agree R (validateSearchIndex cfg files) (validateSearchIndex cfg' files).
Proof.
  unfold validateSearchIndex. apply agree_bind; [apply agree_log|]. intros _.
  destruct (search_index_file files).
  - apply agree_warn.
  - apply agree_bind; [apply agree_pass | intros; apply agree_fail].
  - apply agree_bind; [apply agree_pass|]. intros _.
    destruct (negb (Array_isArray data)); [apply agree_fail | apply agree_pass].
Qed.

Lemma agree_validateIndexFile files dp :
  agree R (validateIndexFile cfg files dp) (validateIndexFile cfg' files dp).
Proof.
  unfold validateIndexFile. apply agree_bind; [apply agree_log|]. intros _.
  destruct (data_file files "index.json") as [|message|index].
  - apply agree_bind; [apply agree_fail | intros; apply agree_ret].
  - apply agree_bind; [apply agree_pass|]. intros _.
    apply agree_bind; [apply agree_fail | intros; apply agree_ret].
  - apply agree_bind; [apply agree_pass|]. intros _.
    apply agree_bind; [apply agree_pass|]. intros _.
    apply agree_bind; [apply agree_lift|]. intros lastUpdated.
    apply agree_bind.
    { destruct lastUpdated as [date_text|]; [|apply agree_fail].
      destruct (truthy (Some date_text)); [|apply agree_fail].
      apply agree_bind; [apply agree_lift|]. intros [|]; [apply agree_pass | apply agree_fail]. }
    intros _. apply agree_bind; [apply agree_lift|]. intros index_states.
    destruct index_states as [states_value|].
    + destruct (negb (truthy (Some states_value)) || negb (typeof_object (Some states_value))).
      * apply agree_bind; [apply agree_fail | intros; apply agree_ret].
      * apply agree_bind; [apply agree_pass|]. intros _.
        cbn zeta. apply agree_bind; [|intros; apply agree_ret].
        destruct (0 <? _)%nat; [apply agree_warn | apply agree_pass].
    + apply agree_bind; [apply agree_fail | intros; apply agree_ret].
Qed.

Lemma generateReport_Normal c now stateStats p :
  fst (generateReport c now stateStats p) = Normal tt.
Proof.
  destruct (json c) eqn:Hj.
  - now rewrite generateReport_json.
  - destruct (generateReport_human c stateStats p Hj) as [lines E]. now rewrite E.
Qed.

Lemma agree_generateReport now stateStats :
  agree R (generateReport cfg now stateStats) (generateReport cfg' now stateStats).
Proof.
  intros p p' H. rewrite !generateReport_Normal. split; [reflexivity | now apply R_report].
Qed.

Lemma agree_main files dp DATA_DIR now :
  agree R (main cfg files dp DATA_DIR now) (main cfg' files dp DATA_DIR now).
Proof.
  unfold main.
  do 4 (apply agree_bind; [apply agree_log | intros _]).
  apply agree_bind; [apply agree_validateIndexFile|]. intros [index|].
  - apply agree_bind; [apply agree_log | intros _].
    apply agree_bind; [apply agree_lift|]. intros index_states.
    apply agree_bind; [apply agree_validateStates|]. intros stateStats.
    apply agree_bind; [apply agree_validateSearchIndex|]. intros _.
    apply agree_generateReport.
  - apply agree_bind; [apply agree_log | intros; apply agree_set_exitCode].
Qed.

End Agree.

Lemma subsequence_refl {A} (l : list A) : subsequence l l.
Proof. induction l; constructor; assumption. Qed.

Lemma subsequence_app {A} (l l' m m' : list A) :
  subsequence l l' -> subsequence m m' -> subsequence (l ++ m) (l' ++ m').
Proof.
  intros H Hm. induction H; cbn; [assumption | |]; constructor; assumption.
Qed.

Lemma same_findings_main cfg cfg' files dp DATA_DIR now :
  agree same_findings (main cfg files dp DATA_DIR now) (main cfg' files dp DATA_DIR now).
Proof.
  apply agree_main; unfold same_findings.
  - intros message p p' H. unfold log. now destruct (json cfg), (json cfg').
  - intros check p p' [H1 H2]. unfold pass, bind, update_results, log.
    destruct (verbose cfg), (json cfg), (verbose cfg'), (json cfg'); cbn; now rewrite H1, H2.
  - intros e p p' [H1 H2]. cbn. now rewrite H1, H2.
  - intros e p p' [H1 H2]. cbn. now rewrite H1, H2.
  - intros n p p' H. exact H.
  - intros t stateStats p p' H.
    assert (G : forall c q, results (snd (generateReport c t stateStats q)) = results q
                            /\ stderr (snd (generateReport c t stateStats q)) = stderr q).
    { intros c q. destruct (json c) eqn:Hj.
      - now rewrite generateReport_json.
      - destruct (generateReport_human c stateStats q Hj) as [lines E]. now rewrite E. }
    destruct (G cfg p) as [-> ->], (G cfg' p') as [-> ->]. exact H.
Qed.

Lemma script_run cfg files dp DATA_DIR now :
  script cfg files dp DATA_DIR now
  = match fst (main cfg files dp DATA_DIR now initial) with
    | Normal _ => snd (main cfg files dp DATA_DIR now initial)
    | Throw e =>
        let p := snd (main cfg files dp DATA_DIR now initial) in
        mkProcess (results p) (stdout p) (stderr p ++ [e]) (Some 1)
    end.
Proof.
  unfold script. now destruct (main cfg files dp DATA_DIR now initial) as [[[]|e] p].
Qed.

(** X11.  The flags [--verbose] and [--json] change what a run prints, not
    what it finds: the counters, the detail log, the uncaught exception
    and the exit status are the same under any two settings. *)
Theorem flags_do_not_change_findings cfg cfg' files dp DATA_DIR now :
  let p := script cfg files dp DATA_DIR now in
  let p' := script cfg' files dp DATA_DIR now in
  results p = results p' /\ stderr p = stderr p' /\ exit_status p = exit_status p'.
Proof.
  cbv zeta.
  assert (H : same_findings (script cfg files dp DATA_DIR now)
                            (script cfg' files dp DATA_DIR now)).
  { rewrite !script_run.
    destruct (same_findings_main cfg cfg' files dp DATA_DIR now initial initial)
      as [E [H1 H2]]; [now split|].
    rewrite <- E. destruct (fst (main cfg files dp DATA_DIR now initial)) as [[]|e].
    - now split.
    - split; cbn; [assumption | now rewrite H2]. }
  destruct H as [H1 H2]. split; [assumption|]. split; [assumption|].
  destruct (exit_status_zero cfg files dp DATA_DIR now) as [Z L].
  destruct (exit_status_zero cfg' files dp DATA_DIR now) as [Z' L'].
  rewrite H1, H2 in Z.
  destruct (exit_status (script cfg files dp DATA_DIR now)) as [|[|n]],
           (exit_status (script cfg' files dp DATA_DIR now)) as [|[|n']];
    try reflexivity; try lia.
  - assert (1 = 0) by (apply Z', Z; reflexivity). discriminate.
  - assert (1 = 0) by (apply Z, Z'; reflexivity). discriminate.
Qed.

Lemma generateReport_human_lines cfg now stateStats p :
  json cfg = false ->
  generateReport cfg now stateStats p
  = (Normal tt,
     mkProcess (results p) (stdout p ++ map Line (summary_lines stateStats (results p)))
               (stderr p)
               (if (0 <? errors (results p))%nat then Some 1 else exitCode p)).
Proof.
  intros Hj. unfold summary_lines.
  unfold generateReport, overall_of. cbn zeta.
  rewrite (bind_run get_results _ p (results p) p eq_refl). rewrite Hj.
  do 12 log_step Hj.
  destruct (0 <? errors (results p))%nat; [|destruct (0 <? warnings (results p))%nat].
  - erewrite (bind_run (bind (log cfg _) _));
      [|erewrite bind_run by (apply log_human; exact Hj); reflexivity].
    rewrite log_human by exact Hj. cbn [results stdout stderr exitCode map app].
    rewrite <- ?app_assoc. reflexivity.
  - log_step Hj. rewrite log_human by exact Hj.
    cbn [results stdout stderr exitCode map app]. rewrite <- ?app_assoc. reflexivity.
  - log_step Hj. rewrite log_human by exact Hj.
    cbn [results stdout stderr exitCode map app]. rewrite <- ?app_assoc. reflexivity.
Qed.

Lemma quieter_main files dp DATA_DIR now :
  agree quieter (main (mkConfig false false) files dp DATA_DIR now)
                (main (mkConfig true false) files dp DATA_DIR now).
Proof.
  apply agree_main; unfold quieter.
  - intros message p p' (H1 & H2 & H3 & H4 & H5). cbn.
    repeat split; try assumption.
    + apply subsequence_app; [assumption | apply subsequence_refl].
    + rewrite !length_app. cbn. lia.
  - intros check p p' (H1 & H2 & H3 & H4 & H5). cbn.
    repeat split; try assumption.
    + now rewrite H1.
    + rewrite <- (app_nil_r (stdout p)).
      apply subsequence_app; [assumption | repeat constructor].
    + rewrite length_app. cbn. lia.
  - intros e p p' (H1 & H2 & H3 & H4 & H5). cbn.
    repeat split; try assumption. now rewrite H1.
  - intros e p p' (H1 & H2 & H3 & H4 & H5). cbn.
    repeat split; try assumption. now rewrite H1.
  - intros n p p' (H1 & H2 & H3 & H4 & H5). cbn. repeat split; assumption.
  - intros t stateStats p p' (H1 & H2 & H3 & H4 & H5).
    rewrite (generateReport_human_lines (mkConfig false false) t stateStats p eq_refl).
    rewrite (generateReport_human_lines (mkConfig true false) t stateStats p' eq_refl).
    cbn [snd results stdout stderr exitCode]. rewrite <- H1.
    split; [reflexivity|]. split; [assumption|]. split; [now rewrite H3|].
    split.
    + apply subsequence_app; [assumption | apply subsequence_refl].
    + rewrite !length_app. lia.
Qed.

(** X12.  In the human-readable mode [--verbose] only adds lines: what the
    run prints without the flag is what it prints with it, less one
    line for each passed check. *)
Theorem verbose_adds_a_line_per_passed_check files dp DATA_DIR now :
  let quiet := script (mkConfig false false) files dp DATA_DIR now in
  let loud := script (mkConfig true false) files dp DATA_DIR now in
  subsequence (stdout quiet) (stdout loud)
  /\ length (stdout loud) = length (stdout quiet) + passed (results loud).
Proof.
  cbv zeta. rewrite !script_run.
  destruct (quieter_main files dp DATA_DIR now initial initial)
    as [E (H1 & H2 & H3 & H4 & H5)].
  { unfold quieter. cbn. repeat split; constructor. }
  rewrite <- E.
  destruct (fst (main (mkConfig false false) files dp DATA_DIR now initial)) as [[]|e];
    cbn [results stdout]; rewrite <- H1; split; assumption.
Qed.

(** ** The summary of the report *)

Lemma has_own_In props key : has_own props key = true <-> In key (map fst props).
Proof.
  induction props as [|[k x] rest IH]; cbn [has_own map fst In].
  - split; [discriminate | intros []].
  - rewrite orb_true_iff, IH. destruct (String.eqb_spec k key); intuition congruence.
Qed.

Lemma assign_new o key v :
  ~ In key (map fst (own o)) ->
  key <> "__proto__" ->
  assign o key v = mkStateStats (own o ++ [(key, v)]) (prototype o).
Proof.
  intros Hfresh Hkey. unfold assign.
  destruct (has_own (own o) key) eqn:Hown; [now apply has_own_In in Hown|].
  destruct (String.eqb_spec key "__proto__"); [contradiction | reflexivity].
Qed.

Lemma assign_proto o v :
  ~ In "__proto__" (map fst (own o)) ->
  inherits_proto_setter (prototype o) = true ->
  own (assign o "__proto__" v) = own o.
Proof.
  intros Hfresh Hsetter. unfold assign.
  destruct (has_own (own o) "__proto__") eqn:Hown; [now apply has_own_In in Hown|].
  now rewrite Hsetter.
Qed.

Lemma validateStateFile_returns cfg files stateCode p stats :
  fst (validateStateFile cfg files stateCode p) = Normal stats ->
  stats = region_stats files stateCode.
Proof.
  unfold region_stats.
  destruct (data_file files (stateCode ++ ".json")) as [|message|data] eqn:Hfile.
  - destruct (effect_run _ _ _ _ p (effect_validateStateFile_NotFound cfg files _ Hfile))
      as [-> _]. now intros [= <-].
  - destruct (effect_run _ _ _ _ p
                (effect_validateStateFile_Unparseable cfg files _ message Hfile))
      as [-> _]. now intros [= <-].
  - destruct (stateIssues stateCode data) as [[found hasPWR]|e] eqn:Hissues.
    + destruct (effect_run _ _ _ _ p
                  (effect_validateStateFile_Parsed cfg files _ data found hasPWR
                     Hfile Hissues)) as [-> _]. now intros [= <-].
    + destruct (effect_run _ _ _ _ p
                  (effect_validateStateFile_throw cfg files _ data e Hfile Hissues))
        as [-> _]. discriminate.
Qed.

(** Over distinct keys the loop of [main] gives [stateStats] one
    property for each key but [__proto__], in the order of the keys. *)
Lemma validateStates_entries cfg files stateCodes :
  forall stateStats p stats,
    NoDup stateCodes ->
    (forall k, In k stateCodes -> ~ In k (map fst (own stateStats))) ->
    (In "__proto__" stateCodes -> inherits_proto_setter (prototype stateStats) = true) ->
    fst (validateStates cfg files stateCodes stateStats p) = Normal stats ->
    own stats
    = (own stateStats
       ++ map (fun k => (k, region_stats files k)) (counted stateCodes))%list.
Proof.
  induction stateCodes as [|stateCode rest IH]; intros stateStats p stats Hnd Hfresh Hsetter;
    cbn [validateStates].
  - cbn. intros [= <-]. now rewrite app_nil_r.
  - unfold bind.
    destruct (validateStateFile cfg files stateCode p) as [[s|e] q] eqn:E;
      [|discriminate].
    assert (Hs : s = region_stats files stateCode).
    { apply (validateStateFile_returns cfg files stateCode p). now rewrite E. }
    subst s. intros H.
    assert (Hrest : NoDup rest) by now inversion Hnd.
    assert (Hnot : ~ In stateCode rest) by now inversion Hnd.
    unfold counted. cbn [filter]. fold (counted rest).
    destruct (String.eqb_spec stateCode "__proto__") as [->|Hne]; cbn [negb].
    + apply IH in H; [| assumption | | intros Hin; contradiction].
      * rewrite H, assign_proto; [reflexivity | |].
        -- apply Hfresh. now left.
        -- apply Hsetter. now left.
      * intros k Hk. rewrite assign_proto.
        -- apply Hfresh. now right.
        -- apply Hfresh. now left.
        -- apply Hsetter. now left.
    + rewrite assign_new in H by (try assumption; apply Hfresh; now left).
      apply IH in H; [| assumption | |].
      * rewrite H. cbn [own map]. now rewrite <- app_assoc.
      * intros k Hk. cbn [own]. rewrite map_app, in_app_iff. cbn [map fst In].
        intros [Hin|[<-|[]]]; [|contradiction].
        apply (Hfresh k); [now right | assumption].
      * intros Hin. cbn [prototype]. apply Hsetter. now right.
Qed.

Lemma count_stats_regions files stateCodes :
  forall acc,
    count_stats (map (fun k => (k, region_stats files k)) stateCodes) acc
    = (fst acc + length (filter (with_requirement files) stateCodes),
       snd acc + length (filter (with_issues files) stateCodes)).
Proof.
  induction stateCodes as [|k rest IH]; intros [a b]; cbn [map count_stats filter].
  - cbn. f_equal; lia.
  - rewrite IH. unfold with_requirement, with_issues.
    destruct (region_stats files k) as [st|]; cbn [fst snd].
    + destruct (truthy (hasReq st)), (0 <? issues st)%nat; cbn [length]; f_equal; lia.
    + reflexivity.
Qed.

(** X13.  The summary of the report counts the properties of
    [stateStats].  Over distinct keys of [states] these are the keys
    but [__proto__], whose assignment sets the prototype of
    [stateStats] and creates no property: [states] is their number, and
    the two other counts are the numbers of them whose file was read
    and has a truthy [hasPublicWorksRequirement], resp. at least one
    issue; a region whose file is missing or unparseable is counted in
    [states] only. *)
Theorem summary_counts_the_regions cfg files dp DATA_DIR now index report :
  json cfg = true ->
  fst (validateIndexFile cfg files dp initial) = Normal (Some index) ->
  NoDup (keys_of (field index "states")) ->
  stdout (script cfg files dp DATA_DIR now) = [Document report] ->
  let keys := counted (keys_of (field index "states")) in
  states (summary report) = length keys
  /\ statesWithRequirements (summary report) = length (filter (with_requirement files) keys)
  /\ statesWithIssues (summary report) = length (filter (with_issues files) keys)
  /\ statesWithRequirements (summary report) <= states (summary report)
  /\ statesWithIssues (summary report) <= states (summary report).
Proof.
  intros Hj Hindex Hnd Hout. cbv zeta.
  destruct (script_cases cfg files dp DATA_DIR)
    as [(index' & stateStats & r & lines & Hi & Hs & E)
       | [(r & lines & Herr & _ & E) | (r & lines & e & E)]];
    rewrite (E now) in Hout; unfold printed in Hout; rewrite Hj in Hout;
    cbn [stdout] in Hout; try discriminate.
  injection Hout as <-.
  rewrite Hi in Hindex. injection Hindex as ->.
  specialize (Hs initial).
  apply validateStates_entries in Hs; [| assumption | intros k _ [] | reflexivity].
  cbn [own empty_object app] in Hs.
  unfold report_of. cbn [summary states statesWithRequirements statesWithIssues].
  rewrite Hs, count_stats_regions, length_map. cbn [fst snd].
  repeat split; try reflexivity; apply filter_length_le.
Qed.

Lemma summary_counts_the_regions_witness :
  let files := Example.with_proto_key in
  let report := report_of Sample.noon
                  (mkStateStats [("NV", Some (mkStats 0 (Some (JBool false))))]
                                (Stats_prototype (mkStats 0 (Some (JBool true)))))
                  (results (script Sample.machine files Sample.Date_parse Sample.DATA_DIR
                                   Sample.noon)) in
  let keys := counted ["__proto__"; "NV"] in
  states (summary report) = length keys
  /\ statesWithRequirements (summary report) = length (filter (with_requirement files) keys)
  /\ statesWithIssues (summary report) = length (filter (with_issues files) keys)
  /\ statesWithRequirements (summary report) <= states (summary report)
  /\ statesWithIssues (summary report) <= states (summary report).
Proof.
  cbv zeta.
  apply (summary_counts_the_regions Sample.machine Example.with_proto_key
           Sample.Date_parse Sample.DATA_DIR Sample.noon
           (Sample.index_of ["__proto__"; "NV"])).
  - reflexivity.
  - vm_compute. reflexivity.
  - repeat constructor; cbn; intuition discriminate.
  - vm_compute. reflexivity.
Defined.

(** ** Errors that a run cannot lose *)

Lemma generateReport_results cfg now stateStats p :
  results (snd (generateReport cfg now stateStats p)) = results p
  /\ stderr (snd (generateReport cfg now stateStats p)) = stderr p.
Proof.
  destruct (json cfg) eqn:Hj.
  - now rewrite generateReport_json.
  - destruct (generateReport_human cfg stateStats p Hj) as [lines E]. now rewrite E.
Qed.

Lemma keeps_errors_bind {A B} (c : M A) (k : A -> M B) :
  keeps (fun r => 0 < errors r) c -> (forall a, keeps (fun r => 0 < errors r) (k a)) ->
  keeps (fun r => 0 < errors r) (bind c k).
Proof. apply keeps_bind. Qed.

Lemma keeps_errors_validateStates cfg files stateCodes stateStats :
  keeps (fun r => 0 < errors r) (validateStates cfg files stateCodes stateStats).
Proof. apply keeps_validateStates; intros; cbn; lia. Qed.

Lemma keeps_errors_validateSearchIndex cfg files :
  keeps (fun r => 0 < errors r) (validateSearchIndex cfg files).
Proof. apply keeps_validateSearchIndex; intros; cbn; lia. Qed.

(** An error recorded by [validateIndexFile] is still there at the end
    of the run. *)
Lemma error_sticks cfg files dp DATA_DIR index f now :
  effect cfg (validateIndexFile cfg files dp) (Normal (Some index)) f ->
  0 < errors (f (results initial)) ->
  0 < errors (results (script cfg files dp DATA_DIR now)).
Proof.
  intros Hf Herr.
  assert (Hn : index <> JNull).
  { destruct (effect_run _ _ _ _ initial Hf) as [E _].
    now destruct (validateIndexFile_some _ _ _ _ _ E) as (_ & Hn & _). }
  destruct (main_states cfg files dp DATA_DIR index f initial Hf Hn) as [lines E].
  rewrite script_run, (E now).
  match goal with
  | |- context [fst (?c ?p)] =>
      assert (H : 0 < errors (results (snd (c p))));
      [|now destruct (fst (c p)) as [[]|e]]
  end.
  apply keeps_errors_bind; [apply keeps_errors_validateStates | | exact Herr].
  intros stateStats. apply keeps_errors_bind; [apply keeps_errors_validateSearchIndex|].
  intros _ p Hp. now destruct (generateReport_results cfg now stateStats p) as [-> _].
Qed.

Lemma exit_status_one cfg files dp DATA_DIR now :
  0 < errors (results (script cfg files dp DATA_DIR now))
  \/ stderr (script cfg files dp DATA_DIR now) <> [] ->
  exit_status (script cfg files dp DATA_DIR now) = 1.
Proof.
  intros H. destruct (exit_status_zero cfg files dp DATA_DIR now) as [Z L].
  destruct (exit_status (script cfg files dp DATA_DIR now)) as [|[|n]];
    [|reflexivity|lia].
  destruct Z as [Z _]. destruct (Z eq_refl) as [Z1 Z2].
  destruct H as [H|H]; [lia | contradiction].
Qed.

(** X14.  A missing or invalid [lastUpdated] costs one error and does not
    stop the run: [validateIndexFile] still returns the index, and the
    run, whatever it finds in the regions, exits with status 1. *)
Theorem lastUpdated_error_fails_the_run cfg files dp DATA_DIR now index :
  data_file files "index.json" = Parsed index ->
  states_ok (field index "states") = true ->
  truthy (field index "lastUpdated") = false
  \/ (exists text, field index "lastUpdated" = Some (JStr text) /\ dp text = false) ->
  fst (validateIndexFile cfg files dp initial) = Normal (Some index)
  /\ errors (results (snd (validateIndexFile cfg files dp initial))) = 1
  /\ 0 < errors (results (script cfg files dp DATA_DIR now))
  /\ exit_status (script cfg files dp DATA_DIR now) = 1.
Proof.
  intros Hfile Hok Hdate.
  assert (Hn : index <> JNull) by (intros ->; discriminate).
  assert (Hg : exists e, lastUpdated_check dp index = Normal (push_error e)).
  { unfold lastUpdated_check. destruct Hdate as [Hfalsy | (text & -> & Hdp)].
    - destruct (field index "lastUpdated") as [date_text|]; [rewrite Hfalsy|]; eauto.
    - destruct (truthy (Some (JStr text))); cbn; [rewrite Hdp|]; eauto. }
  destruct Hg as [e Hg].
  pose proof (effect_validateIndexFile_ok cfg files dp index _ Hfile Hn Hg Hok) as Hf.
  destruct (effect_run _ _ _ _ initial Hf) as (E1 & E2 & _).
  assert (Herr : errors (coverage_check (keys_of (field index "states"))
                           (incr_passed (push_error e (incr_passed (incr_passed
                              (results initial)))))) = 1).
  { unfold coverage_check. now destruct (0 <? _)%nat. }
  split; [exact E1|]. split; [now rewrite E2|].
  assert (H : 0 < errors (results (script cfg files dp DATA_DIR now))).
  { apply (error_sticks cfg files dp DATA_DIR index _ now Hf). rewrite Herr. lia. }
  split; [exact H | apply exit_status_one; now left].
Qed.

Lemma lastUpdated_error_fails_the_run_witness :
  fst (validateIndexFile Sample.human Example.undated Sample.Date_parse initial)
  = Normal (Some Example.undated_index)
  /\ errors (results (snd (validateIndexFile Sample.human Example.undated
                             Sample.Date_parse initial))) = 1
  /\ 0 < errors (results (script Sample.human Example.undated Sample.Date_parse
                                 Sample.DATA_DIR Sample.noon))
  /\ exit_status (script Sample.human Example.undated Sample.Date_parse
                         Sample.DATA_DIR Sample.noon) = 1.
Proof.
  apply (lastUpdated_error_fails_the_run Sample.human Example.undated Sample.Date_parse
           Sample.DATA_DIR Sample.noon Example.undated_index).
  - reflexivity.
  - reflexivity.
  - left. reflexivity.
Defined.

Lemma errors_search_check files r : errors r <= errors (search_check files r).
Proof.
  unfold search_check. destruct (search_index_file files) as [|message|index]; cbn; try lia.
  destruct (Array_isArray index); cbn; lia.
Qed.

Lemma validateStates_unreadable cfg files k stateCodes :
  In k stateCodes ->
  data_file files (k ++ ".json") = NotFound
  \/ (exists message, data_file files (k ++ ".json") = Unparseable message) ->
  forall stateStats p stats p',
    validateStates cfg files stateCodes stateStats p = (Normal stats, p') ->
    0 < errors (results p').
Proof.
  intros Hin Hfile.
  induction stateCodes as [|stateCode rest IH]; [destruct Hin|].
  intros stateStats p stats p'. cbn [validateStates]. unfold bind.
  destruct (validateStateFile cfg files stateCode p) as [[s|e] q] eqn:E; [|discriminate].
  intros H.
  destruct (string_dec stateCode k) as [->|Hne].
  - assert (Hq : 0 < errors (results q)).
    { destruct Hfile as [Hfile | [message Hfile]].
      - destruct (effect_run _ _ _ _ p (effect_validateStateFile_NotFound cfg files k Hfile))
          as (_ & E2 & _). rewrite E in E2. cbn [snd] in E2. rewrite E2. cbn. lia.
      - destruct (effect_run _ _ _ _ p
                    (effect_validateStateFile_Unparseable cfg files k message Hfile))
          as (_ & E2 & _). rewrite E in E2. cbn [snd] in E2. rewrite E2. cbn. lia. }
    pose proof (keeps_errors_validateStates cfg files rest (assign stateStats k s) q Hq)
      as Hk.
    now rewrite H in Hk.
  - destruct Hin as [Heq|Hin]; [contradiction|]. exact (IH Hin _ _ _ _ H).
Qed.

(** X15.  A region of the index whose file is missing or cannot be parsed
    does not stop the run, and makes it fail: the exit status is 1, and
    unless an exception escapes, the final results hold an error. *)
Theorem unreadable_region_fails_the_run cfg files dp DATA_DIR now index k :
  fst (validateIndexFile cfg files dp initial) = Normal (Some index) ->
  In k (keys_of (field index "states")) ->
  data_file files (k ++ ".json") = NotFound
  \/ (exists message, data_file files (k ++ ".json") = Unparseable message) ->
  let p := script cfg files dp DATA_DIR now in
  exit_status p = 1 /\ (stderr p = [] -> 0 < errors (results p)).
Proof.
  intros Hindex Hin Hfile. cbv zeta.
  assert (Hn : index <> JNull)
    by now destruct (validateIndexFile_some _ _ _ _ _ Hindex) as (_ & Hn & _).
  destruct (effect_of_completion cfg _ _ initial (tame_validateIndexFile cfg files dp)
              Hindex) as [f Hf].
  destruct (tame_validateStates cfg files (keys_of (field index "states")) empty_object)
    as ([stateStats|e] & g & Hg).
  - assert (Herr : 0 < errors (search_check files (g (f (results initial))))).
    { eapply Nat.lt_le_trans; [|apply errors_search_check].
      destruct (Hg (mkProcess (f (results initial)) [] [] None)) as [lines E].
      apply (validateStates_unreadable cfg files k _ Hin Hfile _ _ _ _ E). }
    destruct (run_reaches_report cfg files dp DATA_DIR index f stateStats g Hf Hn Hg)
      as [lines E].
    assert (H : 0 < errors (results (script cfg files dp DATA_DIR now))).
    { rewrite (script_normal _ _ _ _ _ _ (E now)). exact Herr. }
    split; [apply exit_status_one; now left | intros _; exact H].
  - destruct (main_throw cfg files dp DATA_DIR index f e g initial Hf Hn Hg) as [lines E].
    assert (H : stderr (script cfg files dp DATA_DIR now) <> []).
    { rewrite (script_throw _ _ _ _ _ _ _ (E now)). discriminate. }
    split; [apply exit_status_one; now right | intros H']. contradiction.
Qed.

Lemma unreadable_region_fails_the_run_witness :
  let p := script Sample.machine Sample.partial Sample.Date_parse Sample.DATA_DIR
                  Sample.noon in
  exit_status p = 1 /\ (stderr p = [] -> 0 < errors (results p)).
Proof.
  apply (unreadable_region_fails_the_run Sample.machine Sample.partial Sample.Date_parse
           Sample.DATA_DIR Sample.noon (Sample.index_of ["CA"; "NV"]) "NV").
  - vm_compute. reflexivity.
  - cbn. tauto.
  - left. reflexivity.
Defined.

Lemma validateStates_throws cfg files k data e stateCodes :
  In k stateCodes ->
  data_file files (k ++ ".json") = Parsed data ->
  stateIssues k data = Throw e ->
  forall stateStats, exists e' g,
    effect cfg (validateStates cfg files stateCodes stateStats) (Throw e') g.
Proof.
  intros Hin Hfile Hthrow.
  induction stateCodes as [|stateCode rest IH]; [destruct Hin|].
  intros stateStats. cbn [validateStates].
  destruct (tame_validateStateFile cfg files stateCode) as ([s|e1] & f & Hf).
  - destruct (string_dec stateCode k) as [->|Hne].
    + pose proof (effect_validateStateFile_throw cfg files k data e Hfile Hthrow) as Hf'.
      now destruct (effect_unique _ _ _ _ _ _ Hf Hf').
    + destruct Hin as [Heq|Hin]; [contradiction|].
      destruct (IH Hin (assign stateStats stateCode s)) as (e' & g & Hg).
      exists e', (fun r => g (f r)). exact (effect_bind _ _ _ _ _ _ _ Hf Hg).
  - exists e1, f. now apply effect_throw.
Qed.

(** X16.  A region document on which a check throws (a [null] document, a
    truthy [statuteUrl] that is no string, ...) ends the run with an
    uncaught exception: it is printed on the standard error, the exit
    status is 1 and no report is printed. *)
Theorem throwing_region_crashes_the_run cfg files dp DATA_DIR now index k data e :
  fst (validateIndexFile cfg files dp initial) = Normal (Some index) ->
  In k (keys_of (field index "states")) ->
  data_file files (k ++ ".json") = Parsed data ->
  stateIssues k data = Throw e ->
  let p := script cfg files dp DATA_DIR now in
  (exists e', stderr p = [e'])
  /\ exit_status p = 1
  /\ (forall report, ~ In (Document report) (stdout p))
  /\ (json cfg = true -> stdout p = []).
Proof.
  intros Hindex Hin Hfile Hthrow. cbv zeta.
  assert (Hn : index <> JNull)
    by now destruct (validateIndexFile_some _ _ _ _ _ Hindex) as (_ & Hn & _).
  destruct (effect_of_completion cfg _ _ initial (tame_validateIndexFile cfg files dp)
              Hindex) as [f Hf].
  destruct (validateStates_throws cfg files k data e _ Hin Hfile Hthrow empty_object)
    as (e' & g & Hg).
  destruct (main_throw cfg files dp DATA_DIR index f e' g initial Hf Hn Hg) as [lines E].
  rewrite (script_throw _ _ _ _ _ _ _ (E now)).
  cbn [results stdout stderr exitCode app]. unfold exit_status. cbn [exitCode].
  split; [now exists e'|]. split; [reflexivity|]. split.
  - intros report H. now apply Document_not_printed in H.
  - intros Hj. unfold printed. now rewrite Hj.
Qed.

Lemma throwing_region_crashes_the_run_witness :
  let p := script Sample.machine Example.null_region Sample.Date_parse Sample.DATA_DIR
                  Sample.noon in
  (exists e', stderr p = [e'])
  /\ exit_status p = 1
  /\ (forall report, ~ In (Document report) (stdout p))
  /\ (json Sample.machine = true -> stdout p = []).
Proof.
  apply (throwing_region_crashes_the_run Sample.machine Example.null_region
           Sample.Date_parse Sample.DATA_DIR Sample.noon (Sample.index_of ["CA"; "NV"])
           "CA" JNull (TypeError "Cannot read properties of null (reading 'state')")).
  - vm_compute. reflexivity.
  - cbn. tauto.
  - reflexivity.
  - reflexivity.
Defined.

(** ** The coverage of the index *)

Lemma filter_all {A} (f : A -> bool) (l : list A) :
  (forall x, In x l -> f x = true) -> filter f l = l.
Proof.
  induction l as [|x l IH]; cbn [filter]; intros H; [reflexivity|].
  rewrite (H x) by now left. rewrite IH; [reflexivity|]. intros y Hy. apply H. now right.
Qed.

Lemma missing_nil indexStates :
  missing indexStates = [] <-> forall s, In s EXPECTED_STATES -> In s indexStates.
Proof.
  split.
  - intros Hm s Hs. destruct (includes indexStates s) eqn:Hi; [now apply includes_In|].
    assert (H : In s (missing indexStates)).
    { apply missing_In. split; [assumption|]. intros Hin. apply includes_In in Hin.
      congruence. }
    rewrite Hm in H. destruct H.
  - intros H. destruct (missing indexStates) as [|s rest] eqn:Hm; [reflexivity|].
    assert (Hs : In s (missing indexStates)) by (rewrite Hm; now left).
    apply missing_In in Hs as [Hs Hnot]. now destruct Hnot; apply H.
Qed.

(** X17.  The comparison with the expected codes passes exactly when every
    expected code is a key of [states]: the index validator then
    records no warning at all, whatever other keys [states] has;
    otherwise it records one. *)
Theorem coverage_passes_iff_all_expected_listed cfg files dp index g :
  data_file files "index.json" = Parsed index ->
  lastUpdated_check dp index = Normal g ->
  states_ok (field index "states") = true ->
  exists f,
    effect cfg (validateIndexFile cfg files dp) (Normal (Some index)) f
    /\ ((forall s, In s EXPECTED_STATES -> In s (keys_of (field index "states")))
        -> forall r, warnings (f r) = warnings r /\ passed (f r) = passed (g (incr_passed (incr_passed r))) + 2)
    /\ (~ (forall s, In s EXPECTED_STATES -> In s (keys_of (field index "states")))
        -> forall r, warnings (f r) = S (warnings r)).
Proof.
  intros Hfile Hg Hok.
  assert (Hn : index <> JNull) by (intros ->; discriminate).
  eexists. split; [apply (effect_validateIndexFile_ok cfg files dp index g Hfile Hn Hg Hok)|].
  split.
  - intros Hall r. apply missing_nil in Hall. unfold coverage_check. rewrite Hall.
    cbn. rewrite (lastUpdated_check_warnings dp index g Hg). cbn. split; [reflexivity | lia].
  - intros Hsome r. unfold coverage_check.
    destruct (missing (keys_of (field index "states"))) as [|s rest] eqn:Hm.
    + destruct Hsome. now apply missing_nil.
    + cbn. rewrite (lastUpdated_check_warnings dp index g Hg). reflexivity.
Qed.

Lemma coverage_passes_iff_all_expected_listed_witness :
  exists f,
    effect Sample.human (validateIndexFile Sample.human Sample.complete Sample.Date_parse)
           (Normal (Some (Sample.index_of EXPECTED_STATES))) f
    /\ ((forall s, In s EXPECTED_STATES
                   -> In s (keys_of (field (Sample.index_of EXPECTED_STATES) "states")))
        -> forall r, warnings (f r) = warnings r
                     /\ passed (f r) = passed (incr_passed (incr_passed (incr_passed r))) + 2)
    /\ (~ (forall s, In s EXPECTED_STATES
                     -> In s (keys_of (field (Sample.index_of EXPECTED_STATES) "states")))
        -> forall r, warnings (f r) = S (warnings r)).
Proof.
  apply (coverage_passes_iff_all_expected_listed Sample.human Sample.complete
           Sample.Date_parse (Sample.index_of EXPECTED_STATES) incr_passed).
  - reflexivity.
  - reflexivity.
  - reflexivity.
Defined.

(** The decimal text of a number is no two-letter code. *)
Lemma nat_toString_not_expected n : ~ In (nat_toString n) EXPECTED_STATES.
Proof.
  intros H.
  assert (Hletter : forallb (fun s => match s with
                                      | String c _ => (65 <=? nat_of_ascii c)%nat
                                      | EmptyString => false
                                      end) EXPECTED_STATES = true) by reflexivity.
  rewrite forallb_forall in Hletter. specialize (Hletter _ H).
  unfold nat_toString in Hletter.
  destruct (Nat.to_uint n); cbn in Hletter; discriminate.
Qed.

(** X18.  When [states] is an array, its keys are the indices of its
    elements, of which none is an expected code: the index validator
    accepts the index and warns that every expected code is missing. *)
Theorem array_of_states_misses_every_code cfg files dp index g elems :
  data_file files "index.json" = Parsed index ->
  lastUpdated_check dp index = Normal g ->
  field index "states" = Some (JArr elems) ->
  keys_of (field index "states") = map nat_toString (seq 0 (length elems))
  /\ missing (keys_of (field index "states")) = EXPECTED_STATES
  /\ effect cfg (validateIndexFile cfg files dp) (Normal (Some index))
       (fun r =>
          push_warning
            (mkEntry "warning" "All expected states present"
                     (JStr ("Missing: " ++ join ", " EXPECTED_STATES)))
            (incr_passed (g (incr_passed (incr_passed r))))).
Proof.
  intros Hfile Hg Hstates.
  assert (Hn : index <> JNull) by (intros ->; discriminate).
  assert (Hok : states_ok (field index "states") = true) by now rewrite Hstates.
  assert (Hkeys : keys_of (field index "states") = map nat_toString (seq 0 (length elems)))
    by now rewrite Hstates.
  assert (Hm : missing (keys_of (field index "states")) = EXPECTED_STATES).
  { unfold missing. apply filter_all. intros s Hs.
    destruct (includes (keys_of (field index "states")) s) eqn:Hi; [|reflexivity].
    apply includes_In in Hi. rewrite Hkeys in Hi.
    apply in_map_iff in Hi as (n & <- & _). now apply nat_toString_not_expected in Hs. }
  split; [exact Hkeys|]. split; [exact Hm|].
  eapply effect_ext;
    [|apply (effect_validateIndexFile_ok cfg files dp index g Hfile Hn Hg Hok)].
  intros r. cbv beta. unfold coverage_check. rewrite Hm. reflexivity.
Qed.

Lemma array_of_states_misses_every_code_witness :
  keys_of (field Example.listed_index "states") = map nat_toString (seq 0 2)
  /\ missing (keys_of (field Example.listed_index "states")) = EXPECTED_STATES
  /\ effect Sample.human
       (validateIndexFile Sample.human Example.listed Sample.Date_parse)
       (Normal (Some Example.listed_index))
       (fun r =>
          push_warning
            (mkEntry "warning" "All expected states present"
                     (JStr ("Missing: " ++ join ", " EXPECTED_STATES)))
            (incr_passed (incr_passed (incr_passed (incr_passed r))))).
Proof.
  apply (array_of_states_misses_every_code Sample.human Example.listed Sample.Date_parse
           Example.listed_index incr_passed [JStr "CA"; JStr "NV"]).
  - reflexivity.
  - reflexivity.
  - reflexivity.
Defined.

(** ** The files that a run reads *)

Lemma bind_ext {A B} (c c' : M A) (k k' : A -> M B) p :
  c p = c' p ->
  (forall a q, c p = (Normal a, q) -> k a q = k' a q) ->
  bind c k p = bind c' k' p.
Proof.
  intros Hc Hk. unfold bind. rewrite <- Hc.
  destruct (c p) as [[a|e] q]; [now apply Hk | reflexivity].
Qed.

Lemma validateStateFile_ext cfg files files' stateCode :
  data_file files (stateCode ++ ".json") = data_file files' (stateCode ++ ".json") ->
  validateStateFile cfg files stateCode = validateStateFile cfg files' stateCode.
Proof. intros H. unfold validateStateFile. now rewrite H. Qed.

Lemma validateStates_ext cfg files files' stateCodes :
  (forall k, In k stateCodes ->
             data_file files (k ++ ".json") = data_file files' (k ++ ".json")) ->
  forall stateStats p,
    validateStates cfg files stateCodes stateStats p
    = validateStates cfg files' stateCodes stateStats p.
Proof.
  induction stateCodes as [|stateCode rest IH]; intros H stateStats p;
    cbn [validateStates]; [reflexivity|].
  apply bind_ext.
  - rewrite (validateStateFile_ext cfg files files' stateCode); [reflexivity|].
    apply H. now left.
  - intros stats q _. apply IH. intros k Hk. apply H. now right.
Qed.

Lemma validateIndexFile_ext cfg files files' dp :
  data_file files "index.json" = data_file files' "index.json" ->
  validateIndexFile cfg files dp = validateIndexFile cfg files' dp.
Proof. intros H. unfold validateIndexFile. now rewrite H. Qed.

Lemma validateSearchIndex_ext cfg files files' :
  search_index_file files = search_index_file files' ->
  validateSearchIndex cfg files = validateSearchIndex cfg files'.
Proof. intros H. unfold validateSearchIndex. now rewrite H. Qed.

(** X19.  A run reads the index, the file of each key of [states] and the
    search index, and nothing else: two data directories that agree on
    these give the same run, whatever other files they hold. *)
Theorem unlisted_files_are_never_read cfg files files' dp DATA_DIR now :
  data_file files "index.json" = data_file files' "index.json" ->
  search_index_file files = search_index_file files' ->
  (forall index k,
      data_file files "index.json" = Parsed index ->
      In k (keys_of (field index "states")) ->
      data_file files (k ++ ".json") = data_file files' (k ++ ".json")) ->
  script cfg files dp DATA_DIR now = script cfg files' dp DATA_DIR now.
Proof.
  intros Hindex Hsearch Hregions.
  assert (E : main cfg files dp DATA_DIR now initial
              = main cfg files' dp DATA_DIR now initial).
  { unfold main.
    apply bind_ext; [reflexivity | intros [] q1 _].
    apply bind_ext; [reflexivity | intros [] q2 _].
    apply bind_ext; [reflexivity | intros [] q3 _].
    apply bind_ext; [reflexivity | intros [] q4 _].
    apply bind_ext; [now rewrite (validateIndexFile_ext cfg files files' dp Hindex)|].
    intros [index|] q5 Hq; [|reflexivity].
    assert (Hsome : fst (validateIndexFile cfg files dp q4) = Normal (Some index))
      by now rewrite Hq.
    destruct (validateIndexFile_some _ _ _ _ _ Hsome) as (Hfile & Hn & _).
    apply bind_ext; [reflexivity | intros [] q6 _].
    apply bind_ext; [reflexivity|]. intros index_states q7 Hget.
    unfold lift in Hget. rewrite (Get_field index "states" Hn) in Hget.
    injection Hget as <- _.
    apply bind_ext.
    - apply validateStates_ext. intros k Hk. exact (Hregions index k Hfile Hk).
    - intros stateStats q8 _.
      now rewrite (validateSearchIndex_ext cfg files files' Hsearch). }
  unfold script. now rewrite E.
Qed.

Lemma unlisted_files_are_never_read_witness :
  script Sample.human Sample.partial Sample.Date_parse Sample.DATA_DIR Sample.noon
  = script Sample.human Example.with_stray_file Sample.Date_parse Sample.DATA_DIR Sample.noon.
Proof.
  apply (unlisted_files_are_never_read Sample.human Sample.partial Example.with_stray_file).
  - reflexivity.
  - reflexivity.
  - intros index k [= <-] Hk. cbn in Hk.
    destruct Hk as [<-|[<-|[]]]; reflexivity.
Defined.

(** The counts of [generateReport] do not depend on the order in which
    the properties of [stateStats] are enumerated. *)
Lemma count_stats_Permutation entries entries' :
  Permutation entries entries' ->
  forall acc, count_stats entries acc = count_stats entries' acc.
Proof.
  induction 1 as [|[k stats] l l' _ IH|[k stats] [k' stats'] l|l l' l'' _ IH1 _ IH2];
    intros acc; cbn [count_stats].
  - reflexivity.
  - apply IH.
  - f_equal. destruct stats as [st|], stats' as [st'|]; cbn [fst snd]; try reflexivity.
    destruct (truthy (hasReq st)), (truthy (hasReq st')),
             (0 <? issues st)%nat, (0 <? issues st')%nat; reflexivity.
  - now rewrite IH1.
Qed.

(** ** The stop on the index *)

(** How [validateIndexFile] completes, by the index file. *)
Lemma validateIndexFile_cases cfg files dp :
  (index_check_throws dp files = true
   /\ exists e f, effect cfg (validateIndexFile cfg files dp) (Throw e) f)
  \/ (index_check_throws dp files = false /\ index_failure files = true
      /\ exists f, effect cfg (validateIndexFile cfg files dp) (Normal None) f)
  \/ (index_check_throws dp files = false /\ index_failure files = false
      /\ exists index f,
           data_file files "index.json" = Parsed index
           /\ index <> JNull
           /\ effect cfg (validateIndexFile cfg files dp) (Normal (Some index)) f).
Proof.
  unfold index_check_throws, index_failure.
  destruct (data_file files "index.json") as [|message|index] eqn:Hfile.
  - right; left. repeat split.
    eexists. apply (effect_validateIndexFile_NotFound cfg files dp Hfile).
  - right; left. repeat split.
    eexists. apply (effect_validateIndexFile_Unparseable cfg files dp message Hfile).
  - assert (Hnull : index = JNull \/ index <> JNull)
      by (destruct index; (now left) || (right; discriminate)).
    destruct Hnull as [->|Hn].
    { left. split; [reflexivity|].
      destruct (effect_validateIndexFile_JNull cfg files dp Hfile) as [e He]. eauto. }
    assert (Hthrows : match index with
                      | JNull => true
                      | _ => match lastUpdated_check dp index with
                             | Throw _ => true
                             | Normal _ => false
                             end
                      end
                      = match lastUpdated_check dp index with
                        | Throw _ => true
                        | Normal _ => false
                        end)
      by (destruct index; [contradiction | reflexivity..]).
    rewrite Hthrows. clear Hthrows.
    destruct (lastUpdated_check dp index) as [g|e] eqn:Hg.
    + destruct (states_ok (field index "states")) eqn:Hok; cbn [negb].
      * right; right. repeat split. exists index. eexists. repeat split; [assumption|].
        apply (effect_validateIndexFile_ok cfg files dp index g Hfile Hn Hg Hok).
      * right; left. repeat split. eexists.
        apply (effect_validateIndexFile_bad cfg files dp index g Hfile Hn Hg Hok).
    + left. split; [reflexivity|]. eexists. eexists.
      apply (effect_validateIndexFile_throw cfg files dp index e Hfile Hn Hg).
Qed.

Lemma rule_is_not_the_message :
  "----------------------------------------" ++ LF
  <> LF ++ "Cannot continue without valid index.json".
Proof. discriminate. Qed.

Lemma last_of_two {A} (l l' : list A) a b c :
  (l ++ [a; b] = l' ++ [c])%list -> b = c.
Proof.
  intros H. change (l ++ [a; b])%list with (l ++ ([a] ++ [b]))%list in H.
  rewrite app_assoc in H. now apply app_inj_tail in H.
Qed.

(** A run that reports is not an aborted run. *)
Lemma report_not_aborted cfg p r stateStats now lines :
  p = mkProcess r
        (if json cfg then [Document (report_of now stateStats r)]
         else map Line (lines ++ [verdict_line (overall_of (errors r) (warnings r));
                                  "----------------------------------------" ++ LF]))
        []
        (if json cfg then Some (if (0 <? errors r)%nat then 1 else 0)
         else if (0 <? errors r)%nat then Some 1 else None) ->
  ~ aborted cfg p.
Proof.
  intros -> (_ & _ & Hreport & Hmessage). cbn [stdout] in *.
  destruct (json cfg).
  - apply (Hreport (report_of now stateStats r)). now left.
  - destruct (Hmessage eq_refl) as [lines' E].
    assert (Hinj : forall l l', map Line l = map Line l' -> l = l').
    { induction l as [|x l IH]; intros [|x' l']; cbn; try discriminate; [reflexivity|].
      intros [= -> H]. f_equal. now apply IH. }
    apply Hinj in E.
    apply last_of_two in E.
    now apply rule_is_not_the_message.
Qed.

(** C2.  Every run ends in one of three ways, decided by the index.
    It is aborted (exit status 1, nothing on the standard error, no
    report, and the message that it cannot continue as the last line of
    the human-readable output) only on one of the three failures of the
    index: the file missing, the file unparseable, [states] absent,
    falsy or no object.  More precisely the run is aborted exactly when
    the index validator returns [null], which it does exactly on one of
    these failures when no check of the index document throws first.
    On each of the three failures the run records nothing beyond what
    the index validator recorded (no region is validated), prints no
    report and exits with status 1.  When a check of the index document
    throws ([null], a [lastUpdated] that cannot be converted) the
    exception escapes [main], which is no abort: the top-level handler
    ends the run, again with status 1 and no region validated.  In
    every other case the validator returns the index and [main] runs
    the loop over all keys of [states].  In that loop a region whose
    file is missing or unparseable records exactly one error and
    returns no statistics, and the loop goes on with the remaining
    regions. *)
Theorem abort_only_on_index_failures cfg files dp DATA_DIR now :
  let p := script cfg files dp DATA_DIR now in
  let returned := fst (validateIndexFile cfg files dp initial) in
  let index_only := results (snd (validateIndexFile cfg files dp initial)) in
  (aborted cfg p -> index_failure files = true)
  /\ (aborted cfg p <-> returned = Normal None)
  /\ (returned = Normal None
      <-> index_failure files = true /\ index_check_throws dp files = false)
  /\ (index_failure files = true ->
      results p = index_only
      /\ exit_status p = 1
      /\ (forall report, ~ In (Document report) (stdout p)))
  /\ (index_check_throws dp files = true ->
      results p = index_only
      /\ exit_status p = 1
      /\ (forall report, ~ In (Document report) (stdout p))
      /\ (exists e, returned = Throw e /\ stderr p = [e])
      /\ ~ aborted cfg p)
  /\ (index_failure files = false ->
      index_check_throws dp files = false ->
      exists index lines,
        data_file files "index.json" = Parsed index
        /\ returned = Normal (Some index)
        /\ main cfg files dp DATA_DIR now initial
           = (stateStats <- validateStates cfg files (keys_of (field index "states"))
                                           empty_object ;;
              validateSearchIndex cfg files ;;
              generateReport cfg now stateStats)%proc
               (mkProcess index_only (printed cfg lines) [] None))
  /\ (forall stateCode rest stateStats,
      data_file files (stateCode ++ ".json") = NotFound
      \/ (exists message, data_file files (stateCode ++ ".json") = Unparseable message) ->
      exists e,
        entry_type e = "error"
        /\ effect cfg (validateStateFile cfg files stateCode) (Normal None) (push_error e)
        /\ forall a f,
             effect cfg (validateStates cfg files rest (assign stateStats stateCode None)) a f ->
             effect cfg (validateStates cfg files (stateCode :: rest) stateStats) a
                    (fun r => f (push_error e r))).
Proof.
  cbv zeta.
  assert (Hregions :
    forall stateCode rest stateStats,
      data_file files (stateCode ++ ".json") = NotFound
      \/ (exists message, data_file files (stateCode ++ ".json") = Unparseable message) ->
      exists e,
        entry_type e = "error"
        /\ effect cfg (validateStateFile cfg files stateCode) (Normal None) (push_error e)
        /\ forall a f,
             effect cfg (validateStates cfg files rest (assign stateStats stateCode None)) a f ->
             effect cfg (validateStates cfg files (stateCode :: rest) stateStats) a
                    (fun r => f (push_error e r))).
  { intros stateCode rest stateStats Hfile.
    assert (He : exists e, entry_type e = "error"
                 /\ effect cfg (validateStateFile cfg files stateCode) (Normal None)
                           (push_error e)).
    { destruct Hfile as [Hfile | [message Hfile]].
      - eexists. split; [|apply effect_validateStateFile_NotFound, Hfile]. reflexivity.
      - eexists. split; [|eapply effect_validateStateFile_Unparseable, Hfile]. reflexivity. }
    destruct He as (e & Htype & He). exists e. repeat split; [assumption..|].
    intros a f Hrest. cbn [validateStates].
    eapply effect_bind; eassumption. }
  destruct (validateIndexFile_cases cfg files dp)
    as [(Hthrows & e & f & Hf)
       | [(Hthrows & Hfailure & f & Hf)
         | (Hthrows & Hfailure & index & f & Hfile & Hn & Hf)]];
    destruct (effect_run _ _ _ _ initial Hf) as (Hreturned & Hresults & _).
  - (* a check of the index document throws *)
    destruct (main_index_throw cfg files dp DATA_DIR e f initial Hf) as [lines E].
    pose proof (script_throw _ _ _ _ _ _ _ (E now)) as Hp.
    cbn [results stdout stderr exitCode app] in Hp.
    assert (Hcrash :
      results (script cfg files dp DATA_DIR now)
      = results (snd (validateIndexFile cfg files dp initial))
      /\ exit_status (script cfg files dp DATA_DIR now) = 1
      /\ (forall report, ~ In (Document report) (stdout (script cfg files dp DATA_DIR now)))
      /\ stderr (script cfg files dp DATA_DIR now) = [e]
      /\ ~ aborted cfg (script cfg files dp DATA_DIR now)).
    { rewrite Hp, Hresults. cbn [results stdout stderr]. repeat split.
      - intros report H. now apply Document_not_printed in H.
      - intros (_ & Hstderr & _). discriminate. }
    destruct Hcrash as (C1 & C2 & C3 & C4 & C5).
    split; [intros Ha; contradiction|].
    split; [split; [intros Ha; contradiction | intros H; congruence]|].
    split; [split; [intros H; congruence | intros [_ H]; congruence]|].
    split; [intros _; split; [assumption|]; split; assumption|].
    split.
    { intros _. split; [assumption|]. split; [assumption|]. split; [assumption|].
      split; [exists e; now split | assumption]. }
    split; [intros _ H; congruence | exact Hregions].
  - (* one of the three failures, the checks complete *)
    destruct (main_abort cfg files dp DATA_DIR f initial Hf) as [lines E].
    pose proof (script_normal _ _ _ _ _ _ (E now)) as Hp.
    cbn [results stdout stderr exitCode app] in Hp.
    assert (Habort : aborted cfg (script cfg files dp DATA_DIR now)).
    { rewrite Hp. unfold aborted, exit_status. cbn [results stdout stderr exitCode].
      repeat split.
      - intros report H. now apply Document_not_printed in H.
      - intros Hj. exists lines. unfold printed. now rewrite Hj. }
    split; [intros _; exact Hfailure|].
    split; [split; [intros _; exact Hreturned | intros _; exact Habort]|].
    split; [split; [intros _; now split | intros _; exact Hreturned]|].
    split.
    { intros _. split; [now rewrite Hp, Hresults|]. split; apply Habort. }
    split; [intros H; congruence|].
    split; [intros H; congruence | exact Hregions].
  - (* the index is returned *)
    assert (Hgo : ~ aborted cfg (script cfg files dp DATA_DIR now)).
    { destruct (tame_validateStates cfg files (keys_of (field index "states")) empty_object)
        as ([stateStats|e] & g & Hg).
      - destruct (run_reaches_report cfg files dp DATA_DIR index f stateStats g Hf Hn Hg)
          as [lines E].
        apply (report_not_aborted cfg _ (search_check files (g (f (results initial))))
                 stateStats now lines).
        apply script_normal, (E now).
      - destruct (main_throw cfg files dp DATA_DIR index f e g initial Hf Hn Hg)
          as [lines E].
        rewrite (script_throw _ _ _ _ _ _ _ (E now)).
        intros (_ & Hstderr & _). discriminate. }
    split; [intros Ha; contradiction|].
    split; [split; [intros Ha; contradiction | intros H; congruence]|].
    split; [split; [intros H; congruence | intros [H _]; congruence]|].
    split; [intros H; congruence|].
    split; [intros H; congruence|].
    split; [|exact Hregions].
    intros _ _.
    destruct (main_states cfg files dp DATA_DIR index f initial Hf Hn) as [lines E].
    exists index, lines. split; [assumption|]. split; [assumption|].
    rewrite (E now), Hresults. reflexivity.
Qed.

Lemma abort_only_on_index_failures_witness :
  aborted Sample.human
          (script Sample.human Sample.no_index Sample.Date_parse Sample.DATA_DIR
                  Sample.noon).
Proof.
  destruct (abort_only_on_index_failures Sample.human Sample.no_index Sample.Date_parse
              Sample.DATA_DIR Sample.noon) as (_ & Habort & Hreturned & _).
  apply Habort, Hreturned. now split.
Defined.

(** ** The coverage warning and the loop over the regions *)

Lemma join_concat sep l : join sep l = String.concat sep l.
Proof.
  induction l as [|s rest IH]; [reflexivity|].
  destruct rest as [|s' rest]; [reflexivity|].
  cbn [join String.concat] in *. now rewrite IH.
Qed.

Lemma validateStateFile_results cfg files stateCode p :
  results (snd (validateStateFile cfg files stateCode p))
  = region_check files stateCode (results p).
Proof.
  unfold region_check.
  destruct (data_file files (stateCode ++ ".json")) as [|message|data] eqn:Hfile.
  - now destruct (effect_run _ _ _ _ p
                    (effect_validateStateFile_NotFound cfg files stateCode Hfile))
      as (_ & -> & _).
  - now destruct (effect_run _ _ _ _ p
                    (effect_validateStateFile_Unparseable cfg files stateCode message Hfile))
      as (_ & -> & _).
  - destruct (stateIssues stateCode data) as [[found hasPWR]|e] eqn:Hissues.
    + now destruct (effect_run _ _ _ _ p
                      (effect_validateStateFile_Parsed cfg files stateCode data found
                         hasPWR Hfile Hissues)) as (_ & -> & _).
    + now destruct (effect_run _ _ _ _ p
                      (effect_validateStateFile_throw cfg files stateCode data e
                         Hfile Hissues)) as (_ & -> & _).
Qed.

(** A loop that completes has validated every region, in order. *)
Lemma validateStates_results cfg files stateCodes :
  forall stateStats p stats p',
    validateStates cfg files stateCodes stateStats p = (Normal stats, p') ->
    results p' = regions_check files stateCodes (results p).
Proof.
  unfold regions_check.
  induction stateCodes as [|stateCode rest IH]; intros stateStats p stats p';
    cbn [validateStates fold_left].
  - now intros [= _ <-].
  - unfold bind.
    pose proof (validateStateFile_results cfg files stateCode p) as Hone.
    destruct (validateStateFile cfg files stateCode p) as [[s|e] q]; [|discriminate].
    cbn [snd] in Hone. intros H. apply IH in H. now rewrite H, Hone.
Qed.

(** A loop that throws has validated every region before the one on
    which a check throws, and has stopped there. *)
Lemma validateStates_stops cfg files stateCodes :
  forall stateStats p e p',
    validateStates cfg files stateCodes stateStats p = (Throw e, p') ->
    exists done stateCode rest,
      stateCodes = (done ++ stateCode :: rest)%list
      /\ results p' = regions_check files done (results p)
      /\ forall q, fst (validateStateFile cfg files stateCode q) = Throw e.
Proof.
  unfold regions_check.
  induction stateCodes as [|stateCode rest IH]; intros stateStats p e p';
    cbn [validateStates]; [discriminate|].
  unfold bind.
  pose proof (validateStateFile_results cfg files stateCode p) as Hone.
  destruct (validateStateFile cfg files stateCode p) as [[s|e1] q] eqn:E; cbn [snd] in Hone.
  - intros H. apply IH in H as (done & k & rest' & -> & Hresults & Hthrow).
    exists (stateCode :: done), k, rest'. cbn [app fold_left].
    split; [reflexivity|]. split; [now rewrite Hresults, Hone | exact Hthrow].
  - intros [= <- <-]. exists [], stateCode, rest. cbn [app fold_left].
    split; [reflexivity|].
    assert (Hfst : fst (validateStateFile cfg files stateCode p) = Throw e1)
      by now rewrite E.
    destruct (effect_of_completion cfg _ _ p (tame_validateStateFile cfg files stateCode)
                Hfst) as [f Hf].
    destruct (effect_run _ _ _ _ p Hf) as (_ & Hresults & _).
    rewrite E in Hresults. cbn [snd] in Hresults.
    split.
    + rewrite Hone. unfold region_check.
      destruct (data_file files (stateCode ++ ".json")) as [|message|data] eqn:Hfile.
      * destruct (effect_run _ _ _ _ p
                    (effect_validateStateFile_NotFound cfg files stateCode Hfile))
          as (C & _). rewrite Hfst in C. discriminate.
      * destruct (effect_run _ _ _ _ p
                    (effect_validateStateFile_Unparseable cfg files stateCode message Hfile))
          as (C & _). rewrite Hfst in C. discriminate.
      * destruct (stateIssues stateCode data) as [[found hasPWR]|e2] eqn:Hissues;
          [|reflexivity].
        destruct (effect_run _ _ _ _ p
                    (effect_validateStateFile_Parsed cfg files stateCode data found
                       hasPWR Hfile Hissues)) as (C & _).
        rewrite Hfst in C. discriminate.
    + intros q'. now destruct (effect_run _ _ _ _ q' Hf).
Qed.

(** C5.  When the [states] object of the index lacks one of the
    expected codes and the check of [lastUpdated] completes, the index
    validator records exactly one warning, whose details are
    ["Missing: "] followed by the missing codes, separated by [", "], in
    the order of [EXPECTED_STATES]; the missing codes are the expected
    codes that are not keys of [states], so that keys outside the
    expected list change nothing.  The index is returned, and [main]
    goes on to the loop over the keys of [states], which validates
    every key in order: when it completes it has recorded the findings
    of each key, and it stops before the end only at a key on whose
    document a check throws.  The run that completes has recorded the
    warning, the findings of every key and those of the search index. *)
Theorem missing_states_warning cfg files dp DATA_DIR index g sprops :
  data_file files "index.json" = Parsed index ->
  lastUpdated_check dp index = Normal g ->
  field index "states" = Some (JObj sprops) ->
  missing (map fst sprops) <> [] ->
  let indexStates := map fst sprops in
  let coverage :=
    mkEntry "warning" "All expected states present"
            (JStr ("Missing: " ++ String.concat ", " (missing indexStates))) in
  let recorded r := push_warning coverage (incr_passed (g (incr_passed (incr_passed r)))) in
  effect cfg (validateIndexFile cfg files dp) (Normal (Some index)) recorded
  /\ (forall r, warnings (recorded r) = S (warnings r))
  /\ (forall s, In s (missing indexStates)
                <-> In s EXPECTED_STATES /\ ~ In s indexStates)
  /\ missing indexStates
     = filter (fun s => negb (includes indexStates s)) EXPECTED_STATES
  /\ (forall indexStates',
        (forall s, In s EXPECTED_STATES -> (In s indexStates' <-> In s indexStates)) ->
        missing indexStates' = missing indexStates)
  /\ (forall p, exists lines, forall now,
        main cfg files dp DATA_DIR now p
        = (stateStats <- validateStates cfg files indexStates empty_object ;;
           validateSearchIndex cfg files ;;
           generateReport cfg now stateStats)%proc
            (mkProcess (recorded (results p)) (stdout p ++ printed cfg lines)
                       (stderr p) (exitCode p)))
  /\ (forall stateStats p stats p',
        validateStates cfg files indexStates stateStats p = (Normal stats, p') ->
        results p' = regions_check files indexStates (results p))
  /\ (forall stateStats p e p',
        validateStates cfg files indexStates stateStats p = (Throw e, p') ->
        exists done stateCode rest,
          indexStates = (done ++ stateCode :: rest)%list
          /\ results p' = regions_check files done (results p)
          /\ forall q, fst (validateStateFile cfg files stateCode q) = Throw e)
  /\ (forall stateCode p,
        results (snd (validateStateFile cfg files stateCode p))
        = region_check files stateCode (results p))
  /\ (forall now pend,
        main cfg files dp DATA_DIR now initial = (Normal tt, pend) ->
        results pend
        = search_check files (regions_check files indexStates (recorded (results initial)))).
Proof.
  intros Hfile Hg Hstates Hmissing indexStates coverage recorded.
  destruct (states_object index sprops Hstates) as (Hn & Hok & Hkeys).
  assert (Hidx : effect cfg (validateIndexFile cfg files dp) (Normal (Some index)) recorded).
  { eapply effect_ext;
      [|apply (effect_validateIndexFile_ok cfg files dp index g Hfile Hn Hg Hok)].
    intros r. cbv beta. rewrite Hkeys. unfold recorded, coverage, coverage_check.
    fold indexStates. rewrite join_concat.
    destruct (missing indexStates) as [|s rest] eqn:Em; [now destruct Hmissing|].
    reflexivity. }
  assert (Hmain : forall p, exists lines, forall now,
        main cfg files dp DATA_DIR now p
        = (stateStats <- validateStates cfg files indexStates empty_object ;;
           validateSearchIndex cfg files ;;
           generateReport cfg now stateStats)%proc
            (mkProcess (recorded (results p)) (stdout p ++ printed cfg lines)
                       (stderr p) (exitCode p))).
  { intros p. destruct (main_states cfg files dp DATA_DIR index recorded p Hidx Hn)
      as [lines E].
    exists lines. intros now. rewrite E, Hkeys. reflexivity. }
  split; [exact Hidx|]. split.
  { intros r. unfold recorded. cbn [warnings push_warning incr_passed].
    now rewrite (lastUpdated_check_warnings dp index g Hg). }
  split; [intros s; apply missing_In|]. split; [reflexivity|].
  split; [intros indexStates'; apply missing_ext|].
  split; [exact Hmain|].
  split; [apply validateStates_results|].
  split; [apply validateStates_stops|].
  split; [intros stateCode p; apply validateStateFile_results|].
  intros now pend Hrun.
  destruct (Hmain initial) as [lines E]. rewrite (E now) in Hrun.
  unfold bind at 1 in Hrun.
  match type of Hrun with
  | context [validateStates cfg files indexStates empty_object ?q] =>
      pose proof (validateStates_results cfg files indexStates empty_object q) as Hloop;
      destruct (validateStates cfg files indexStates empty_object q)
        as [[stateStats|e] q1]; [|discriminate]
  end.
  specialize (Hloop stateStats q1 eq_refl). cbn [results] in Hloop.
  destruct (bind_effect cfg (validateSearchIndex cfg files)
              (fun _ => generateReport cfg now stateStats) tt _ q1
              (effect_validateSearchIndex cfg files)) as [lines' E'].
  rewrite E' in Hrun.
  match type of Hrun with
  | generateReport cfg now stateStats ?q = _ =>
      destruct (generateReport_results cfg now stateStats q) as [Hres _];
      rewrite Hrun in Hres
  end.
  cbn [snd results] in Hres. now rewrite Hres, Hloop.
Qed.

Lemma missing_states_warning_witness :
  effect Sample.human
         (validateIndexFile Sample.human Sample.partial Sample.Date_parse)
         (Normal (Some (Sample.index_of ["CA"; "NV"])))
         (fun r =>
            push_warning
              (mkEntry "warning" "All expected states present"
                 (JStr "Missing: AL, AK, AZ, AR, CO, CT, DE, DC, FL, GA, HI, ID, IL, IN, IA, KS, KY, LA, ME, MD, MA, MI, MN, MS, MO, MT, NE, NH, NJ, NM, NY, NC, ND, OH, OK, OR, PA, RI, SC, SD, TN, TX, UT, VT, VA, WA, WV, WI, WY"))
              (incr_passed (incr_passed (incr_passed (incr_passed r))))).
Proof.
  refine (proj1 (missing_states_warning Sample.human Sample.partial Sample.Date_parse
                   Sample.DATA_DIR (Sample.index_of ["CA"; "NV"]) incr_passed
                   [("CA", JObj []); ("NV", JObj [])] eq_refl eq_refl eq_refl _)).
  vm_compute. discriminate.
Defined.
